(** * SARndbox: the water-simulation core of [Sandbox]

    A shallow embedding of the parts of [Sandbox.h] / [Sandbox.cpp] that
    drive the water simulation: the grid read-back request slot
    ([Sandbox::GridRequest]), the raw depth frame dispatcher, the control
    pipe command interpreter of [Sandbox::frame], and the simulation
    update block of [Sandbox::display].

    Conventions.
    - [double] and [GLfloat] quantities are idealised as exact rationals
      ([Q]); rounding is not modelled.
    - Buffer and callback pointers are integers ([Z]); [0] is the null
      pointer.  A pointer to an object is an [option], or a [Pointer]
      where the constructor can leave the member unwritten.
    - An object whose class is outside Sandbox.cpp is represented by the
      calls it has received, or its calls are recorded as events, in
      program order. *)

From Stdlib Require Import ZArith QArith Qminmax Qabs Lqa Lia.
From Stdlib Require Import Qround.
From Stdlib Require Import List Bool String Ascii.
Import ListNotations.

Local Open Scope Z_scope.

(** ** [Sandbox::GridRequest] (Sandbox.h) *)

Module GridRequest.

(** [GridRequest::Request]: three destination buffers, the callback
    function pointer and its user data. *)
Record Request : Type := mkRequest {
  bathymetryBuffer : Z;
  waterLevelBuffer : Z;
  snowHeightBuffer : Z;
  callback : Z;
  callbackData : Z
}.

(** [Request(void)]: creates an inactive request. *)
Definition inactive : Request := mkRequest 0 0 0 0 0.

(** [Request::isActive]: [callback!=0]. *)
Definition isActive (r : Request) : bool := negb (callback r =? 0).

(** [GridRequest::requestGrids].  The mutex makes the body atomic, so
    the method is a function from the slot [currentRequest] to the new
    slot and the returned flag. *)
Definition requestGrids (currentRequest : Request)
    (newBathymetryBuffer newWaterLevelBuffer newSnowHeightBuffer : Z)
    (newCallback newCallbackData : Z) : Request * bool :=
  if callback currentRequest =? 0 then
    (mkRequest newBathymetryBuffer newWaterLevelBuffer newSnowHeightBuffer
               newCallback newCallbackData, true)
  else
    (currentRequest, false).

(** [GridRequest::getRequest]: returns the current request and
    deactivates the slot by clearing its callback only. *)
Definition getRequest (currentRequest : Request) : Request * Request :=
  (mkRequest (bathymetryBuffer currentRequest)
             (waterLevelBuffer currentRequest)
             (snowHeightBuffer currentRequest)
             0
             (callbackData currentRequest),
   currentRequest).

(** [submit slot r] is [requestGrids] applied to the fields of [r]. *)
Definition submit (currentRequest r : Request) : Request * bool :=
  requestGrids currentRequest (bathymetryBuffer r) (waterLevelBuffer r)
               (snowHeightBuffer r) (callback r) (callbackData r).

(** A linearised history of [requestGrids] calls, none of them
    separated by a [getRequest]: the calls run one after the other in
    the order in which they acquire the mutex.  Returns the final slot
    and the flag each call returned. *)
Fixpoint submitAll (currentRequest : Request) (calls : list Request)
    : Request * list bool :=
  match calls with
  | [] => (currentRequest, [])
  | r :: rest =>
      let (slot, ok) := submit currentRequest r in
      let (slot', oks) := submitAll slot rest in
      (slot', ok :: oks)
  end.

(** Number of calls that were granted. *)
Definition granted (oks : list bool) : nat := count_occ bool_dec oks true.

(** The two orders in which two concurrent calls can acquire the mutex. *)
Definition interleavings (a b : Request) : list (list Request) :=
  [[a; b]; [b; a]].

(** A call of one of the two methods of [GridRequest]. *)
Inductive Call : Type :=
| RequestGrids (r : Request)
| GetRequest.

(** One call on the slot.  Next to the slot runs a count of the live
    requests: those that were granted with a callback and have not been
    handed out by [getRequest] yet. *)
Definition call (state : Request * nat) (c : Call) : Request * nat :=
  let (slot, live) := state in
  match c with
  | RequestGrids r =>
      let (slot', ok) := submit slot r in
      (slot', if ok && isActive r then S live else live)
  | GetRequest =>
      let (slot', taken) := getRequest slot in
      (slot', if isActive taken then pred live else live)
  end.

(** A linearised history of calls, from the slot as constructed. *)
Definition history (calls : list Call) : Request * nat :=
  fold_left call calls (inactive, 0%nat).

End GridRequest.

(** ** Numeric helpers *)

Definition Qltb (x y : Q) : bool := negb (Qle_bool y x).

(** The clamp performed by a bounded widget or by [Math::clamp]. *)
Definition Qclamp (lo hi v : Q) : Q :=
  if Qltb v lo then lo else if Qltb hi v then hi else v.

Fixpoint Qsum (l : list Q) : Q :=
  match l with
  | [] => 0%Q
  | x :: r => (x + Qsum r)%Q
  end.

(** ** [Sandbox::rawDepthFrameDispatcher] (Sandbox.cpp) *)

Module Dispatcher.

(** A raw depth frame; only its identity matters to the dispatcher. *)
Definition FrameBuffer : Type := nat.

(** The two receivers are objects of classes [FrameFilter] and
    [HandExtractor]; each is represented by the frames handed to its
    [receiveRawFrame], oldest first.  [None] is the null pointer. *)
Record Sandbox : Type := mkSandbox {
  frameFilter : option (list FrameBuffer);
  pauseUpdates : bool;
  handExtractor : option (list FrameBuffer)
}.

Definition receiveRawFrame (received : list FrameBuffer) (f : FrameBuffer)
    : list FrameBuffer := received ++ [f].

Definition rawDepthFrameDispatcher (s : Sandbox) (frameBuffer : FrameBuffer)
    : Sandbox :=
  let frameFilter' :=
    match frameFilter s with
    | Some ff =>
        if negb (pauseUpdates s) then Some (receiveRawFrame ff frameBuffer)
        else Some ff
    | None => None
    end in
  let handExtractor' :=
    match handExtractor s with
    | Some he => Some (receiveRawFrame he frameBuffer)
    | None => None
    end in
  mkSandbox frameFilter' (pauseUpdates s) handExtractor'.

(** [Sandbox::pauseUpdatesCallback]. *)
Definition pauseUpdatesCallback (s : Sandbox) (set : bool) : Sandbox :=
  mkSandbox (frameFilter s) set (handExtractor s).

(** A stream of raw frames delivered by the camera thread. *)
Definition dispatchAll (s : Sandbox) (frames : list FrameBuffer) : Sandbox :=
  fold_left rawDepthFrameDispatcher frames s.

End Dispatcher.

(** ** The control pipe: helper functions (Sandbox.cpp, anonymous namespace) *)

Module Tokenizer.

Local Open Scope char_scope.
Local Open Scope string_scope.

(** C's [isspace] in the "C" locale: space, [\t], [\n], [\v], [\f], [\r]. *)
Definition isspace (c : ascii) : bool :=
  let n := nat_of_ascii c in
  (n =? 32)%nat || ((9 <=? n)%nat && (n <=? 13)%nat).

Definition isNewline (c : ascii) : bool := (nat_of_ascii c =? 10)%nat.

(** C's [tolower] in the "C" locale. *)
Definition tolower (c : ascii) : ascii :=
  let n := nat_of_ascii c in
  if ((65 <=? n)%nat && (n <=? 90)%nat) then ascii_of_nat (n + 32) else c.

Fixpoint lowercase (s : string) : string :=
  match s with
  | EmptyString => EmptyString
  | String c r => String (tolower c) (lowercase r)
  end.

(** [isToken]: [strcasecmp(token.c_str(),pattern)==0]. *)
Definition isToken (token pattern : string) : bool :=
  String.eqb (lowercase token) (lowercase pattern).

(** The bytes returned by [read] are turned into a C string by writing
    a NUL after them; every scan below stops at the first NUL, so only
    the prefix before it is ever seen. *)
Fixpoint c_str (bytes : string) : string :=
  match bytes with
  | EmptyString => EmptyString
  | String c r =>
      if (nat_of_ascii c =? 0)%nat then EmptyString else String c (c_str r)
  end.

(** The loop that skips whitespace but not the end of the line:
    advance while the current character is neither NUL nor a newline
    and is a space. *)
Fixpoint skipWhitespace (b : string) : string :=
  match b with
  | EmptyString => b
  | String c r =>
      if negb (isNewline c) && isspace c then skipWhitespace r else b
  end.

(** The loop that finds the end of the current token (advance while
    the current character is neither NUL nor a space), together with
    [std::string(tokenStart,bPtr)]: the token and what follows it. *)
Fixpoint scanToken (b : string) : string * string :=
  match b with
  | EmptyString => (EmptyString, b)
  | String c r =>
      if isspace c then (EmptyString, b)
      else let (tok, rest) := scanToken r in (String c tok, rest)
  end.

(** The token extraction loop of [tokenizeLine]: while the current
    character is neither NUL nor a newline, extract a token and skip
    the whitespace after it.
    [fuel] bounds the number of iterations; each iteration consumes at
    least one character, so the length of [b] is always enough. *)
Fixpoint extractTokens (fuel : nat) (b : string) : list string * string :=
  match fuel with
  | O => ([], b)
  | S fuel' =>
      match b with
      | EmptyString => ([], b)
      | String c _ =>
          if isNewline c then ([], b)
          else
            let (tok, afterTok) := scanToken b in
            let (toks, rest) := extractTokens fuel' (skipWhitespace afterTok) in
            (tok :: toks, rest)
      end
  end.

(** [tokenizeLine(const char*& buffer)]: returns the tokens of the
    current line and the start of the next line. *)
Definition tokenizeLine (buffer : string) : list string * string :=
  let b := skipWhitespace buffer in
  let (result, b') := extractTokens (String.length b) b in
  match b' with
  | String c r => if isNewline c then (result, r) else (result, b')
  | EmptyString => (result, b')
  end.

End Tokenizer.

(** ** The control pipe: objects written by the commands *)

Module ControlPipe.

Import Tokenizer.
Local Open Scope string_scope.

(** A widget pointer member of [Sandbox]: null, pointing to a widget,
    or never written.  The initializer list of the constructor sets
    [snowLineSlider], [waterSpeedSlider], [waterMaxStepsSlider] and
    [waterAttenuationSlider] to null and leaves out [snowMeltSlider],
    [waterModeRadioBox], [waterRoughnessSlider] and
    [waterAbsorptionSlider]; all eight are assigned in
    [createWaterControlDialog], which the constructor calls only if
    there is a water table. *)
Inductive Pointer (A : Type) : Type :=
| Null
| Valid (target : A)
| Indeterminate.

Arguments Null {A}.
Arguments Valid {A} target.
Arguments Indeterminate {A}.

Definition isValid {A : Type} (p : Pointer A) : Prop :=
  match p with
  | Valid _ => True
  | _ => False
  end.

(** [GLMotif::TextFieldSlider], a widget of the Vrui toolkit: a value
    kept inside the range set with [setValueRange].  [setValue] clamps,
    as the comment at the snowLine command relies on ("Set the new
    value in the slider first to clamp it to the valid range"). *)
Record TextFieldSlider : Type := mkSlider {
  valueMin : Q;
  valueMax : Q;
  value : Q
}.

Definition setValue (sl : TextFieldSlider) (v : Q) : TextFieldSlider :=
  mkSlider (valueMin sl) (valueMax sl) (Qclamp (valueMin sl) (valueMax sl) v).

Definition getValue (sl : TextFieldSlider) : Q := value sl.

(** [WaterTable2::Mode]. *)
Inductive Mode : Type := Traditional | Engineering.

(** Modelled from the spec: class [WaterTable2] is not under src/.
    These are its simulation parameters that the control pipe writes;
    the spec (3, 6) has each command set its parameter, so each setter
    stores its argument in the member of the same name. *)
Record WaterTable2 : Type := mkWaterTable2 {
  snowLine : Q;
  snowMelt : Q;
  attenuation : Q;
  waterDeposit : Q;
  mode : Mode
}.

Definition setSnowLine (v : Q) (w : WaterTable2) : WaterTable2 :=
  mkWaterTable2 v (snowMelt w) (attenuation w) (waterDeposit w) (mode w).
Definition setSnowMelt (v : Q) (w : WaterTable2) : WaterTable2 :=
  mkWaterTable2 (snowLine w) v (attenuation w) (waterDeposit w) (mode w).
Definition setAttenuation (v : Q) (w : WaterTable2) : WaterTable2 :=
  mkWaterTable2 (snowLine w) (snowMelt w) v (waterDeposit w) (mode w).
Definition setWaterDeposit (v : Q) (w : WaterTable2) : WaterTable2 :=
  mkWaterTable2 (snowLine w) (snowMelt w) (attenuation w) v (mode w).
Definition setMode (m : Mode) (w : WaterTable2) : WaterTable2 :=
  mkWaterTable2 (snowLine w) (snowMelt w) (attenuation w) (waterDeposit w) m.

(** Modelled from the spec: class [PropertyGridCreator] is not under
    src/.  These are the two scalars the pipe sets, applied across the
    property grid (6); each setter stores its argument. *)
Record PropertyGridCreator : Type := mkPropertyGridCreator {
  roughness : Q;
  absorption : Q
}.

Definition setRoughness (v : Q) (p : PropertyGridCreator) : PropertyGridCreator :=
  mkPropertyGridCreator v (absorption p).
Definition setAbsorption (v : Q) (p : PropertyGridCreator) : PropertyGridCreator :=
  mkPropertyGridCreator (roughness p) v.

(** Calls made on a [SurfaceRenderer] (SurfaceRenderer.h).  The two
    plane-valued calls carry the coefficients read from the command;
    the plane handed over is their normalisation. *)
Inductive SurfaceRendererCall : Type :=
| setWaterColor (r g b : Q)
| setWaterReflectionColor (r g b : Q)
| setDrawContourLines (on : bool)
| setContourLineDistance (d : Q)
| setDrawDippingBed (on : bool)
| setDippingBedPlane (a b c d : Q)
| setDippingBedCoeffs (coeffs : list Q)
| setDippingBedThickness (t : Q)
| loadWarpTexture (fileName : string)
| setUseWarpTexture (on : bool)
| setWarpIntensity (v : Q)
| setTextureScale (v : Q)
| setGradientThreshold (v : Q)
| setWarpMode (m : Z)
| setTextureBlendMode (m : Z)
| setTextureOpacity (v : Q).

(** Calls made on an [ElevationColorMap] (ElevationColorMap.h). *)
Inductive ElevationColorMapCall : Type :=
| setColorCycling (enable : bool) (speed : Q)
| load (heightMapName : string)
| calcTexturePlane (a b c d : Q).

(** The two members of [Sandbox::RenderSettings] reached from the
    pipe.  Each object is represented by the calls it has received,
    oldest first; [None] is the null pointer. *)
Record RenderSettings : Type := mkRenderSettings {
  surfaceRenderer : option (list SurfaceRendererCall);
  elevationColorMap : option (list ElevationColorMapCall)
}.

(** The members of [Sandbox] read or written by the control pipe
    block of [Sandbox::frame].  [cerr] collects the lines written to
    [std::cerr], oldest first. *)
Record Sandbox : Type := mkSandbox {
  waterTable : option WaterTable2;
  waterSpeed : Q;
  waterMaxSteps : Z;
  rainStrength : Q;
  propertyGridCreator : option PropertyGridCreator;
  renderSettings : list RenderSettings;
  snowLineSlider : Pointer TextFieldSlider;
  snowMeltSlider : Pointer TextFieldSlider;
  waterSpeedSlider : Pointer TextFieldSlider;
  waterMaxStepsSlider : Pointer TextFieldSlider;
  waterModeRadioBox : Pointer Z;
  waterAttenuationSlider : Pointer TextFieldSlider;
  waterRoughnessSlider : Pointer TextFieldSlider;
  waterAbsorptionSlider : Pointer TextFieldSlider;
  cerr : list string
}.

(** Assignment to one member of [Sandbox]. *)
Definition with_waterTable (v : option WaterTable2) (s : Sandbox) : Sandbox :=
  mkSandbox v (waterSpeed s) (waterMaxSteps s) (rainStrength s)
    (propertyGridCreator s) (renderSettings s) (snowLineSlider s)
    (snowMeltSlider s) (waterSpeedSlider s) (waterMaxStepsSlider s)
    (waterModeRadioBox s) (waterAttenuationSlider s)
    (waterRoughnessSlider s) (waterAbsorptionSlider s) (cerr s).
Definition with_waterSpeed (v : Q) (s : Sandbox) : Sandbox :=
  mkSandbox (waterTable s) v (waterMaxSteps s) (rainStrength s)
    (propertyGridCreator s) (renderSettings s) (snowLineSlider s)
    (snowMeltSlider s) (waterSpeedSlider s) (waterMaxStepsSlider s)
    (waterModeRadioBox s) (waterAttenuationSlider s)
    (waterRoughnessSlider s) (waterAbsorptionSlider s) (cerr s).
Definition with_waterMaxSteps (v : Z) (s : Sandbox) : Sandbox :=
  mkSandbox (waterTable s) (waterSpeed s) v (rainStrength s)
    (propertyGridCreator s) (renderSettings s) (snowLineSlider s)
    (snowMeltSlider s) (waterSpeedSlider s) (waterMaxStepsSlider s)
    (waterModeRadioBox s) (waterAttenuationSlider s)
    (waterRoughnessSlider s) (waterAbsorptionSlider s) (cerr s).
Definition with_rainStrength (v : Q) (s : Sandbox) : Sandbox :=
  mkSandbox (waterTable s) (waterSpeed s) (waterMaxSteps s) v
    (propertyGridCreator s) (renderSettings s) (snowLineSlider s)
    (snowMeltSlider s) (waterSpeedSlider s) (waterMaxStepsSlider s)
    (waterModeRadioBox s) (waterAttenuationSlider s)
    (waterRoughnessSlider s) (waterAbsorptionSlider s) (cerr s).
Definition with_propertyGridCreator (v : option PropertyGridCreator) (s : Sandbox) : Sandbox :=
  mkSandbox (waterTable s) (waterSpeed s) (waterMaxSteps s) (rainStrength s)
    v (renderSettings s) (snowLineSlider s) (snowMeltSlider s)
    (waterSpeedSlider s) (waterMaxStepsSlider s) (waterModeRadioBox s)
    (waterAttenuationSlider s) (waterRoughnessSlider s)
    (waterAbsorptionSlider s) (cerr s).
Definition with_renderSettings (v : list RenderSettings) (s : Sandbox) : Sandbox :=
  mkSandbox (waterTable s) (waterSpeed s) (waterMaxSteps s) (rainStrength s)
    (propertyGridCreator s) v (snowLineSlider s) (snowMeltSlider s)
    (waterSpeedSlider s) (waterMaxStepsSlider s) (waterModeRadioBox s)
    (waterAttenuationSlider s) (waterRoughnessSlider s)
    (waterAbsorptionSlider s) (cerr s).
Definition with_snowLineSlider (v : Pointer TextFieldSlider) (s : Sandbox) : Sandbox :=
  mkSandbox (waterTable s) (waterSpeed s) (waterMaxSteps s) (rainStrength s)
    (propertyGridCreator s) (renderSettings s) v (snowMeltSlider s)
    (waterSpeedSlider s) (waterMaxStepsSlider s) (waterModeRadioBox s)
    (waterAttenuationSlider s) (waterRoughnessSlider s)
    (waterAbsorptionSlider s) (cerr s).
Definition with_snowMeltSlider (v : Pointer TextFieldSlider) (s : Sandbox) : Sandbox :=
  mkSandbox (waterTable s) (waterSpeed s) (waterMaxSteps s) (rainStrength s)
    (propertyGridCreator s) (renderSettings s) (snowLineSlider s) v
    (waterSpeedSlider s) (waterMaxStepsSlider s) (waterModeRadioBox s)
    (waterAttenuationSlider s) (waterRoughnessSlider s)
    (waterAbsorptionSlider s) (cerr s).
Definition with_waterSpeedSlider (v : Pointer TextFieldSlider) (s : Sandbox) : Sandbox :=
  mkSandbox (waterTable s) (waterSpeed s) (waterMaxSteps s) (rainStrength s)
    (propertyGridCreator s) (renderSettings s) (snowLineSlider s)
    (snowMeltSlider s) v (waterMaxStepsSlider s) (waterModeRadioBox s)
    (waterAttenuationSlider s) (waterRoughnessSlider s)
    (waterAbsorptionSlider s) (cerr s).
Definition with_waterMaxStepsSlider (v : Pointer TextFieldSlider) (s : Sandbox) : Sandbox :=
  mkSandbox (waterTable s) (waterSpeed s) (waterMaxSteps s) (rainStrength s)
    (propertyGridCreator s) (renderSettings s) (snowLineSlider s)
    (snowMeltSlider s) (waterSpeedSlider s) v (waterModeRadioBox s)
    (waterAttenuationSlider s) (waterRoughnessSlider s)
    (waterAbsorptionSlider s) (cerr s).
Definition with_waterModeRadioBox (v : Pointer Z) (s : Sandbox) : Sandbox :=
  mkSandbox (waterTable s) (waterSpeed s) (waterMaxSteps s) (rainStrength s)
    (propertyGridCreator s) (renderSettings s) (snowLineSlider s)
    (snowMeltSlider s) (waterSpeedSlider s) (waterMaxStepsSlider s) v
    (waterAttenuationSlider s) (waterRoughnessSlider s)
    (waterAbsorptionSlider s) (cerr s).
Definition with_waterAttenuationSlider (v : Pointer TextFieldSlider) (s : Sandbox) : Sandbox :=
  mkSandbox (waterTable s) (waterSpeed s) (waterMaxSteps s) (rainStrength s)
    (propertyGridCreator s) (renderSettings s) (snowLineSlider s)
    (snowMeltSlider s) (waterSpeedSlider s) (waterMaxStepsSlider s)
    (waterModeRadioBox s) v (waterRoughnessSlider s)
    (waterAbsorptionSlider s) (cerr s).
Definition with_waterRoughnessSlider (v : Pointer TextFieldSlider) (s : Sandbox) : Sandbox :=
  mkSandbox (waterTable s) (waterSpeed s) (waterMaxSteps s) (rainStrength s)
    (propertyGridCreator s) (renderSettings s) (snowLineSlider s)
    (snowMeltSlider s) (waterSpeedSlider s) (waterMaxStepsSlider s)
    (waterModeRadioBox s) (waterAttenuationSlider s) v
    (waterAbsorptionSlider s) (cerr s).
Definition with_waterAbsorptionSlider (v : Pointer TextFieldSlider) (s : Sandbox) : Sandbox :=
  mkSandbox (waterTable s) (waterSpeed s) (waterMaxSteps s) (rainStrength s)
    (propertyGridCreator s) (renderSettings s) (snowLineSlider s)
    (snowMeltSlider s) (waterSpeedSlider s) (waterMaxStepsSlider s)
    (waterModeRadioBox s) (waterAttenuationSlider s)
    (waterRoughnessSlider s) v (cerr s).
Definition with_cerr (v : list string) (s : Sandbox) : Sandbox :=
  mkSandbox (waterTable s) (waterSpeed s) (waterMaxSteps s) (rainStrength s)
    (propertyGridCreator s) (renderSettings s) (snowLineSlider s)
    (snowMeltSlider s) (waterSpeedSlider s) (waterMaxStepsSlider s)
    (waterModeRadioBox s) (waterAttenuationSlider s)
    (waterRoughnessSlider s) (waterAbsorptionSlider s) v.

(** How the command block of [Sandbox::frame] can end: normally, by
    dereferencing a null pointer where the code has no null check, or by
    reading a pointer member that was never written (undefined
    behaviour; the value is whatever the stack held). *)
Inductive Outcome : Type :=
| Normal (s : Sandbox)
| NullDereference
| IndeterminateRead.

Definition report (msg : string) (s : Sandbox) : Sandbox :=
  with_cerr (cerr s ++ [msg])%list s.

Definition wrongNumber (name : string) (s : Sandbox) : Sandbox :=
  report ("Wrong number of arguments for " ++ name ++ " control pipe command") s.

(** The loop over [renderSettings] that calls [surfaceRenderer]
    methods.  [checked] tells whether the loop body tests the pointer
    against null before the call. *)
Fixpoint forEachSurfaceRenderer (checked : bool)
    (calls : list SurfaceRendererCall) (rss : list RenderSettings)
    : option (list RenderSettings) :=
  match rss with
  | [] => Some []
  | rs :: rest =>
      match surfaceRenderer rs with
      | Some received =>
          option_map
            (cons (mkRenderSettings (Some (received ++ calls)%list) (elevationColorMap rs)))
            (forEachSurfaceRenderer checked calls rest)
      | None =>
          if checked
          then option_map (cons rs) (forEachSurfaceRenderer checked calls rest)
          else None
      end
  end.

Definition onSurfaceRenderers (checked : bool)
    (calls : list SurfaceRendererCall) (s : Sandbox) : Outcome :=
  match forEachSurfaceRenderer checked calls (renderSettings s) with
  | Some rss => Normal (with_renderSettings rss s)
  | None => NullDereference
  end.

(** The loop over [renderSettings] that calls [elevationColorMap]
    methods; every such loop tests the pointer first. *)
Definition forEachElevationColorMap (call : ElevationColorMapCall)
    (rss : list RenderSettings) : list RenderSettings :=
  map (fun rs =>
         match elevationColorMap rs with
         | Some received =>
             mkRenderSettings (surfaceRenderer rs) (Some (received ++ [call])%list)
         | None => rs
         end) rss.

Definition hasElevationColorMap (rss : list RenderSettings) : bool :=
  existsb (fun rs => match elevationColorMap rs with Some _ => true | None => false end) rss.

(** [if(slider!=0) slider->setValue(v);]: the slider after the
    statement and the value [slider->getValue()] would then return ([v]
    itself when there is no slider) are handed to the rest of the
    branch. *)
Definition withSlider (sl : Pointer TextFieldSlider) (v : Q)
    (rest : Pointer TextFieldSlider -> Q -> Outcome) : Outcome :=
  match sl with
  | Null => rest Null v
  | Valid w => rest (Valid (setValue w v)) (getValue (setValue w v))
  | Indeterminate => IndeterminateRead
  end.

(** Conversion of an [int] to [unsigned int]. *)
Definition toUnsigned (z : Z) : Z := z mod 2 ^ 32.

(** ** The control pipe: the command block of [Sandbox::frame] *)

Section Commands.

(** C library conversions and the formatting of a float on a
    stream; [colorMapLoad name] is [None] when
    [ElevationColorMap::load] returns and [Some what] when it throws
    a [std::runtime_error] with that message. *)
Variable atof : string -> Q.
Variable atoi : string -> Z.
Variable showFloat : Q -> string.
Variable colorMapLoad : string -> option string.

(** The second half of the chain of [isToken(tokens[0],...)] tests,
    from [waterColor] down to the final [else]: the commands that
    address the renderers. *)
Definition execRendererCommand (tokens : list string) (s : Sandbox) : Outcome :=
  let size := List.length tokens in
  let tok := fun i => nth i tokens EmptyString in
  let num := fun i => atof (tok i) in
  let onColorMaps := fun call =>
    Normal (with_renderSettings (forEachElevationColorMap call (renderSettings s)) s) in
  if isToken (tok 0%nat) "waterColor" then
    if (size =? 4)%nat then
      onSurfaceRenderers true [setWaterColor (num 1%nat) (num 2%nat) (num 3%nat)] s
    else Normal (wrongNumber "waterColor" s)
  else if isToken (tok 0%nat) "waterReflectionColor" then
    if (size =? 4)%nat then
      onSurfaceRenderers true
        [setWaterReflectionColor (num 1%nat) (num 2%nat) (num 3%nat)] s
    else Normal (wrongNumber "waterReflectionColor" s)
  else if isToken (tok 0%nat) "colorCycle" then
    if (2 <=? size)%nat then
      let enable := atoi (tok 1%nat) in
      let speed := if (3 <=? size)%nat then num 2%nat else 1%Q in
      onColorMaps (setColorCycling (negb (enable =? 0)%Z) speed)
    else Normal (wrongNumber "colorCycle" s)
  else if isToken (tok 0%nat) "colorMap" then
    if (size =? 2)%nat then
      match colorMapLoad (tok 1%nat) with
      | None => onColorMaps (load (tok 1%nat))
      | Some what =>
          if hasElevationColorMap (renderSettings s) then
            Normal (report ("Cannot read height color map " ++ tok 1%nat
                            ++ " due to exception " ++ what) s)
          else Normal s
      end
    else Normal (wrongNumber "colorMap" s)
  else if isToken (tok 0%nat) "heightMapPlane" then
    if (size =? 5)%nat then
      onColorMaps (calcTexturePlane (num 1%nat) (num 2%nat) (num 3%nat) (num 4%nat))
    else Normal (wrongNumber "heightMapPlane" s)
  else if isToken (tok 0%nat) "useContourLines" then
    if (size =? 2)%nat then
      if isToken (tok 1%nat) "on" || isToken (tok 1%nat) "off" then
        onSurfaceRenderers false [setDrawContourLines (isToken (tok 1%nat) "on")] s
      else
        Normal (report ("Invalid parameter " ++ tok 1%nat
                        ++ " for useContourLines control pipe command") s)
    else Normal (wrongNumber "contourLineSpacing" s)
  else if isToken (tok 0%nat) "contourLineSpacing" then
    if (size =? 2)%nat then
      let contourLineSpacing := num 1%nat in
      if Qltb 0%Q contourLineSpacing then
        onSurfaceRenderers false [setContourLineDistance contourLineSpacing] s
      else
        Normal (report ("Invalid parameter " ++ showFloat contourLineSpacing
                        ++ " for contourLineSpacing control pipe command") s)
    else Normal (wrongNumber "contourLineSpacing" s)
  else if isToken (tok 0%nat) "dippingBed" then
    if (size =? 2)%nat && isToken (tok 1%nat) "off" then
      onSurfaceRenderers false [setDrawDippingBed false] s
    else if (size =? 5)%nat then
      onSurfaceRenderers false
        [setDrawDippingBed true;
         setDippingBedPlane (num 1%nat) (num 2%nat) (num 3%nat) (num 4%nat)] s
    else Normal (wrongNumber "dippingBed" s)
  else if isToken (tok 0%nat) "foldedDippingBed" then
    if (size =? 6)%nat then
      onSurfaceRenderers false
        [setDrawDippingBed true;
         setDippingBedCoeffs (map num [1; 2; 3; 4; 5]%nat)] s
    else Normal (wrongNumber "foldedDippingBed" s)
  else if isToken (tok 0%nat) "dippingBedThickness" then
    if (size =? 2)%nat then
      onSurfaceRenderers false [setDippingBedThickness (num 1%nat)] s
    else Normal (wrongNumber "dippingBedThickness" s)
  else if isToken (tok 0%nat) "loadWarpTexture" then
    if (size =? 2)%nat then onSurfaceRenderers true [loadWarpTexture (tok 1%nat)] s
    else Normal (wrongNumber "loadWarpTexture" s)
  else if isToken (tok 0%nat) "useWarpTexture" then
    if (size =? 2)%nat then
      if isToken (tok 1%nat) "on" || isToken (tok 1%nat) "off" then
        onSurfaceRenderers true [setUseWarpTexture (isToken (tok 1%nat) "on")] s
      else
        Normal (report ("Invalid parameter " ++ tok 1%nat
                        ++ " for useWarpTexture control pipe command") s)
    else Normal (wrongNumber "useWarpTexture" s)
  else if isToken (tok 0%nat) "warpIntensity" then
    if (size =? 2)%nat then onSurfaceRenderers true [setWarpIntensity (num 1%nat)] s
    else Normal (wrongNumber "warpIntensity" s)
  else if isToken (tok 0%nat) "textureScale" then
    if (size =? 2)%nat then onSurfaceRenderers true [setTextureScale (num 1%nat)] s
    else Normal (wrongNumber "textureScale" s)
  else if isToken (tok 0%nat) "gradientThreshold" then
    if (size =? 2)%nat then onSurfaceRenderers true [setGradientThreshold (num 1%nat)] s
    else Normal (wrongNumber "gradientThreshold" s)
  else if isToken (tok 0%nat) "warpMode" then
    if (size =? 2)%nat then onSurfaceRenderers true [setWarpMode (atoi (tok 1%nat))] s
    else Normal (wrongNumber "warpMode" s)
  else if isToken (tok 0%nat) "textureBlendMode" then
    if (size =? 2)%nat then
      onSurfaceRenderers true [setTextureBlendMode (atoi (tok 1%nat))] s
    else Normal (wrongNumber "textureBlendMode" s)
  else if isToken (tok 0%nat) "textureOpacity" then
    if (size =? 2)%nat then onSurfaceRenderers true [setTextureOpacity (num 1%nat)] s
    else Normal (wrongNumber "textureOpacity" s)
  else
    Normal (report ("Unrecognized control pipe command " ++ tok 0%nat) s).

(** The body of the command loop after the empty-line test: the
    first half of the chain of [isToken(tokens[0],...)] tests, the
    commands that address the water simulation. *)
Definition execCommand (tokens : list string) (s : Sandbox) : Outcome :=
  let size := List.length tokens in
  let tok := fun i => nth i tokens EmptyString in
  let num := fun i => atof (tok i) in
  if isToken (tok 0%nat) "snowLine" then
    if (size =? 2)%nat then
      withSlider (snowLineSlider s) (num 1%nat) (fun slider snowLine =>
        Normal (with_waterTable (option_map (setSnowLine snowLine) (waterTable s))
               (with_snowLineSlider slider s)))
    else Normal (wrongNumber "snowLine" s)
  else if isToken (tok 0%nat) "snowMelt" then
    if (size =? 2)%nat then
      withSlider (snowMeltSlider s) (num 1%nat) (fun slider snowMelt =>
        Normal (with_waterTable (option_map (setSnowMelt snowMelt) (waterTable s))
               (with_snowMeltSlider slider s)))
    else Normal (wrongNumber "snowMelt" s)
  else if isToken (tok 0%nat) "waterSpeed" then
    if (size =? 2)%nat then
      withSlider (waterSpeedSlider s) (num 1%nat) (fun slider _ =>
        Normal (with_waterSpeedSlider slider (with_waterSpeed (num 1%nat) s)))
    else Normal (wrongNumber "waterSpeed" s)
  else if isToken (tok 0%nat) "waterMaxSteps" then
    if (size =? 2)%nat then
      let n := toUnsigned (atoi (tok 1%nat)) in
      withSlider (waterMaxStepsSlider s) (inject_Z n) (fun slider _ =>
        Normal (with_waterMaxStepsSlider slider (with_waterMaxSteps n s)))
    else Normal (wrongNumber "waterMaxSteps" s)
  else if isToken (tok 0%nat) "waterMode" then
    if (size =? 2)%nat then
      if isToken (tok 1%nat) "traditional" then
        match waterTable s with
        | Some w =>
            match waterModeRadioBox s with
            | Valid _ =>
                Normal (with_waterModeRadioBox (Valid 0)
                       (with_waterTable (Some (setMode Traditional w)) s))
            | Null => NullDereference
            | Indeterminate => IndeterminateRead
            end
        | None => Normal s
        end
      else if isToken (tok 1%nat) "engineering" then
        match waterTable s with
        | Some w =>
            match waterModeRadioBox s with
            | Valid _ =>
                Normal (with_waterModeRadioBox (Valid 1)
                       (with_waterTable (Some (setMode Engineering w)) s))
            | Null => NullDereference
            | Indeterminate => IndeterminateRead
            end
        | None => Normal s
        end
      else
        Normal (report ("Unknown water mode " ++ tok 1%nat
                        ++ " in waterMode control pipe command") s)
    else Normal (wrongNumber "waterMode" s)
  else if isToken (tok 0%nat) "waterAttenuation" then
    if (size =? 2)%nat then
      let a := num 1%nat in
      withSlider (waterAttenuationSlider s) a (fun slider _ =>
        Normal (with_waterAttenuationSlider slider
               (with_waterTable
                  (option_map (setAttenuation (1 - a)%Q) (waterTable s)) s)))
    else Normal (wrongNumber "waterAttenuation" s)
  else if isToken (tok 0%nat) "waterRoughness" then
    if (size =? 2)%nat then
      let r := num 1%nat in
      withSlider (waterRoughnessSlider s) r (fun slider _ =>
        Normal (with_waterRoughnessSlider slider
               (with_propertyGridCreator
                  (option_map (setRoughness r) (propertyGridCreator s)) s)))
    else Normal (wrongNumber "waterRoughness" s)
  else if isToken (tok 0%nat) "rainStrength" then
    if (size =? 2)%nat then Normal (with_rainStrength (num 1%nat) s)
    else Normal (wrongNumber "rainStrength" s)
  else if isToken (tok 0%nat) "waterAbsorption" then
    if (size =? 2)%nat then
      let a := num 1%nat in
      withSlider (waterAbsorptionSlider s) a (fun slider _ =>
        Normal (with_waterAbsorptionSlider slider
               (with_propertyGridCreator
                  (option_map (setAbsorption a) (propertyGridCreator s)) s)))
    else Normal (wrongNumber "waterAbsorption" s)
  else if isToken (tok 0%nat) "evaporationRate" then
    if (size =? 2)%nat then
      Normal (with_waterTable (option_map (setWaterDeposit (num 1%nat)) (waterTable s)) s)
    else Normal (wrongNumber "evaporationRate" s)
  else execRendererCommand tokens s.

(** The command loop: while the current character is not NUL, split
    the current line into tokens, skip empty lines, run the command.
    [None] only when [fuel] runs out; every iteration consumes at
    least one character. *)
Fixpoint processCommands (fuel : nat) (cPtr : string) (s : Sandbox)
    : option Outcome :=
  match cPtr with
  | EmptyString => Some (Normal s)
  | String _ _ =>
      match fuel with
      | O => None
      | S fuel' =>
          let (tokens, next) := tokenizeLine cPtr in
          match tokens with
          | [] => processCommands fuel' next s
          | _ :: _ =>
              match execCommand tokens s with
              | Normal s' => processCommands fuel' next s'
              | fatal => Some fatal
              end
          end
      end
  end.

(** The command loop run from [cPtr] to the end of the buffer. *)
Definition commandLoop (cPtr : string) (s : Sandbox) : option Outcome :=
  processCommands (String.length cPtr) cPtr s.

(** The control pipe block for one successful [read]: the bytes read
    are NUL-terminated and the command loop runs over them. *)
Definition controlPipe (bytes : string) (s : Sandbox) : option Outcome :=
  commandLoop (c_str bytes) s.

End Commands.

(** *** Lines the command loop rejects

    The command names in the order of the chain of tests, each with
    the token counts ([tokens.size()], command name included) that its
    branch accepts. *)
Definition sizeIs (n size : nat) : bool := (size =? n)%nat.
Definition sizeAtLeast (n size : nat) : bool := (n <=? size)%nat.

Definition commandArity : list (string * (nat -> bool)) :=
  [ ("snowLine", sizeIs 2); ("snowMelt", sizeIs 2);
    ("waterSpeed", sizeIs 2); ("waterMaxSteps", sizeIs 2);
    ("waterMode", sizeIs 2); ("waterAttenuation", sizeIs 2);
    ("waterRoughness", sizeIs 2); ("rainStrength", sizeIs 2);
    ("waterAbsorption", sizeIs 2); ("evaporationRate", sizeIs 2);
    ("waterColor", sizeIs 4); ("waterReflectionColor", sizeIs 4);
    ("colorCycle", sizeAtLeast 2); ("colorMap", sizeIs 2);
    ("heightMapPlane", sizeIs 5); ("useContourLines", sizeIs 2);
    ("contourLineSpacing", sizeIs 2);
    ("dippingBed", fun size => sizeIs 2 size || sizeIs 5 size);
    ("foldedDippingBed", sizeIs 6); ("dippingBedThickness", sizeIs 2);
    ("loadWarpTexture", sizeIs 2); ("useWarpTexture", sizeIs 2);
    ("warpIntensity", sizeIs 2); ("textureScale", sizeIs 2);
    ("gradientThreshold", sizeIs 2); ("warpMode", sizeIs 2);
    ("textureBlendMode", sizeIs 2); ("textureOpacity", sizeIs 2) ].

(** The first command whose name matches [token], case ignored. *)
Fixpoint findCommand (token : string) (table : list (string * (nat -> bool)))
    : option (string * (nat -> bool)) :=
  match table with
  | [] => None
  | entry :: rest =>
      if isToken token (fst entry) then Some entry else findCommand token rest
  end.

(** A line with an unrecognized command name. *)
Definition unrecognized (tokens : list string) : bool :=
  match findCommand (nth 0 tokens EmptyString) commandArity with
  | None => true
  | Some _ => false
  end.

(** A line with a known command name and a wrong number of arguments. *)
Definition wrongArgumentCount (tokens : list string) : bool :=
  match findCommand (nth 0 tokens EmptyString) commandArity with
  | None => false
  | Some entry => negb (snd entry (List.length tokens))
  end.

(** The widget pointers after [createWaterControlDialog]. *)
Definition withDialog (s : Sandbox) : Prop :=
  isValid (snowLineSlider s) /\ isValid (snowMeltSlider s)
  /\ isValid (waterSpeedSlider s) /\ isValid (waterMaxStepsSlider s)
  /\ isValid (waterModeRadioBox s) /\ isValid (waterAttenuationSlider s)
  /\ isValid (waterRoughnessSlider s) /\ isValid (waterAbsorptionSlider s).

(** The widget pointers when [createWaterControlDialog] was not called:
    the four of the initializer list are null, the other four were
    never written. *)
Definition withoutDialog (s : Sandbox) : Prop :=
  snowLineSlider s = Null /\ waterSpeedSlider s = Null
  /\ waterMaxStepsSlider s = Null /\ waterAttenuationSlider s = Null
  /\ snowMeltSlider s = Indeterminate /\ waterModeRadioBox s = Indeterminate
  /\ waterRoughnessSlider s = Indeterminate
  /\ waterAbsorptionSlider s = Indeterminate.

(** What the constructor of [Sandbox] establishes and no command
    changes: a surface renderer for every window, and the water control
    dialog exactly when there is a water table. *)
Definition constructed (s : Sandbox) : Prop :=
  Forall (fun rs => surfaceRenderer rs <> None) (renderSettings s)
  /\ match waterTable s with
     | Some _ => withDialog s
     | None => withoutDialog s
     end.

End ControlPipe.

(** ** The simulation update block of [Sandbox::display] (Sandbox.cpp) *)

Module Display.

Import GridRequest.

(** A grid read back from the GPU: one value per cell. *)
Definition Grid : Type := list Q.

(** The threshold [1.0e-8f] of the stepping loop. *)
Definition epsilon : Q := 1 # 100000000.

(** What the update block does to the outside, in program order. *)
Inductive Event : Type :=
| GetRequest (taken : Request)
| UpdateBathymetry
| ReadBathymetryTexture (buffer : Z) (grid : Grid)
| UpdatePropertyGrid
| RunSimulationStep (maxStepSize timeStep : Q)
| ReadQuantityTexture (buffer : Z) (grid : Grid)
| ReadSnowTexture (buffer : Z) (grid : Grid)
| Complete (request : Request)
| MarkUpToDate (time : Q).

(** The members of [Sandbox] used by the update block.
    [hasWaterTable] is [waterTable!=0]; [waterMaxSteps] is an
    [unsigned int]. *)
Record Sandbox : Type := mkSandbox {
  hasWaterTable : bool;
  gridRequest : Request;
  waterSpeed : Q;
  waterMaxSteps : Z
}.

(** [Vrui::getApplicationTime()] and [Vrui::getFrameTime()], constant
    during one application frame. *)
Record Frame : Type := mkFrame {
  applicationTime : Q;
  frameTime : Q
}.

(** The state that [WaterTable2] keeps inside one OpenGL context (its
    textures), and the methods of [WaterTable2] and
    [PropertyGridCreator] that the update block calls.  Both classes
    are outside Sandbox.cpp, so they enter as an interface.
    [runSimulationStep force maxStepSize] is
    [runSimulationStep(force,...)] after [setMaxStepSize(maxStepSize)];
    it returns the new state and the time step taken. *)
Class WaterTableInterface (WaterTable : Type) : Type := {
  updateBathymetry : WaterTable -> WaterTable;
  readBathymetryTexture : WaterTable -> Grid;
  updatePropertyGrid : WaterTable -> WaterTable;
  runSimulationStep : bool -> Q -> WaterTable -> WaterTable * Q;
  readQuantityTexture : WaterTable -> Grid;
  readSnowTexture : WaterTable -> Grid
}.

Section Engine.

Context {WaterTable : Type} {I : WaterTableInterface WaterTable}.

(** [Sandbox::DataItem] together with the water table state of the
    same OpenGL context. *)
Record DataItem : Type := mkDataItem {
  waterTableTime : Q;
  waterTable : WaterTable
}.

(** The stepping loop
    [while(numSteps<waterMaxSteps&&totalTimeStep>1.0e-8f)].
    [stepsLeft] is [waterMaxSteps-numSteps].  Returns the water
    table after the loop and, for each step run, the maximum step
    size set and the time step returned. *)
Fixpoint steppingLoop (stepsLeft : nat) (totalTimeStep : Q) (w : WaterTable)
    : WaterTable * list (Q * Q) :=
  match stepsLeft with
  | O => (w, [])
  | S stepsLeft' =>
      if Qltb epsilon totalTimeStep then
        let (w', timeStep) := runSimulationStep false totalTimeStep w in
        let (w'', steps) :=
          steppingLoop stepsLeft' (totalTimeStep - timeStep) w' in
        (w'', (totalTimeStep, timeStep) :: steps)
      else (w, [])
  end.

Definition stepEvents (steps : list (Q * Q)) : list Event :=
  map (fun p => RunSimulationStep (fst p) (snd p)) steps.

(** The read-back of one grid, made when the request is active and
    wants that grid. *)
Definition readBack (request : Request) (buffer : Z) (ev : Event) : list Event :=
  if isActive request && negb (buffer =? 0) then [ev] else [].

(** The block guarded by
    [waterTable!=0&&dataItem->waterTableTime!=Vrui::getApplicationTime()]. *)
Definition display (fr : Frame) (s : Sandbox) (dataItem : DataItem)
    : Sandbox * DataItem * list Event :=
  if hasWaterTable s
     && negb (Qeq_bool (waterTableTime dataItem) (applicationTime fr))
  then
    let (slot, request) := getRequest (gridRequest s) in
    let w1 := updateBathymetry (waterTable dataItem) in
    let bathymetryRead :=
      readBack request (bathymetryBuffer request)
        (ReadBathymetryTexture (bathymetryBuffer request) (readBathymetryTexture w1)) in
    let w2 := updatePropertyGrid w1 in
    let totalTimeStep := (frameTime fr * waterSpeed s)%Q in
    let (w3, steps) :=
      steppingLoop (Z.to_nat (waterMaxSteps s)) totalTimeStep w2 in
    let waterRead :=
      readBack request (waterLevelBuffer request)
        (ReadQuantityTexture (waterLevelBuffer request) (readQuantityTexture w3)) in
    let snowRead :=
      readBack request (snowHeightBuffer request)
        (ReadSnowTexture (snowHeightBuffer request) (readSnowTexture w3)) in
    let completion := if isActive request then [Complete request] else [] in
    (mkSandbox (hasWaterTable s) slot (waterSpeed s) (waterMaxSteps s),
     mkDataItem (applicationTime fr) w3,
     [GetRequest request; UpdateBathymetry] ++ bathymetryRead
       ++ [UpdatePropertyGrid] ++ stepEvents steps
       ++ waterRead ++ snowRead ++ completion
       ++ [MarkUpToDate (applicationTime fr)])
  else (s, dataItem, []).

(** *** Several render windows in one application frame

    Vrui calls [display] once per window and hands it the
    [GLContextData] of that window's OpenGL context.  [contextData]
    maps a context to its data item; [sandbox] is shared. *)
Record World : Type := mkWorld {
  sandbox : Sandbox;
  contextData : nat -> DataItem
}.

Definition setContext (c : nat) (d : DataItem) (f : nat -> DataItem)
    : nat -> DataItem :=
  fun k => if (k =? c)%nat then d else f k.

Definition displayIn (fr : Frame) (c : nat) (w : World) : World * list Event :=
  let '(s', d', events) := display fr (sandbox w) (contextData w c) in
  (mkWorld s' (setContext c d' (contextData w)), events).

(** The [display] calls of one application frame, one per entry of
    [contexts], with the events of each call. *)
Fixpoint displayAll (fr : Frame) (contexts : list nat) (w : World)
    : World * list (nat * list Event) :=
  match contexts with
  | [] => (w, [])
  | c :: rest =>
      let (w', events) := displayIn fr c w in
      let (w'', trace) := displayAll fr rest w' in
      (w'', (c, events) :: trace)
  end.

End Engine.

Arguments DataItem WaterTable : clear implicits.
Arguments World WaterTable : clear implicits.

(** Context [c] has nothing left to do in the application frame [fr]:
    there is no water table, or the context's time stamp is the
    application time. *)
Definition settled {WaterTable : Type} (fr : Frame) (c : nat) (w : World WaterTable)
    : Prop :=
  hasWaterTable (sandbox w) = false
  \/ Qeq_bool (waterTableTime (contextData w c)) (applicationTime fr) = true.

(** *** Reading a trace *)

Definition isGetRequest (e : Event) : bool :=
  match e with GetRequest _ => true | _ => false end.
Definition isStep (e : Event) : bool :=
  match e with RunSimulationStep _ _ => true | _ => false end.
Definition isComplete (e : Event) : bool :=
  match e with Complete _ => true | _ => false end.
Definition isReadBack (e : Event) : bool :=
  match e with
  | ReadBathymetryTexture _ _ | ReadQuantityTexture _ _ | ReadSnowTexture _ _ => true
  | _ => false
  end.
Definition isMark (e : Event) : bool :=
  match e with MarkUpToDate _ => true | _ => false end.

Definition count (p : Event -> bool) (events : list Event) : nat :=
  List.length (filter p events).

(** The events that follow the first event satisfying [p]. *)
Fixpoint after (p : Event -> bool) (events : list Event) : list Event :=
  match events with
  | [] => []
  | e :: rest => if p e then rest else after p rest
  end.

(** The events that precede the first event satisfying [p]. *)
Fixpoint before (p : Event -> bool) (events : list Event) : list Event :=
  match events with
  | [] => []
  | e :: rest => if p e then [] else e :: before p rest
  end.

(** The time steps returned by the simulation steps of a trace. *)
Fixpoint timeSteps (events : list Event) : list Q :=
  match events with
  | [] => []
  | RunSimulationStep _ timeStep :: rest => timeStep :: timeSteps rest
  | _ :: rest => timeSteps rest
  end.

(** The maximum step sizes set before the simulation steps of a trace. *)
Fixpoint maxStepSizes (events : list Event) : list Q :=
  match events with
  | [] => []
  | RunSimulationStep maxStepSize _ :: rest => maxStepSize :: maxStepSizes rest
  | _ :: rest => maxStepSizes rest
  end.

(** What is left of a budget before each of a run of time steps. *)
Fixpoint remainingBudgets (budget : Q) (steps : list Q) : list Q :=
  match steps with
  | [] => []
  | timeStep :: rest => budget :: remainingBudgets (budget - timeStep) rest
  end.

(** Modelled from the spec: the invocation of the registered
    add-water functions is inside [WaterTable2::runSimulationStep],
    which is not under src/.  The spec (4.5) has each registered
    effect function invoked once per simulation step, so a trace with
    [numRegistered] registered functions has this many invocations. *)
Definition contributionCalls (numRegistered : nat) (events : list Event) : nat :=
  (numRegistered * count isStep events)%nat.

(** The calls of a frame's trace that ran the update block, in any
    context. *)
Definition updates (trace : list (nat * list Event)) : nat :=
  List.length (filter (fun p => (0 <? count isMark (snd p))%nat) trace).

(** The calls of a frame's trace in which context [c] ran the update
    block. *)
Definition updatesOf (c : nat) (trace : list (nat * list Event)) : nat :=
  List.length
    (filter (fun p => (fst p =? c)%nat && (0 <? count isMark (snd p))%nat) trace).

End Display.

(** ** A water table to run the update block on *)

Module WaterTableModel.

Import Display.

(** Modelled from the spec: class [WaterTable2] is not under src/.
    The spec's data model (3) gives the engine a bathymetry grid, a
    water grid and a snow grid; its cycle (4.3) copies a newer
    stabilized frame into the bathymetry grid (step 1), and in each
    step invokes the registered contributions and then takes a step
    whose size is self-determined by the stability constraint and
    clamped to the configured minimum step size and to the remaining
    budget (step 3).  The flow update itself is left out: the spec
    (9) leaves its formulas open. *)
Record WaterTable : Type := mkWaterTable {
  bathymetry : Grid;
  water : Grid;
  snow : Grid;
  newerFrame : option Grid;
  stableStepSize : Q;
  minStepSize : Q;
  rain : Q
}.

(** Modelled from the spec: step 1 of the cycle (4.3), a newer
    stabilized frame is copied into the bathymetry grid. *)
Definition updateBathymetry (w : WaterTable) : WaterTable :=
  match newerFrame w with
  | Some frame =>
      mkWaterTable frame (water w) (snow w) None
                   (stableStepSize w) (minStepSize w) (rain w)
  | None => w
  end.

(** Modelled from the spec: the step size of step 3 of the cycle (4.3),
    the stable step size clamped to the minimum step size and then to
    the maximum step size, which the caller sets to the remaining
    budget; a forced step takes the maximum step size. *)
Definition stepSize (force : bool) (maxStepSize : Q) (w : WaterTable) : Q :=
  if force then maxStepSize
  else Qmin maxStepSize (Qmax (minStepSize w) (stableStepSize w)).

(** Modelled from the spec: one simulation step (4.3, step 3).  The
    registered contributions add [rain] to every cell of the water
    grid, then the step of the size above is taken. *)
Definition runSimulationStep (force : bool) (maxStepSize : Q) (w : WaterTable)
    : WaterTable * Q :=
  (mkWaterTable (bathymetry w) (map (fun d => d + rain w)%Q (water w)) (snow w)
                (newerFrame w) (stableStepSize w) (minStepSize w) (rain w),
   stepSize force maxStepSize w).

#[global] Instance waterTableModel : WaterTableInterface WaterTable := {
  Display.updateBathymetry := updateBathymetry;
  Display.readBathymetryTexture := bathymetry;
  Display.updatePropertyGrid := fun w => w;
  Display.runSimulationStep := runSimulationStep;
  Display.readQuantityTexture := water;
  Display.readSnowTexture := snow
}.

End WaterTableModel.

(** ** The depth stabilizer's hysteresis filter *)

Module FrameFilter.

(** Modelled from the spec: class [FrameFilter] (the depth stabilizer)
    is not under src/.  The spec (4.1) compares the candidate value of
    a converged cell with the cell's previously published value: the
    published value changes only if the candidate differs from it by
    more than the half-width of the hysteresis envelope, otherwise the
    previous value is retained.  The envelope has width [hysteresis],
    so its half-width is [hysteresis/2] (8). *)
Definition halfWidth (hysteresis : Q) : Q := hysteresis / 2.

(** Modelled from the spec: the hysteresis test of 4.1. *)
Definition publish (hysteresis previous candidate : Q) : Q :=
  if Qltb (halfWidth hysteresis) (Qabs (candidate - previous))
  then candidate else previous.

(** Modelled from the spec: one sensor frame at one cell.  A cell that
    is not converged in this frame has no candidate ([None]) and keeps
    its published value (4.1, 7). *)
Definition stabilize (hysteresis published : Q) (candidate : option Q) : Q :=
  match candidate with
  | Some c => publish hysteresis published c
  | None => published
  end.

(** Modelled from the spec: the published values of a cell over a run
    of sensor frames, one per frame, starting from the value published
    before the run. *)
Fixpoint publishedValues (hysteresis published : Q) (candidates : list (option Q))
    : list Q :=
  match candidates with
  | [] => []
  | c :: rest =>
      let p := stabilize hysteresis published c in
      p :: publishedValues hysteresis p rest
  end.

End FrameFilter.

(** ** Decimal conversions for the examples *)

Module Libc.

Import Tokenizer.

(** The plain decimal fragment of [atoi] and [atof]: leading
    whitespace, an optional sign, digits and, for [atof], an optional
    fraction; conversion stops at the first other character and yields
    zero when there is no digit.  The theorems below hold for any
    conversion functions; these serve the concrete examples, whose
    numerals are all in this fragment. *)
Definition digitValue (c : ascii) : option Z :=
  let n := nat_of_ascii c in
  if ((48 <=? n)%nat && (n <=? 57)%nat) then Some (Z.of_nat n - 48) else None.

(** Reads digits: the value read so far, ten to the number of digits
    read, and the rest of the string. *)
Fixpoint readDigits (s : string) (value scale : Z) : Z * Z * string :=
  match s with
  | EmptyString => (value, scale, s)
  | String c r =>
      match digitValue c with
      | Some d => readDigits r (10 * value + d) (10 * scale)
      | None => (value, scale, s)
      end
  end.

Fixpoint skipSpaces (s : string) : string :=
  match s with
  | EmptyString => s
  | String c r => if isspace c then skipSpaces r else s
  end.

(** The sign of the numeral and the text after it. *)
Definition readSign (s : string) : Z * string :=
  match s with
  | String "-"%char r => (-1, r)
  | String "+"%char r => (1, r)
  | _ => (1, s)
  end.

Definition atoi (s : string) : Z :=
  let (sign, r) := readSign (skipSpaces s) in
  let '(value, _, _) := readDigits r 0 1 in
  sign * value.

Definition atof (s : string) : Q :=
  let (sign, r) := readSign (skipSpaces s) in
  let '(whole, _, r') := readDigits r 0 1 in
  match r' with
  | String "."%char f =>
      let '(value, scale, _) := readDigits f whole 1 in
      Qred (sign * value # Z.to_pos scale)
  | _ => inject_Z (sign * whole)
  end.

(** Formatting of a float on a stream is not needed by any example. *)
Definition showFloat (_ : Q) : string := "?"%string.

(** Every colour map file can be read. *)
Definition colorMapLoad (_ : string) : option string := None.

End Libc.

(** ** Concrete states for the examples *)

Module Examples.

Local Open Scope string_scope.

Definition newline : string := String "010"%char EmptyString.

(** The sliders with the ranges given to [setValueRange] in
    [createWaterControlDialog], for an elevation range of -2 to 20 and
    the default snow melt rate of 0.0625. *)
Definition snowLineSlider := ControlPipe.mkSlider (-2) 20 20.
Definition snowMeltSlider := ControlPipe.mkSlider 0 1 (1 # 16).
Definition waterSpeedSlider := ControlPipe.mkSlider (1 # 1000) 10 1.
Definition waterMaxStepsSlider := ControlPipe.mkSlider 0 200 30.
Definition waterAttenuationSlider := ControlPipe.mkSlider (1 # 1000) 1 (1 # 128).
Definition waterRoughnessSlider := ControlPipe.mkSlider (1 # 1000) (1 # 10) (1 # 100).
Definition waterAbsorptionSlider := ControlPipe.mkSlider (-1) 1 0.

(** A sandbox with a water table, as the constructor leaves it. *)
Definition sandbox : ControlPipe.Sandbox :=
  ControlPipe.mkSandbox
    (Some (ControlPipe.mkWaterTable2 20 (1 # 16) (127 # 128) 0 ControlPipe.Traditional))
    1 30 (1 # 4)
    (Some (ControlPipe.mkPropertyGridCreator (1 # 100) 0))
    [ControlPipe.mkRenderSettings (Some []) (Some [])]
    (ControlPipe.Valid snowLineSlider) (ControlPipe.Valid snowMeltSlider)
    (ControlPipe.Valid waterSpeedSlider) (ControlPipe.Valid waterMaxStepsSlider)
    (ControlPipe.Valid 0%Z)
    (ControlPipe.Valid waterAttenuationSlider)
    (ControlPipe.Valid waterRoughnessSlider)
    (ControlPipe.Valid waterAbsorptionSlider)
    [].

(** A sandbox started with the water simulation off ([-ws 0 30]), as
    the constructor leaves it: no water table, so no water control
    dialog. *)
Definition sandboxWithoutWater : ControlPipe.Sandbox :=
  ControlPipe.mkSandbox
    None 0 30 (1 # 4) None
    [ControlPipe.mkRenderSettings (Some []) (Some [])]
    ControlPipe.Null ControlPipe.Indeterminate
    ControlPipe.Null ControlPipe.Null
    ControlPipe.Indeterminate
    ControlPipe.Null ControlPipe.Indeterminate ControlPipe.Indeterminate
    [].

(** The control pipe with the decimal conversions. *)
Definition controlPipe : string -> ControlPipe.Sandbox -> option ControlPipe.Outcome :=
  ControlPipe.controlPipe Libc.atof Libc.atoi Libc.showFloat Libc.colorMapLoad.

Definition execCommand : list string -> ControlPipe.Sandbox -> ControlPipe.Outcome :=
  ControlPipe.execCommand Libc.atof Libc.atoi Libc.showFloat Libc.colorMapLoad.

(** The water speed left by a run of the control pipe. *)
Definition waterSpeedAfter (bytes : string) (s : ControlPipe.Sandbox) : Q :=
  match controlPipe bytes s with
  | Some (ControlPipe.Normal s') => ControlPipe.waterSpeed s'
  | _ => ControlPipe.waterSpeed s
  end.

(** A water table with a newer stabilized frame waiting, a stable
    step size of 1/100 and no forced minimum step size. *)
Definition waterTable : WaterTableModel.WaterTable :=
  WaterTableModel.mkWaterTable [0; 0]%Q [1; 1]%Q [0; 0]%Q (Some [3; 4]%Q) (1 # 100) 0 0.

(** A pending request for all three grids. *)
Definition request : GridRequest.Request := GridRequest.mkRequest 100 200 300 7 0.

Definition displaySandbox (waterSpeed : Q) : Display.Sandbox :=
  Display.mkSandbox true request waterSpeed 30.

(** An application frame at time 1 that took 1/30 s. *)
Definition frame : Display.Frame := Display.mkFrame 1 (1 # 30).

Definition dataItem : Display.DataItem WaterTableModel.WaterTable :=
  Display.mkDataItem 0 waterTable.

(** Two OpenGL contexts, both with that data item. *)
Definition world : Display.World WaterTableModel.WaterTable :=
  Display.mkWorld (displaySandbox 1) (fun _ => dataItem).

End Examples.

(** ** Lines of control pipe text *)

Module Lines.

Import Tokenizer.
Local Open Scope string_scope.

(** The newline character and the space character. *)
Definition newline : string := String "010"%char EmptyString.
Definition space : string := String " "%char EmptyString.

(** The text holds no newline. *)
Fixpoint noNewline (s : string) : bool :=
  match s with
  | EmptyString => true
  | String c r => negb (isNewline c) && noNewline r
  end.

(** The text holds no white space at all. *)
Fixpoint noSpace (s : string) : bool :=
  match s with
  | EmptyString => true
  | String c r => negb (isspace c) && noSpace r
  end.

(** A word: not empty and free of white space. *)
Definition isWord (s : string) : bool :=
  match s with
  | EmptyString => false
  | String _ _ => noSpace s
  end.

(** Words written on one line, a single space between neighbours. *)
Fixpoint joinWords (words : list string) : string :=
  match words with
  | [] => EmptyString
  | [w] => w
  | w :: rest => w ++ space ++ joinWords rest
  end.

(** The text is made of complete lines: it is empty or ends in a
    newline. *)
Fixpoint completeLines (s : string) : bool :=
  match s with
  | EmptyString => true
  | String c EmptyString => isNewline c
  | String _ r => completeLines r
  end.

End Lines.


(** ** Runs of the control pipe *)

Module PipeRuns.

Import Tokenizer ControlPipe.
Local Open Scope string_scope.

(** What follows a run of the pipe that ended normally; a run that
    ended otherwise, or did not end, stays as it is. *)
Definition andThen (first : option Outcome) (next : Sandbox -> option Outcome)
    : option Outcome :=
  match first with
  | Some (Normal s) => next s
  | other => other
  end.

(** The well-formed lines that read a slider pointer which only
    [createWaterControlDialog] writes. *)
Definition readsDialogSlider (tokens : list string) : bool :=
  (List.length tokens =? 2)%nat
  && (isToken (nth 0 tokens EmptyString) "snowMelt"
      || isToken (nth 0 tokens EmptyString) "waterRoughness"
      || isToken (nth 0 tokens EmptyString) "waterAbsorption").

(** The contour line distances handed to the surface renderers. *)
Definition positiveDistance (c : SurfaceRendererCall) : bool :=
  match c with
  | setContourLineDistance d => Qltb 0 d
  | _ => true
  end.

Definition contourLineDistancesPositive (s : Sandbox) : Prop :=
  Forall (fun rs =>
            match surfaceRenderer rs with
            | Some received => forallb positiveDistance received = true
            | None => True
            end) (renderSettings s).

End PipeRuns.


(** ** [ElevationColorMap] (ElevationColorMap.h, ElevationColorMap.cpp) *)

Module ElevationColorMap.

(** A point or direction of camera space. *)
Record Vector : Type := mkVector {
  vx : Q;
  vy : Q;
  vz : Q
}.

(** [Plane]: the points [x] with [x * normal = offset], the form in
    which the README has the base plane written into the layout file. *)
Record Plane : Type := mkPlane {
  normal : Vector;
  offset : Q
}.

(** What [calcTexturePlane] reads of the colour map it belongs to:
    [getNumEntries()], [getScalarRangeMin()] and [getScalarRangeMax()]
    of the base class [GLColorMap]. *)
Record ColorMap : Type := mkColorMap {
  numEntries : Z;
  scalarRangeMin : Q;
  scalarRangeMax : Q
}.

(** [GLfloat texturePlaneEq[4]]. *)
Record PlaneEquation : Type := mkPlaneEquation {
  eq0 : Q;
  eq1 : Q;
  eq2 : Q;
  eq3 : Q
}.

(** [ElevationColorMap::calcTexturePlane(const Plane& basePlane)]. *)
Definition calcTexturePlane (m : ColorMap) (basePlane : Plane) : PlaneEquation :=
  let bpn := normal basePlane in
  let bpo := offset basePlane in
  let hms := (inject_Z (numEntries m - 1)
              / ((scalarRangeMax m - scalarRangeMin m) * inject_Z (numEntries m)))%Q in
  let hmo := ((1 # 2) / inject_Z (numEntries m) - hms * scalarRangeMin m)%Q in
  mkPlaneEquation (vx bpn * hms) (vy bpn * hms) (vz bpn * hms) (- bpo * hms + hmo).

(** The elevation of a point above the base plane, which "defines the
    zero elevation level" (README): the left side of the plane
    equation minus the offset. *)
Definition elevation (basePlane : Plane) (p : Vector) : Q :=
  (vx p * vx (normal basePlane) + vy p * vy (normal basePlane)
   + vz p * vz (normal basePlane) - offset basePlane)%Q.

(** The value of a plane equation held in a GLSL 4-vector at a point:
    the product of the 4-vector with the point in homogeneous
    coordinates. *)
Definition textureCoordinate (e : PlaneEquation) (p : Vector) : Q :=
  (eq0 e * vx p + eq1 e * vy p + eq2 e * vz p + eq3 e)%Q.

(** *** [ElevationColorMap::generateFractalPattern] *)

(** An access to an element of the vector [data]. *)
Inductive Access : Type :=
| Read (index : Z)
| Write (index : Z).

Definition index (a : Access) : Z :=
  match a with
  | Read i => i
  | Write i => i
  end.

(** [data] has [size*size] elements; [operator[]] does not check. *)
Definition inBounds (size : Z) (a : Access) : bool :=
  (0 <=? index a) && (index a <? size * size).

(** [for(int x=start;x<bound;x+=step)], the accesses of the iterations
    in order.  [fuel] bounds the number of iterations. *)
Fixpoint forLoop (fuel : nat) (x bound step : Z) (body : Z -> list Access)
    : list Access :=
  match fuel with
  | O => []
  | S fuel' =>
      if x <? bound
      then body x ++ forLoop fuel' (x + step) bound step body
      else []
  end.

(** "Generate the new square values". *)
Definition squareStep (fuel : nat) (size sideLength halfSide : Z) : list Access :=
  forLoop fuel 0 (size - 1) sideLength (fun x =>
    forLoop fuel 0 (size - 1) sideLength (fun y =>
      [ Read (y * size + x);
        Read (y * size + x + sideLength);
        Read ((y + sideLength) * size + x);
        Read ((y + sideLength) * size + x + sideLength);
        Write ((y + halfSide) * size + x + halfSide) ])).

(** "Generate the new diamond values". *)
Definition diamondStep (fuel : nat) (size sideLength halfSide : Z) : list Access :=
  forLoop fuel 0 (size - 1) halfSide (fun x =>
    forLoop fuel (Z.rem (x + halfSide) sideLength) (size - 1) sideLength (fun y =>
      [ Read ((y - halfSide) * size + x);
        Read ((y + halfSide) * size + x);
        Read (y * size + x - halfSide);
        Read (y * size + x + halfSide);
        Write (y * size + x) ]
      ++ (if x =? 0 then [Write (y * size + size - 1)] else [])
      ++ (if y =? 0 then [Write ((size - 1) * size + x)] else []))).

(** [for(int sideLength=size-1;sideLength>=2;sideLength/=2)]. *)
Fixpoint levels (fuel loopFuel : nat) (size sideLength : Z) : list Access :=
  match fuel with
  | O => []
  | S fuel' =>
      if 2 <=? sideLength then
        let halfSide := Z.quot sideLength 2 in
        squareStep loopFuel size sideLength halfSide
        ++ diamondStep loopFuel size sideLength halfSide
        ++ levels fuel' loopFuel size (Z.quot sideLength 2)
      else []
  end.

(** [ElevationColorMap::generateFractalPattern(int size)], reduced to
    the element accesses it makes on [data]; the values stored come
    from the random number generator and do not influence them.  Every
    loop runs fewer than [size] times, so [size] is enough fuel. *)
Definition generateFractalPattern (size : Z) : list Access :=
  [ Write 0; Write (size - 1); Write (size * (size - 1)); Write (size * size - 1) ]
  ++ levels (Z.to_nat size) (Z.to_nat size) size (size - 1).

(** The constructor of [ElevationColorMap] calls
    [generateFractalTexture(512)], which calls
    [generateFractalPattern(size)]. *)
Definition fractalTextureSize : Z := 512.

(** [ElevationColorMap::generateFractalTexture(int size)] without its
    OpenGL calls: it runs [generateFractalPattern(size)]; the result
    tells whether every access to [data] was to one of its elements.
    [operator[]] of [std::vector] does not check its index, so an
    access outside [data] is undefined behaviour. *)
Definition generateFractalTexture (size : Z) : bool :=
  forallb (inBounds size) (generateFractalPattern size).

(** How the constructor of [ElevationColorMap] ends: it returns, [load]
    throws a [std::runtime_error] with a message, or the pattern
    generator accesses [data] outside its elements. *)
Inductive Construction : Type :=
| Constructed
| Throws (what : string)
| OutOfBoundsAccess.

(** [new ElevationColorMap(heightMapName)]: the constructor calls
    [load(heightMapName)] and then [generateFractalTexture(512)].
    [load name] is [None] when [ElevationColorMap::load] returns and
    [Some what] when it throws a [std::runtime_error] with that
    message, which leaves the constructor. *)
Definition newElevationColorMap (load : string -> option string)
    (heightMapName : string) : Construction :=
  match load heightMapName with
  | Some what => Throws what
  | None =>
      if generateFractalTexture fractalTextureSize then Constructed
      else OutOfBoundsAccess
  end.

Arguments generateFractalTexture : simpl never.
Arguments newElevationColorMap : simpl never.

End ElevationColorMap.


(** ** The command line of the constructor of [Sandbox] (Sandbox.cpp) *)

Module CommandLine.

Import Tokenizer.
Local Open Scope string_scope.

(** The members of [Sandbox::RenderSettings] that the command line
    sets.  A projector transformation is represented by the full name
    of the file it was read from ([None] is the identity), an elevation
    colour map by the name of the height map it was loaded from ([None]
    is the null pointer). *)
Record RenderSettings : Type := mkRenderSettings {
  fixProjectorView : bool;
  projectorTransform : option string;
  projectorTransformValid : bool;
  hillshade : bool;
  useShadows : bool;
  elevationColorMap : option string;
  useContourLines : bool;
  contourLineSpacing : Q;
  renderWaterSurface : bool;
  waterOpacity : Q
}.

(** Assignment to one member of [RenderSettings]. *)
Definition with_fixProjectorView (v : bool) (r : RenderSettings)
    : RenderSettings :=
  mkRenderSettings v (projectorTransform r) (projectorTransformValid r)
    (hillshade r) (useShadows r) (elevationColorMap r) (useContourLines r)
    (contourLineSpacing r) (renderWaterSurface r) (waterOpacity r).
Definition with_projectorTransform (v : option string) (r : RenderSettings)
    : RenderSettings :=
  mkRenderSettings (fixProjectorView r) v (projectorTransformValid r)
    (hillshade r) (useShadows r) (elevationColorMap r) (useContourLines r)
    (contourLineSpacing r) (renderWaterSurface r) (waterOpacity r).
Definition with_projectorTransformValid (v : bool) (r : RenderSettings)
    : RenderSettings :=
  mkRenderSettings (fixProjectorView r) (projectorTransform r) v (hillshade r)
    (useShadows r) (elevationColorMap r) (useContourLines r)
    (contourLineSpacing r) (renderWaterSurface r) (waterOpacity r).
Definition with_hillshade (v : bool) (r : RenderSettings) : RenderSettings :=
  mkRenderSettings (fixProjectorView r) (projectorTransform r)
    (projectorTransformValid r) v (useShadows r) (elevationColorMap r)
    (useContourLines r) (contourLineSpacing r) (renderWaterSurface r)
    (waterOpacity r).
Definition with_useShadows (v : bool) (r : RenderSettings) : RenderSettings :=
  mkRenderSettings (fixProjectorView r) (projectorTransform r)
    (projectorTransformValid r) (hillshade r) v (elevationColorMap r)
    (useContourLines r) (contourLineSpacing r) (renderWaterSurface r)
    (waterOpacity r).
Definition with_elevationColorMap (v : option string) (r : RenderSettings)
    : RenderSettings :=
  mkRenderSettings (fixProjectorView r) (projectorTransform r)
    (projectorTransformValid r) (hillshade r) (useShadows r) v
    (useContourLines r) (contourLineSpacing r) (renderWaterSurface r)
    (waterOpacity r).
Definition with_useContourLines (v : bool) (r : RenderSettings)
    : RenderSettings :=
  mkRenderSettings (fixProjectorView r) (projectorTransform r)
    (projectorTransformValid r) (hillshade r) (useShadows r)
    (elevationColorMap r) v (contourLineSpacing r) (renderWaterSurface r)
    (waterOpacity r).
Definition with_contourLineSpacing (v : Q) (r : RenderSettings)
    : RenderSettings :=
  mkRenderSettings (fixProjectorView r) (projectorTransform r)
    (projectorTransformValid r) (hillshade r) (useShadows r)
    (elevationColorMap r) (useContourLines r) v (renderWaterSurface r)
    (waterOpacity r).
Definition with_renderWaterSurface (v : bool) (r : RenderSettings)
    : RenderSettings :=
  mkRenderSettings (fixProjectorView r) (projectorTransform r)
    (projectorTransformValid r) (hillshade r) (useShadows r)
    (elevationColorMap r) (useContourLines r) (contourLineSpacing r) v
    (waterOpacity r).
Definition with_waterOpacity (v : Q) (r : RenderSettings) : RenderSettings :=
  mkRenderSettings (fixProjectorView r) (projectorTransform r)
    (projectorTransformValid r) (hillshade r) (useShadows r)
    (elevationColorMap r) (useContourLines r) (contourLineSpacing r)
    (renderWaterSurface r) v.

(** The local variables and members that the constructor of [Sandbox]
    reads from the configuration file and then overrides from the
    command line.  [frameFilePrefix] and [kinectServerName] are
    [const char*]: [None] is the null pointer.  [heightMapPlane] holds
    the four coefficients read; the plane used is their normalisation.
    [cerr] collects the lines written to [std::cerr], oldest first. *)
Record Options : Type := mkOptions {
  printHelp : bool;
  frameFilePrefix : option string;
  kinectServerName : option string;
  useRemoteServer : bool;
  remoteServerPortId : Z;
  cameraIndex : Z;
  scale : Q;
  sandboxLayoutFileName : string;
  elevationRange : Q * Q;
  haveHeightMapPlane : bool;
  heightMapPlane : list Q;
  numAveragingSlots : Z;
  minNumSamples : Z;
  maxVariance : Z;
  hysteresis : Q;
  wtSize : Z * Z;
  waterSpeed : Q;
  waterMaxSteps : Z;
  waterMinTimeStep : Q;
  engineering : bool;
  rainElevationRange : Q * Q;
  rainStrength : Q;
  snowLine : Q;
  snowMelt : Q;
  evaporationRate : Q;
  demDistScale : Q;
  windowIndex : Z;
  renderSettings : list RenderSettings;
  controlPipeName : string;
  cerr : list string
}.

(** Assignment to one variable. *)
Definition with_printHelp (v : bool) (o : Options) : Options :=
  mkOptions v (frameFilePrefix o) (kinectServerName o) (useRemoteServer o)
    (remoteServerPortId o) (cameraIndex o) (scale o) (sandboxLayoutFileName o)
    (elevationRange o) (haveHeightMapPlane o) (heightMapPlane o)
    (numAveragingSlots o) (minNumSamples o) (maxVariance o) (hysteresis o)
    (wtSize o) (waterSpeed o) (waterMaxSteps o) (waterMinTimeStep o)
    (engineering o) (rainElevationRange o) (rainStrength o) (snowLine o)
    (snowMelt o) (evaporationRate o) (demDistScale o) (windowIndex o)
    (renderSettings o) (controlPipeName o) (cerr o).
Definition with_frameFilePrefix (v : option string) (o : Options) : Options :=
  mkOptions (printHelp o) v (kinectServerName o) (useRemoteServer o)
    (remoteServerPortId o) (cameraIndex o) (scale o) (sandboxLayoutFileName o)
    (elevationRange o) (haveHeightMapPlane o) (heightMapPlane o)
    (numAveragingSlots o) (minNumSamples o) (maxVariance o) (hysteresis o)
    (wtSize o) (waterSpeed o) (waterMaxSteps o) (waterMinTimeStep o)
    (engineering o) (rainElevationRange o) (rainStrength o) (snowLine o)
    (snowMelt o) (evaporationRate o) (demDistScale o) (windowIndex o)
    (renderSettings o) (controlPipeName o) (cerr o).
Definition with_kinectServerName (v : option string) (o : Options)
    : Options :=
  mkOptions (printHelp o) (frameFilePrefix o) v (useRemoteServer o)
    (remoteServerPortId o) (cameraIndex o) (scale o) (sandboxLayoutFileName o)
    (elevationRange o) (haveHeightMapPlane o) (heightMapPlane o)
    (numAveragingSlots o) (minNumSamples o) (maxVariance o) (hysteresis o)
    (wtSize o) (waterSpeed o) (waterMaxSteps o) (waterMinTimeStep o)
    (engineering o) (rainElevationRange o) (rainStrength o) (snowLine o)
    (snowMelt o) (evaporationRate o) (demDistScale o) (windowIndex o)
    (renderSettings o) (controlPipeName o) (cerr o).
Definition with_useRemoteServer (v : bool) (o : Options) : Options :=
  mkOptions (printHelp o) (frameFilePrefix o) (kinectServerName o) v
    (remoteServerPortId o) (cameraIndex o) (scale o) (sandboxLayoutFileName o)
    (elevationRange o) (haveHeightMapPlane o) (heightMapPlane o)
    (numAveragingSlots o) (minNumSamples o) (maxVariance o) (hysteresis o)
    (wtSize o) (waterSpeed o) (waterMaxSteps o) (waterMinTimeStep o)
    (engineering o) (rainElevationRange o) (rainStrength o) (snowLine o)
    (snowMelt o) (evaporationRate o) (demDistScale o) (windowIndex o)
    (renderSettings o) (controlPipeName o) (cerr o).
Definition with_remoteServerPortId (v : Z) (o : Options) : Options :=
  mkOptions (printHelp o) (frameFilePrefix o) (kinectServerName o)
    (useRemoteServer o) v (cameraIndex o) (scale o) (sandboxLayoutFileName o)
    (elevationRange o) (haveHeightMapPlane o) (heightMapPlane o)
    (numAveragingSlots o) (minNumSamples o) (maxVariance o) (hysteresis o)
    (wtSize o) (waterSpeed o) (waterMaxSteps o) (waterMinTimeStep o)
    (engineering o) (rainElevationRange o) (rainStrength o) (snowLine o)
    (snowMelt o) (evaporationRate o) (demDistScale o) (windowIndex o)
    (renderSettings o) (controlPipeName o) (cerr o).
Definition with_cameraIndex (v : Z) (o : Options) : Options :=
  mkOptions (printHelp o) (frameFilePrefix o) (kinectServerName o)
    (useRemoteServer o) (remoteServerPortId o) v (scale o)
    (sandboxLayoutFileName o) (elevationRange o) (haveHeightMapPlane o)
    (heightMapPlane o) (numAveragingSlots o) (minNumSamples o) (maxVariance o)
    (hysteresis o) (wtSize o) (waterSpeed o) (waterMaxSteps o)
    (waterMinTimeStep o) (engineering o) (rainElevationRange o) (rainStrength
    o) (snowLine o) (snowMelt o) (evaporationRate o) (demDistScale o)
    (windowIndex o) (renderSettings o) (controlPipeName o) (cerr o).
Definition with_scale (v : Q) (o : Options) : Options :=
  mkOptions (printHelp o) (frameFilePrefix o) (kinectServerName o)
    (useRemoteServer o) (remoteServerPortId o) (cameraIndex o) v
    (sandboxLayoutFileName o) (elevationRange o) (haveHeightMapPlane o)
    (heightMapPlane o) (numAveragingSlots o) (minNumSamples o) (maxVariance o)
    (hysteresis o) (wtSize o) (waterSpeed o) (waterMaxSteps o)
    (waterMinTimeStep o) (engineering o) (rainElevationRange o) (rainStrength
    o) (snowLine o) (snowMelt o) (evaporationRate o) (demDistScale o)
    (windowIndex o) (renderSettings o) (controlPipeName o) (cerr o).
Definition with_sandboxLayoutFileName (v : string) (o : Options) : Options :=
  mkOptions (printHelp o) (frameFilePrefix o) (kinectServerName o)
    (useRemoteServer o) (remoteServerPortId o) (cameraIndex o) (scale o) v
    (elevationRange o) (haveHeightMapPlane o) (heightMapPlane o)
    (numAveragingSlots o) (minNumSamples o) (maxVariance o) (hysteresis o)
    (wtSize o) (waterSpeed o) (waterMaxSteps o) (waterMinTimeStep o)
    (engineering o) (rainElevationRange o) (rainStrength o) (snowLine o)
    (snowMelt o) (evaporationRate o) (demDistScale o) (windowIndex o)
    (renderSettings o) (controlPipeName o) (cerr o).
Definition with_elevationRange (v : Q * Q) (o : Options) : Options :=
  mkOptions (printHelp o) (frameFilePrefix o) (kinectServerName o)
    (useRemoteServer o) (remoteServerPortId o) (cameraIndex o) (scale o)
    (sandboxLayoutFileName o) v (haveHeightMapPlane o) (heightMapPlane o)
    (numAveragingSlots o) (minNumSamples o) (maxVariance o) (hysteresis o)
    (wtSize o) (waterSpeed o) (waterMaxSteps o) (waterMinTimeStep o)
    (engineering o) (rainElevationRange o) (rainStrength o) (snowLine o)
    (snowMelt o) (evaporationRate o) (demDistScale o) (windowIndex o)
    (renderSettings o) (controlPipeName o) (cerr o).
Definition with_haveHeightMapPlane (v : bool) (o : Options) : Options :=
  mkOptions (printHelp o) (frameFilePrefix o) (kinectServerName o)
    (useRemoteServer o) (remoteServerPortId o) (cameraIndex o) (scale o)
    (sandboxLayoutFileName o) (elevationRange o) v (heightMapPlane o)
    (numAveragingSlots o) (minNumSamples o) (maxVariance o) (hysteresis o)
    (wtSize o) (waterSpeed o) (waterMaxSteps o) (waterMinTimeStep o)
    (engineering o) (rainElevationRange o) (rainStrength o) (snowLine o)
    (snowMelt o) (evaporationRate o) (demDistScale o) (windowIndex o)
    (renderSettings o) (controlPipeName o) (cerr o).
Definition with_heightMapPlane (v : list Q) (o : Options) : Options :=
  mkOptions (printHelp o) (frameFilePrefix o) (kinectServerName o)
    (useRemoteServer o) (remoteServerPortId o) (cameraIndex o) (scale o)
    (sandboxLayoutFileName o) (elevationRange o) (haveHeightMapPlane o) v
    (numAveragingSlots o) (minNumSamples o) (maxVariance o) (hysteresis o)
    (wtSize o) (waterSpeed o) (waterMaxSteps o) (waterMinTimeStep o)
    (engineering o) (rainElevationRange o) (rainStrength o) (snowLine o)
    (snowMelt o) (evaporationRate o) (demDistScale o) (windowIndex o)
    (renderSettings o) (controlPipeName o) (cerr o).
Definition with_numAveragingSlots (v : Z) (o : Options) : Options :=
  mkOptions (printHelp o) (frameFilePrefix o) (kinectServerName o)
    (useRemoteServer o) (remoteServerPortId o) (cameraIndex o) (scale o)
    (sandboxLayoutFileName o) (elevationRange o) (haveHeightMapPlane o)
    (heightMapPlane o) v (minNumSamples o) (maxVariance o) (hysteresis o)
    (wtSize o) (waterSpeed o) (waterMaxSteps o) (waterMinTimeStep o)
    (engineering o) (rainElevationRange o) (rainStrength o) (snowLine o)
    (snowMelt o) (evaporationRate o) (demDistScale o) (windowIndex o)
    (renderSettings o) (controlPipeName o) (cerr o).
Definition with_minNumSamples (v : Z) (o : Options) : Options :=
  mkOptions (printHelp o) (frameFilePrefix o) (kinectServerName o)
    (useRemoteServer o) (remoteServerPortId o) (cameraIndex o) (scale o)
    (sandboxLayoutFileName o) (elevationRange o) (haveHeightMapPlane o)
    (heightMapPlane o) (numAveragingSlots o) v (maxVariance o) (hysteresis o)
    (wtSize o) (waterSpeed o) (waterMaxSteps o) (waterMinTimeStep o)
    (engineering o) (rainElevationRange o) (rainStrength o) (snowLine o)
    (snowMelt o) (evaporationRate o) (demDistScale o) (windowIndex o)
    (renderSettings o) (controlPipeName o) (cerr o).
Definition with_maxVariance (v : Z) (o : Options) : Options :=
  mkOptions (printHelp o) (frameFilePrefix o) (kinectServerName o)
    (useRemoteServer o) (remoteServerPortId o) (cameraIndex o) (scale o)
    (sandboxLayoutFileName o) (elevationRange o) (haveHeightMapPlane o)
    (heightMapPlane o) (numAveragingSlots o) (minNumSamples o) v (hysteresis
    o) (wtSize o) (waterSpeed o) (waterMaxSteps o) (waterMinTimeStep o)
    (engineering o) (rainElevationRange o) (rainStrength o) (snowLine o)
    (snowMelt o) (evaporationRate o) (demDistScale o) (windowIndex o)
    (renderSettings o) (controlPipeName o) (cerr o).
Definition with_hysteresis (v : Q) (o : Options) : Options :=
  mkOptions (printHelp o) (frameFilePrefix o) (kinectServerName o)
    (useRemoteServer o) (remoteServerPortId o) (cameraIndex o) (scale o)
    (sandboxLayoutFileName o) (elevationRange o) (haveHeightMapPlane o)
    (heightMapPlane o) (numAveragingSlots o) (minNumSamples o) (maxVariance o)
    v (wtSize o) (waterSpeed o) (waterMaxSteps o) (waterMinTimeStep o)
    (engineering o) (rainElevationRange o) (rainStrength o) (snowLine o)
    (snowMelt o) (evaporationRate o) (demDistScale o) (windowIndex o)
    (renderSettings o) (controlPipeName o) (cerr o).
Definition with_wtSize (v : Z * Z) (o : Options) : Options :=
  mkOptions (printHelp o) (frameFilePrefix o) (kinectServerName o)
    (useRemoteServer o) (remoteServerPortId o) (cameraIndex o) (scale o)
    (sandboxLayoutFileName o) (elevationRange o) (haveHeightMapPlane o)
    (heightMapPlane o) (numAveragingSlots o) (minNumSamples o) (maxVariance o)
    (hysteresis o) v (waterSpeed o) (waterMaxSteps o) (waterMinTimeStep o)
    (engineering o) (rainElevationRange o) (rainStrength o) (snowLine o)
    (snowMelt o) (evaporationRate o) (demDistScale o) (windowIndex o)
    (renderSettings o) (controlPipeName o) (cerr o).
Definition with_waterSpeed (v : Q) (o : Options) : Options :=
  mkOptions (printHelp o) (frameFilePrefix o) (kinectServerName o)
    (useRemoteServer o) (remoteServerPortId o) (cameraIndex o) (scale o)
    (sandboxLayoutFileName o) (elevationRange o) (haveHeightMapPlane o)
    (heightMapPlane o) (numAveragingSlots o) (minNumSamples o) (maxVariance o)
    (hysteresis o) (wtSize o) v (waterMaxSteps o) (waterMinTimeStep o)
    (engineering o) (rainElevationRange o) (rainStrength o) (snowLine o)
    (snowMelt o) (evaporationRate o) (demDistScale o) (windowIndex o)
    (renderSettings o) (controlPipeName o) (cerr o).
Definition with_waterMaxSteps (v : Z) (o : Options) : Options :=
  mkOptions (printHelp o) (frameFilePrefix o) (kinectServerName o)
    (useRemoteServer o) (remoteServerPortId o) (cameraIndex o) (scale o)
    (sandboxLayoutFileName o) (elevationRange o) (haveHeightMapPlane o)
    (heightMapPlane o) (numAveragingSlots o) (minNumSamples o) (maxVariance o)
    (hysteresis o) (wtSize o) (waterSpeed o) v (waterMinTimeStep o)
    (engineering o) (rainElevationRange o) (rainStrength o) (snowLine o)
    (snowMelt o) (evaporationRate o) (demDistScale o) (windowIndex o)
    (renderSettings o) (controlPipeName o) (cerr o).
Definition with_waterMinTimeStep (v : Q) (o : Options) : Options :=
  mkOptions (printHelp o) (frameFilePrefix o) (kinectServerName o)
    (useRemoteServer o) (remoteServerPortId o) (cameraIndex o) (scale o)
    (sandboxLayoutFileName o) (elevationRange o) (haveHeightMapPlane o)
    (heightMapPlane o) (numAveragingSlots o) (minNumSamples o) (maxVariance o)
    (hysteresis o) (wtSize o) (waterSpeed o) (waterMaxSteps o) v (engineering
    o) (rainElevationRange o) (rainStrength o) (snowLine o) (snowMelt o)
    (evaporationRate o) (demDistScale o) (windowIndex o) (renderSettings o)
    (controlPipeName o) (cerr o).
Definition with_engineering (v : bool) (o : Options) : Options :=
  mkOptions (printHelp o) (frameFilePrefix o) (kinectServerName o)
    (useRemoteServer o) (remoteServerPortId o) (cameraIndex o) (scale o)
    (sandboxLayoutFileName o) (elevationRange o) (haveHeightMapPlane o)
    (heightMapPlane o) (numAveragingSlots o) (minNumSamples o) (maxVariance o)
    (hysteresis o) (wtSize o) (waterSpeed o) (waterMaxSteps o)
    (waterMinTimeStep o) v (rainElevationRange o) (rainStrength o) (snowLine
    o) (snowMelt o) (evaporationRate o) (demDistScale o) (windowIndex o)
    (renderSettings o) (controlPipeName o) (cerr o).
Definition with_rainElevationRange (v : Q * Q) (o : Options) : Options :=
  mkOptions (printHelp o) (frameFilePrefix o) (kinectServerName o)
    (useRemoteServer o) (remoteServerPortId o) (cameraIndex o) (scale o)
    (sandboxLayoutFileName o) (elevationRange o) (haveHeightMapPlane o)
    (heightMapPlane o) (numAveragingSlots o) (minNumSamples o) (maxVariance o)
    (hysteresis o) (wtSize o) (waterSpeed o) (waterMaxSteps o)
    (waterMinTimeStep o) (engineering o) v (rainStrength o) (snowLine o)
    (snowMelt o) (evaporationRate o) (demDistScale o) (windowIndex o)
    (renderSettings o) (controlPipeName o) (cerr o).
Definition with_rainStrength (v : Q) (o : Options) : Options :=
  mkOptions (printHelp o) (frameFilePrefix o) (kinectServerName o)
    (useRemoteServer o) (remoteServerPortId o) (cameraIndex o) (scale o)
    (sandboxLayoutFileName o) (elevationRange o) (haveHeightMapPlane o)
    (heightMapPlane o) (numAveragingSlots o) (minNumSamples o) (maxVariance o)
    (hysteresis o) (wtSize o) (waterSpeed o) (waterMaxSteps o)
    (waterMinTimeStep o) (engineering o) (rainElevationRange o) v (snowLine o)
    (snowMelt o) (evaporationRate o) (demDistScale o) (windowIndex o)
    (renderSettings o) (controlPipeName o) (cerr o).
Definition with_snowLine (v : Q) (o : Options) : Options :=
  mkOptions (printHelp o) (frameFilePrefix o) (kinectServerName o)
    (useRemoteServer o) (remoteServerPortId o) (cameraIndex o) (scale o)
    (sandboxLayoutFileName o) (elevationRange o) (haveHeightMapPlane o)
    (heightMapPlane o) (numAveragingSlots o) (minNumSamples o) (maxVariance o)
    (hysteresis o) (wtSize o) (waterSpeed o) (waterMaxSteps o)
    (waterMinTimeStep o) (engineering o) (rainElevationRange o) (rainStrength
    o) v (snowMelt o) (evaporationRate o) (demDistScale o) (windowIndex o)
    (renderSettings o) (controlPipeName o) (cerr o).
Definition with_snowMelt (v : Q) (o : Options) : Options :=
  mkOptions (printHelp o) (frameFilePrefix o) (kinectServerName o)
    (useRemoteServer o) (remoteServerPortId o) (cameraIndex o) (scale o)
    (sandboxLayoutFileName o) (elevationRange o) (haveHeightMapPlane o)
    (heightMapPlane o) (numAveragingSlots o) (minNumSamples o) (maxVariance o)
    (hysteresis o) (wtSize o) (waterSpeed o) (waterMaxSteps o)
    (waterMinTimeStep o) (engineering o) (rainElevationRange o) (rainStrength
    o) (snowLine o) v (evaporationRate o) (demDistScale o) (windowIndex o)
    (renderSettings o) (controlPipeName o) (cerr o).
Definition with_evaporationRate (v : Q) (o : Options) : Options :=
  mkOptions (printHelp o) (frameFilePrefix o) (kinectServerName o)
    (useRemoteServer o) (remoteServerPortId o) (cameraIndex o) (scale o)
    (sandboxLayoutFileName o) (elevationRange o) (haveHeightMapPlane o)
    (heightMapPlane o) (numAveragingSlots o) (minNumSamples o) (maxVariance o)
    (hysteresis o) (wtSize o) (waterSpeed o) (waterMaxSteps o)
    (waterMinTimeStep o) (engineering o) (rainElevationRange o) (rainStrength
    o) (snowLine o) (snowMelt o) v (demDistScale o) (windowIndex o)
    (renderSettings o) (controlPipeName o) (cerr o).
Definition with_demDistScale (v : Q) (o : Options) : Options :=
  mkOptions (printHelp o) (frameFilePrefix o) (kinectServerName o)
    (useRemoteServer o) (remoteServerPortId o) (cameraIndex o) (scale o)
    (sandboxLayoutFileName o) (elevationRange o) (haveHeightMapPlane o)
    (heightMapPlane o) (numAveragingSlots o) (minNumSamples o) (maxVariance o)
    (hysteresis o) (wtSize o) (waterSpeed o) (waterMaxSteps o)
    (waterMinTimeStep o) (engineering o) (rainElevationRange o) (rainStrength
    o) (snowLine o) (snowMelt o) (evaporationRate o) v (windowIndex o)
    (renderSettings o) (controlPipeName o) (cerr o).
Definition with_windowIndex (v : Z) (o : Options) : Options :=
  mkOptions (printHelp o) (frameFilePrefix o) (kinectServerName o)
    (useRemoteServer o) (remoteServerPortId o) (cameraIndex o) (scale o)
    (sandboxLayoutFileName o) (elevationRange o) (haveHeightMapPlane o)
    (heightMapPlane o) (numAveragingSlots o) (minNumSamples o) (maxVariance o)
    (hysteresis o) (wtSize o) (waterSpeed o) (waterMaxSteps o)
    (waterMinTimeStep o) (engineering o) (rainElevationRange o) (rainStrength
    o) (snowLine o) (snowMelt o) (evaporationRate o) (demDistScale o) v
    (renderSettings o) (controlPipeName o) (cerr o).
Definition with_renderSettings (v : list RenderSettings) (o : Options)
    : Options :=
  mkOptions (printHelp o) (frameFilePrefix o) (kinectServerName o)
    (useRemoteServer o) (remoteServerPortId o) (cameraIndex o) (scale o)
    (sandboxLayoutFileName o) (elevationRange o) (haveHeightMapPlane o)
    (heightMapPlane o) (numAveragingSlots o) (minNumSamples o) (maxVariance o)
    (hysteresis o) (wtSize o) (waterSpeed o) (waterMaxSteps o)
    (waterMinTimeStep o) (engineering o) (rainElevationRange o) (rainStrength
    o) (snowLine o) (snowMelt o) (evaporationRate o) (demDistScale o)
    (windowIndex o) v (controlPipeName o) (cerr o).
Definition with_controlPipeName (v : string) (o : Options) : Options :=
  mkOptions (printHelp o) (frameFilePrefix o) (kinectServerName o)
    (useRemoteServer o) (remoteServerPortId o) (cameraIndex o) (scale o)
    (sandboxLayoutFileName o) (elevationRange o) (haveHeightMapPlane o)
    (heightMapPlane o) (numAveragingSlots o) (minNumSamples o) (maxVariance o)
    (hysteresis o) (wtSize o) (waterSpeed o) (waterMaxSteps o)
    (waterMinTimeStep o) (engineering o) (rainElevationRange o) (rainStrength
    o) (snowLine o) (snowMelt o) (evaporationRate o) (demDistScale o)
    (windowIndex o) (renderSettings o) v (cerr o).
Definition with_cerr (v : list string) (o : Options) : Options :=
  mkOptions (printHelp o) (frameFilePrefix o) (kinectServerName o)
    (useRemoteServer o) (remoteServerPortId o) (cameraIndex o) (scale o)
    (sandboxLayoutFileName o) (elevationRange o) (haveHeightMapPlane o)
    (heightMapPlane o) (numAveragingSlots o) (minNumSamples o) (maxVariance o)
    (hysteresis o) (wtSize o) (waterSpeed o) (waterMaxSteps o)
    (waterMinTimeStep o) (engineering o) (rainElevationRange o) (rainStrength
    o) (snowLine o) (snowMelt o) (evaporationRate o) (demDistScale o)
    (windowIndex o) (renderSettings o) (controlPipeName o) v.

(** How the command line loop can end: with the options, by handing
    [argv[argc]], which is a null pointer, to [atoi], [atof] or a
    [std::string], by calling [back()] on an empty vector, or in the
    constructor of an [ElevationColorMap] whose pattern generator
    accesses its vector outside its elements.  Memory is taken to be
    unlimited: no [push_back] and no [new] fails. *)
Inductive Result (A : Type) : Type :=
| Ok (a : A)
| NullArgument
| EmptyBack
| OutOfBounds.

Arguments Ok {A} a.
Arguments NullArgument {A}.
Arguments EmptyBack {A}.
Arguments OutOfBounds {A}.

(** [++i] followed by a use of [argv[i]] as a string: the argument and
    the arguments after it. *)
Definition operand {A : Type} (args : list string)
    (k : string -> list string -> Result A) : Result A :=
  match args with
  | a :: rest => k a rest
  | [] => NullArgument
  end.

(** [argv[i][0]]; the first character of an empty string is its NUL. *)
Definition firstChar (a : string) : ascii :=
  match a with
  | String c _ => c
  | EmptyString => zero
  end.

(** [argv[i]+1] where [argv[i]] is not empty. *)
Definition afterFirstChar (a : string) : string :=
  match a with
  | String _ r => r
  | EmptyString => EmptyString
  end.

Definition isDash (c : ascii) : bool := (nat_of_ascii c =? 45)%nat.

Definition isSlash (c : ascii) : bool := (nat_of_ascii c =? 47)%nat.

Definition unrecognizedSwitch (arg : string) : string :=
  "Ignoring unrecognized command line switch " ++ arg.

Definition isDigit (c : ascii) : bool :=
  let n := nat_of_ascii c in (48 <=? n)%nat && (n <=? 57)%nat.

(** [renderSettings.back()], [None] on an empty vector. *)
Fixpoint back (rss : list RenderSettings) : option RenderSettings :=
  match rss with
  | [] => None
  | [rs] => Some rs
  | _ :: rest => back rest
  end.

(** An update of [renderSettings.back()] in place. *)
Fixpoint modifyBack (f : RenderSettings -> RenderSettings)
    (rss : list RenderSettings) : option (list RenderSettings) :=
  match rss with
  | [] => None
  | [rs] => Some [f rs]
  | rs :: rest => option_map (cons rs) (modifyBack f rest)
  end.

(** [while(int(renderSettings.size())<=windowIndex)
    renderSettings.push_back(renderSettings.back());]: every round
    appends a copy of the last element, so the loop appends
    [windowIndex+1-size] copies of the element that was last. *)
Definition extend (windowIndex : Z) (rss : list RenderSettings)
    : option (list RenderSettings) :=
  match Z.to_nat (windowIndex + 1 - Z.of_nat (List.length rss)) with
  | O => Some rss
  | S n =>
      match back rss with
      | Some rs => Some (rss ++ repeat rs (S n))%list
      | None => None
      end
  end.

Section Parser.

(** C library conversions; [colorMapLoad name] is [None] when
    [ElevationColorMap::load] returns and [Some what] when it throws a
    [std::runtime_error] with that message;
    [projectorTransformFile fullName] is [None] when the file can be
    opened and read and [Some what] when that throws.  The three names
    are the macros of Config.h. *)
Variable atof : string -> Q.
Variable atoi : string -> Z.
Variable colorMapLoad : string -> option string.
Variable projectorTransformFile : string -> option string.
Variable CONFIG_CONFIGDIR : string.
Variable CONFIG_DEFAULTPROJECTIONMATRIXFILENAME : string.
Variable CONFIG_DEFAULTHEIGHTCOLORMAPFILENAME : string.

(** A file name is used as it is if it starts with a slash, and is
    taken relative to the configuration directory otherwise. *)
Definition fullName (name : string) : string :=
  if isSlash (firstChar name) then name
  else CONFIG_CONFIGDIR ++ "/" ++ name.

(** [RenderSettings::loadProjectorTransform]: the settings afterwards
    and what was written to [std::cerr]. *)
Definition loadProjectorTransform (projectorTransformName : string)
    (rs : RenderSettings) : RenderSettings * list string :=
  let fullProjectorTransformName := fullName projectorTransformName in
  match projectorTransformFile fullProjectorTransformName with
  | None =>
      (with_projectorTransformValid true
         (with_projectorTransform (Some fullProjectorTransformName) rs), [])
  | Some what =>
      (with_projectorTransformValid false rs,
       ["Unable to load projector transformation from file "
        ++ fullProjectorTransformName ++ " due to exception " ++ what])
  end.

(** [RenderSettings::loadHeightMap]: the settings afterwards and what
    was written to [std::cerr], when the constructor of
    [ElevationColorMap] returns or throws. *)
Definition loadHeightMap (heightMapName : string) (rs : RenderSettings)
    : Result (RenderSettings * list string) :=
  match ElevationColorMap.newElevationColorMap colorMapLoad heightMapName with
  | ElevationColorMap.Constructed =>
      Ok (with_elevationColorMap (Some heightMapName) rs, [])
  | ElevationColorMap.Throws what =>
      Ok (rs, ["Ignoring height map due to exception " ++ what])
  | ElevationColorMap.OutOfBoundsAccess => OutOfBounds
  end.

(** [RenderSettings::RenderSettings(void)]. *)
Definition defaultRenderSettings : RenderSettings * list string :=
  loadProjectorTransform CONFIG_DEFAULTPROJECTIONMATRIXFILENAME
    (mkRenderSettings false None false false false None true (3 # 4) false 2).

(** A statement on [renderSettings.back()]. *)
Definition onBack (f : RenderSettings -> RenderSettings)
    (rest : list string) (o : Options) : Result (list string * Options) :=
  match modifyBack f (renderSettings o) with
  | Some rss => Ok (rest, with_renderSettings rss o)
  | None => EmptyBack
  end.

(** A load method called on [renderSettings.back()]. *)
Definition loadOnBack
    (load : RenderSettings -> Result (RenderSettings * list string))
    (rest : list string) (o : Options) : Result (list string * Options) :=
  match back (renderSettings o) with
  | Some rs =>
      match load rs with
      | Ok (rs', messages) =>
          onBack (fun _ => rs') rest (with_cerr (cerr o ++ messages)%list o)
      | NullArgument => NullArgument
      | EmptyBack => EmptyBack
      | OutOfBounds => OutOfBounds
      end
  | None => EmptyBack
  end.

(** One round of the loop over [argv]: [arg] is [argv[i]], [rest] the
    arguments after it.  Returns the arguments left for the next round
    and the variables. *)
Definition parseArgument (arg : string) (rest : list string) (o : Options)
    : Result (list string * Options) :=
  if isDash (firstChar arg) then
      let switch := afterFirstChar arg in
      if isToken switch "h" then Ok (rest, with_printHelp true o)
      else if isToken switch "remote" then
        match rest with
        | a :: rest' =>
            if isDigit (firstChar a)
            then Ok (rest', with_useRemoteServer true
                              (with_remoteServerPortId (atoi a) o))
            else Ok (rest, with_useRemoteServer true o)
        | [] => Ok (rest, with_useRemoteServer true o)
        end
      else if isToken switch "c" then
        operand rest (fun a rest' =>
          Ok (rest', with_cameraIndex (ControlPipe.toUnsigned (atoi a)) o))
      else if isToken switch "f" then
        Ok (tl rest, with_frameFilePrefix (hd_error rest) o)
      else if isToken switch "p" then
        Ok (tl rest, with_kinectServerName (hd_error rest) o)
      else if isToken switch "s" then
        operand rest (fun a rest' => Ok (rest', with_scale (atof a) o))
      else if isToken switch "slf" then
        operand rest (fun a rest' => Ok (rest', with_sandboxLayoutFileName a o))
      else if isToken switch "er" then
        operand rest (fun elevationMin rest' =>
        operand rest' (fun elevationMax rest'' =>
          Ok (rest'', with_elevationRange (atof elevationMin, atof elevationMax) o)))
      else if isToken switch "hmp" then
        operand rest (fun a0 rest0 =>
        operand rest0 (fun a1 rest1 =>
        operand rest1 (fun a2 rest2 =>
        operand rest2 (fun a3 rest3 =>
          Ok (rest3, with_heightMapPlane [atof a0; atof a1; atof a2; atof a3]
                       (with_haveHeightMapPlane true o))))))
      else if isToken switch "nas" then
        operand rest (fun a rest' =>
          Ok (rest', with_numAveragingSlots (ControlPipe.toUnsigned (atoi a)) o))
      else if isToken switch "sp" then
        operand rest (fun a rest' =>
        operand rest' (fun b rest'' =>
          Ok (rest'', with_maxVariance (ControlPipe.toUnsigned (atoi b))
                        (with_minNumSamples (ControlPipe.toUnsigned (atoi a)) o))))
      else if isToken switch "he" then
        operand rest (fun a rest' => Ok (rest', with_hysteresis (atof a) o))
      else if isToken switch "wts" then
        operand rest (fun a rest' =>
        operand rest' (fun b rest'' =>
          Ok (rest'', with_wtSize (ControlPipe.toUnsigned (atoi a),
                                   ControlPipe.toUnsigned (atoi b)) o)))
      else if isToken switch "ws" then
        operand rest (fun a rest' =>
        operand rest' (fun b rest'' =>
          Ok (rest'', with_waterMaxSteps (ControlPipe.toUnsigned (atoi b))
                        (with_waterSpeed (atof a) o))))
      else if isToken switch "wmts" then
        operand rest (fun a rest' => Ok (rest', with_waterMinTimeStep (atof a) o))
      else if isToken switch "weng" then Ok (rest, with_engineering true o)
      else if isToken switch "rer" then
        operand rest (fun rainElevationMin rest' =>
        operand rest' (fun rainElevationMax rest'' =>
          Ok (rest'', with_rainElevationRange
                        (atof rainElevationMin, atof rainElevationMax) o)))
      else if isToken switch "rs" then
        operand rest (fun a rest' => Ok (rest', with_rainStrength (atof a) o))
      else if isToken switch "sl" then
        operand rest (fun a rest' => Ok (rest', with_snowLine (atof a) o))
      else if isToken switch "sm" then
        operand rest (fun a rest' => Ok (rest', with_snowMelt (atof a) o))
      else if isToken switch "evr" then
        operand rest (fun a rest' => Ok (rest', with_evaporationRate (atof a) o))
      else if isToken switch "dds" then
        operand rest (fun a rest' => Ok (rest', with_demDistScale (atof a) o))
      else if isToken switch "wi" then
        operand rest (fun a rest' =>
          match extend (atoi a) (renderSettings o) with
          | Some rss =>
              onBack (with_fixProjectorView false) rest'
                     (with_renderSettings rss (with_windowIndex (atoi a) o))
          | None => EmptyBack
          end)
      else if isToken switch "fpv" then
        match onBack (with_fixProjectorView true) rest o with
        | Ok (_, o') =>
            match rest with
            | a :: rest' =>
                if negb (isDash (firstChar a))
                then loadOnBack (fun rs => Ok (loadProjectorTransform a rs))
                                rest' o'
                else Ok (rest, o')
            | [] => Ok (rest, o')
            end
        | fatal => fatal
        end
      else if isToken switch "nhs" then onBack (with_hillshade false) rest o
      else if isToken switch "uhs" then onBack (with_hillshade true) rest o
      else if isToken switch "ns" then onBack (with_useShadows false) rest o
      else if isToken switch "us" then onBack (with_useShadows true) rest o
      else if isToken switch "nhm" then onBack (with_elevationColorMap None) rest o
      else if isToken switch "uhm" then
        match rest with
        | a :: rest' =>
            if negb (isDash (firstChar a))
            then loadOnBack (loadHeightMap a) rest' o
            else loadOnBack (loadHeightMap CONFIG_DEFAULTHEIGHTCOLORMAPFILENAME) rest o
        | [] => loadOnBack (loadHeightMap CONFIG_DEFAULTHEIGHTCOLORMAPFILENAME) rest o
        end
      else if isToken switch "ncl" then onBack (with_useContourLines false) rest o
      else if isToken switch "ucl" then
        match onBack (with_useContourLines true) rest o with
        | Ok (_, o') =>
            match rest with
            | a :: rest' =>
                if negb (isDash (firstChar a))
                then onBack (with_contourLineSpacing (atof a)) rest' o'
                else Ok (rest, o')
            | [] => Ok (rest, o')
            end
        | fatal => fatal
        end
      else if isToken switch "rws" then onBack (with_renderWaterSurface true) rest o
      else if isToken switch "rwt" then onBack (with_renderWaterSurface false) rest o
      else if isToken switch "wo" then
        operand rest (fun a rest' => onBack (with_waterOpacity (atof a)) rest' o)
      else if isToken switch "cp" then
        operand rest (fun a rest' => Ok (rest', with_controlPipeName a o))
      else
        Ok (rest, with_cerr
                    (cerr o ++ [unrecognizedSwitch arg])%list o)
  else Ok (rest, o).

(** [for(int i=1;i<argc;++i)] from [argv[i]] on.  [None] only when
    [fuel] runs out; every round consumes an argument. *)
Fixpoint parseArguments (fuel : nat) (args : list string) (o : Options)
    : option (Result Options) :=
  match args with
  | [] => Some (Ok o)
  | arg :: rest =>
      match fuel with
      | O => None
      | S fuel' =>
          match parseArgument arg rest o with
          | Ok (rest', o') => parseArguments fuel' rest' o'
          | NullArgument => Some NullArgument
          | EmptyBack => Some EmptyBack
          | OutOfBounds => Some OutOfBounds
          end
      end
  end.

(** The command line block of the constructor.  [cfg] holds the values
    read from the configuration file; the block sets the variables that
    have no configuration tag, pushes the default render settings onto
    the empty [renderSettings] and runs the loop from [argv[1]]. *)
Definition commandLine (argv : list string) (cfg : Options)
    : option (Result Options) :=
  let o :=
    with_printHelp false (with_frameFilePrefix None (with_kinectServerName None
      (with_useRemoteServer false (with_remoteServerPortId 26000
        (with_engineering false (with_windowIndex 0 cfg)))))) in
  parseArguments (List.length argv) (tl argv)
    (with_cerr (cerr o ++ snd defaultRenderSettings)%list
       (with_renderSettings [fst defaultRenderSettings] o)).

End Parser.

(** [Sandbox::display]: the render settings for the window found at
    index [windowIndex],
    [windowIndex<int(renderSettings.size())?renderSettings[windowIndex]:renderSettings.back()]. *)
Definition windowSettings (windowIndex : nat) (rss : list RenderSettings)
    : option RenderSettings :=
  if (windowIndex <? List.length rss)%nat then nth_error rss windowIndex
  else back rss.

(** What a run of rounds of the loop over [argv] does to
    [renderSettings] when [front] holds all its elements but the last:
    [front] stays, followed by at least one element. *)
Definition keepsFront (front : list RenderSettings) (o' : Options) : Prop :=
  exists tail, renderSettings o' = (front ++ tail)%list /\ tail <> [].

(** *** Switches and their operands

    The switches that convert or copy their operands, with the number
    of operands each reads. *)
Definition operands : list (string * nat) :=
  [ ("c", 1); ("s", 1); ("slf", 1); ("er", 2); ("hmp", 4); ("nas", 1);
    ("sp", 2); ("he", 1); ("wts", 2); ("ws", 2); ("wmts", 1); ("rer", 2);
    ("rs", 1); ("sl", 1); ("sm", 1); ("evr", 1); ("dds", 1); ("wi", 1);
    ("wo", 1); ("cp", 1) ]%nat.

Fixpoint operandCount (switch : string) (table : list (string * nat)) : option nat :=
  match table with
  | [] => None
  | entry :: rest =>
      if isToken switch (fst entry) then Some (snd entry)
      else operandCount switch rest
  end.

(** *** The Kinect server name

    The loop that finds the last colon of [kinectServerName]:
    [colonPtr] is the text from the last colon seen so far. *)
Fixpoint lastColon (snPtr : string) (colonPtr : option string) : option string :=
  match snPtr with
  | EmptyString => colonPtr
  | String c r =>
      lastColon r (if (nat_of_ascii c =? 58)%nat then Some snPtr else colonPtr)
  end.

(** [std::string(kinectServerName,colonPtr)]: the text before
    [colonPtr], which points into [kinectServerName]. *)
Definition before (kinectServerName colonPtr : string) : string :=
  substring 0 (String.length kinectServerName - String.length colonPtr)
            kinectServerName.

(** The split of the server name into host name and port. *)
Definition splitServerName (atoi : string -> Z) (kinectServerName : string)
    : string * Z :=
  match lastColon kinectServerName None with
  | Some (String _ afterColon as colonPtr) =>
      (before kinectServerName colonPtr, atoi afterColon)
  | _ => (kinectServerName, 26000)
  end.

End CommandLine.


(** ** [DEM] (DEM.cpp) *)

Module DEM.

(** [DEM::calcAverageElevation]: the sum of the elevation measurements
    of the [dem] array divided by their number, [demSize.volume()]. *)
Definition calcAverageElevation (dem : list Q) : Q :=
  (Qsum dem / inject_Z (Z.of_nat (List.length dem)))%Q.

(** What [DEM::calcMatrix] reads: [demSize], whose two components are
    [unsigned int], [demBox] (left, bottom, right, top),
    [verticalScale] and [verticalScaleBase]. *)
Record DEM : Type := mkDEM {
  demSize : Z * Z;
  demBox : Q * Q * Q * Q;
  verticalScale : Q;
  verticalScaleBase : Q
}.

(** The matrix [dem] of [DEM::calcMatrix], the "DEM space to DEM pixel
    space transformation", applied to a point: [calcMatrix] writes, for
    each of the three axes, the factor on the diagonal and the offset
    in the last column of a matrix that starts as the identity.
    [demSize[0]-1] is computed on [unsigned int], modulo 2^32, so the
    size 0 that the constructor of [DEM] leaves gives 4294967295. *)
Definition demToPixel (d : DEM) (x y z : Q) : Q * Q * Q :=
  let '(x0, y0, x1, y1) := demBox d in
  let w := inject_Z (ControlPipe.toUnsigned (fst (demSize d) - 1)) in
  let h := inject_Z (ControlPipe.toUnsigned (snd (demSize d) - 1)) in
  (w / (x1 - x0) * x + ((1 # 2) - w / (x1 - x0) * x0),
   h / (y1 - y0) * y + ((1 # 2) - h / (y1 - y0) * y0),
   1 / verticalScale d * z
   + (verticalScaleBase d - verticalScaleBase d / verticalScale d))%Q.

End DEM.

(** ** The active DEM of [Sandbox] (Sandbox.cpp) *)

Module ActiveDem.

(** A DEM pointer as [Sandbox] holds it; [0] is the null pointer. *)
Definition Pointer : Type := Z.

(** [Sandbox::RenderSettings] as [toggleDEM] uses it.  The surface
    renderer is represented by the arguments of the [setDem] calls it
    has received, oldest first; [None] is the null pointer. *)
Record RenderSettings : Type := mkRenderSettings {
  fixProjectorView : bool;
  surfaceRenderer : option (list Pointer)
}.

Record Sandbox : Type := mkSandbox {
  activeDem : Pointer;
  renderSettings : list RenderSettings
}.

(** The loop of [toggleDEM] over [renderSettings]; [None] when it
    dereferences a null [surfaceRenderer]. *)
Fixpoint setDemAll (dem : Pointer) (rss : list RenderSettings)
    : option (list RenderSettings) :=
  match rss with
  | [] => Some []
  | rs :: rest =>
      if fixProjectorView rs then
        match surfaceRenderer rs with
        | Some received =>
            option_map (cons (mkRenderSettings true (Some (received ++ [dem]))))
                       (setDemAll dem rest)
        | None => None
        end
      else option_map (cons rs) (setDemAll dem rest)
  end.

(** [Sandbox::toggleDEM]. *)
Definition toggleDEM (dem : Pointer) (s : Sandbox) : option Sandbox :=
  let activeDem' := if activeDem s =? dem then 0 else dem in
  option_map (mkSandbox activeDem') (setDemAll activeDem' (renderSettings s)).

(** [Sandbox::toolDestructionCallback]; [tool] is the destroyed tool
    cast to [DEM*], null if the tool is not a DEM. *)
Definition toolDestructionCallback (tool : Pointer) (s : Sandbox) : Sandbox :=
  if activeDem s =? tool then mkSandbox 0 (renderSettings s) else s.

(** The DEM a surface renderer holds: the argument of the last
    [setDem] call, null before the first. *)
Definition currentDem (received : list Pointer) : Pointer := last received 0.

(** Every surface renderer of a window with a fixed projector view
    holds the active DEM. *)
Definition inStep (s : Sandbox) : Prop :=
  Forall (fun rs =>
            fixProjectorView rs = true ->
            option_map currentDem (surfaceRenderer rs) = Some (activeDem s))
         (renderSettings s).

End ActiveDem.

(** ** The slider callbacks of [Sandbox] (Sandbox.cpp) *)

Module SliderCallbacks.

(** [Sandbox::waterMaxStepsSliderCallback]:
    [waterMaxSteps=int(Math::floor(cbData->value+0.5))], stored in an
    [unsigned int]. *)
Definition waterMaxStepsSliderCallback (value : Q) : Z :=
  ControlPipe.toUnsigned (Qfloor (value + (1 # 2))).

End SliderCallbacks.


(** ** Runs of [display] over several frames, and the event tools *)

Module DisplayRuns.

Import GridRequest Display.

(** The [display] calls of a run of application frames: for each
    frame the contexts of its calls.  Returns the events of every call,
    in call order. *)
Fixpoint displayFrames {WaterTable : Type} {I : WaterTableInterface WaterTable}
    (frames : list (Frame * list nat)) (w : World WaterTable)
    : World WaterTable * list (nat * list Event) :=
  match frames with
  | [] => (w, [])
  | (fr, contexts) :: rest =>
      let (w', trace) := displayAll fr contexts w in
      let (w'', trace') := displayFrames rest w' in
      (w'', trace ++ trace')
  end.

End DisplayRuns.

Module Events.

Import ControlPipe.

(** Calls made on the [PropertyGridCreator] by the event tools. *)
Inductive PropertyGridCall : Type :=
| requestRoughnessGrid (roughness : Q)
| requestAbsorptionGrid (absorption : Q).

(** The members of [Sandbox] used by [eventCallback] and
    [pauseUpdatesCallback].  [pauseUpdatesToggle] is the state of the
    toggle button of the main menu, [None] the null pointer; the
    property grid creator is represented by the calls it has received,
    oldest first. *)
Record Sandbox : Type := mkSandbox {
  pauseUpdates : bool;
  pauseUpdatesToggle : option bool;
  propertyGridCreator : option (list PropertyGridCall);
  waterRoughnessSlider : Pointer TextFieldSlider;
  waterAbsorptionSlider : Pointer TextFieldSlider
}.

Inductive Outcome : Type :=
| Normal (s : Sandbox)
| NullDereference
| IndeterminateRead.

(** [slider->getValue()] through a pointer member. *)
Definition readSlider (sl : Pointer TextFieldSlider) (k : Q -> Outcome) : Outcome :=
  match sl with
  | Valid w => k (getValue w)
  | Null => NullDereference
  | Indeterminate => IndeterminateRead
  end.

(** [Sandbox::eventCallback]. *)
Definition eventCallback (eventId : Z) (newButtonState : bool) (s : Sandbox)
    : Outcome :=
  if newButtonState then
    if eventId =? 0 then
      match pauseUpdatesToggle s with
      | Some _ =>
          Normal (mkSandbox (negb (pauseUpdates s)) (Some (negb (pauseUpdates s)))
                            (propertyGridCreator s) (waterRoughnessSlider s)
                            (waterAbsorptionSlider s))
      | None => NullDereference
      end
    else if eventId =? 1 then
      match propertyGridCreator s with
      | Some received =>
          readSlider (waterRoughnessSlider s) (fun v =>
            Normal (mkSandbox (pauseUpdates s) (pauseUpdatesToggle s)
                              (Some (received ++ [requestRoughnessGrid v]))
                              (waterRoughnessSlider s) (waterAbsorptionSlider s)))
      | None => Normal s
      end
    else if eventId =? 2 then
      match propertyGridCreator s with
      | Some received =>
          readSlider (waterAbsorptionSlider s) (fun v =>
            Normal (mkSandbox (pauseUpdates s) (pauseUpdatesToggle s)
                              (Some (received ++ [requestAbsorptionGrid v]))
                              (waterRoughnessSlider s) (waterAbsorptionSlider s)))
      | None => Normal s
      end
    else Normal s
  else Normal s.

(** A run of button events, each an event id and the new button
    state. *)
Fixpoint eventCallbacks (events : list (Z * bool)) (s : Sandbox) : Outcome :=
  match events with
  | [] => Normal s
  | (eventId, newButtonState) :: rest =>
      match eventCallback eventId newButtonState s with
      | Normal s' => eventCallbacks rest s'
      | fatal => fatal
      end
  end.

(** What the constructor establishes: [createMainMenu] creates the
    toggle, and the property grid creator is created only together
    with the water table, for which [createWaterControlDialog] creates
    the sliders. *)
Definition constructed (s : Sandbox) : Prop :=
  pauseUpdatesToggle s <> None
  /\ (propertyGridCreator s <> None ->
      isValid (waterRoughnessSlider s) /\ isValid (waterAbsorptionSlider s)).

(** The presses of the "Pause Topography" event button in a run. *)
Definition pausePresses (events : list (Z * bool)) : nat :=
  List.length (filter (fun e => (fst e =? 0) && snd e) events).

End Events.


(** ** Concrete command lines for the examples *)

Module Samples.

Local Open Scope string_scope.

(** The values of the variables when the configuration file has no
    tag for them. *)
Definition options : CommandLine.Options :=
  CommandLine.mkOptions
    false None None false 26000 0 100 "BoxLayout.txt" (-1000, 1000)%Q
    false [] 30 10 2 (1 # 10) (640, 480) 1 30 0 false (-1000, 1000)%Q
    (1 # 4) 1000 (1 # 16) 0 1 0 [] "pipe.fifo" [].

(** Default render settings, and render settings with hill shading. *)
Definition window : CommandLine.RenderSettings :=
  CommandLine.mkRenderSettings false None false false false None true (3 # 4) false 2.

Definition shadedWindow : CommandLine.RenderSettings :=
  CommandLine.with_hillshade true window.

(** The command line loop with the decimal conversions, every file
    readable, and "etc" as the configuration directory. *)
Definition parseArgument
    : string -> list string -> CommandLine.Options
      -> CommandLine.Result (list string * CommandLine.Options) :=
  CommandLine.parseArgument Libc.atof Libc.atoi (fun _ => None) (fun _ => None)
    "etc" "HeightColorMap.cpt".

Definition parseArguments
    : nat -> list string -> CommandLine.Options
      -> option (CommandLine.Result CommandLine.Options) :=
  CommandLine.parseArguments Libc.atof Libc.atoi (fun _ => None) (fun _ => None)
    "etc" "HeightColorMap.cpt".

(** Two windows, the first one shaded, and the options left by the
    arguments [-wi 0 -uhs] from there. *)
Definition twoWindows : CommandLine.Options :=
  CommandLine.with_renderSettings [shadedWindow; window] options.

Definition afterSwitches : CommandLine.Options :=
  match parseArguments 3 ["-wi"; "0"; "-ncl"] twoWindows with
  | Some (CommandLine.Ok o) => o
  | _ => twoWindows
  end.

(** The options left by the command line [SARndbox -wi 1 -uhs], with
    "ProjectorMatrix.dat" as the default projector transformation
    file. *)
Definition commandLine
    : list string -> CommandLine.Options
      -> option (CommandLine.Result CommandLine.Options) :=
  CommandLine.commandLine Libc.atof Libc.atoi (fun _ => None) (fun _ => None)
    "etc" "ProjectorMatrix.dat" "HeightColorMap.cpt".

Definition afterCommandLine : CommandLine.Options :=
  match commandLine ["SARndbox"; "-wi"; "1"; "-uhs"] options with
  | Some (CommandLine.Ok o) => o
  | _ => options
  end.

(** The sandbox after two [contourLineSpacing] lines, the first with a
    distance that is not positive. *)
Definition contourLines : string :=
  "contourLineSpacing -1" ++ Examples.newline
  ++ "contourLineSpacing 2" ++ Examples.newline.

Definition afterContourLines : ControlPipe.Sandbox :=
  match Examples.controlPipe contourLines Examples.sandbox with
  | Some (ControlPipe.Normal s) => s
  | _ => Examples.sandbox
  end.

(** A sandbox with a fixed projector window and a free one, no DEM
    active. *)
Definition demSandbox : ActiveDem.Sandbox :=
  ActiveDem.mkSandbox 0
    [ActiveDem.mkRenderSettings true (Some []);
     ActiveDem.mkRenderSettings false (Some [])].

End Samples.

(** * Properties *)

(** ** The grid request slot *)

Module GridRequestFacts.

Import GridRequest.

Lemma isActive_true_iff (r : Request) : isActive r = true <-> callback r <> 0.
Proof.
  unfold isActive. rewrite negb_true_iff. apply Z.eqb_neq.
Qed.

(** A call is granted exactly when the slot is inactive; a granted
    call stores its arguments, a refused call leaves the slot alone. *)
Lemma submit_spec (slot r : Request) :
  (snd (submit slot r) = true <-> isActive slot = false)
  /\ (isActive slot = false -> fst (submit slot r) = r)
  /\ (isActive slot = true -> submit slot r = (slot, false)).
Proof.
  unfold submit, requestGrids, isActive.
  destruct (callback slot =? 0) eqn:E; cbn; repeat split; intros;
    try congruence; try discriminate.
  destruct r; reflexivity.
Qed.

(** [getRequest] hands out the slot's request and leaves the slot
    inactive. *)
Lemma getRequest_spec (slot : Request) :
  snd (getRequest slot) = slot /\ isActive (fst (getRequest slot)) = false.
Proof. split; reflexivity. Qed.

(** Calls on an active slot are all refused. *)
Lemma submitAll_active (calls : list Request) (slot : Request) :
  isActive slot = true ->
  fst (submitAll slot calls) = slot /\ granted (snd (submitAll slot calls)) = 0%nat.
Proof.
  intros Hact. induction calls as [|r rest IH]; cbn.
  - split; reflexivity.
  - destruct (submit_spec slot r) as (_ & _ & Hrefuse).
    rewrite (Hrefuse Hact).
    destruct (submitAll slot rest) as [slot' oks] eqn:E.
    cbn in *. destruct IH as [IH1 IH2]. split; [assumption|].
    unfold granted in *. cbn. exact IH2.
Qed.

(** Of any number of calls with a callback made on an inactive slot
    and not separated by a [getRequest], only the first is granted. *)
Lemma submitAll_inactive (r : Request) (rest : list Request) (slot : Request) :
  isActive slot = false -> callback r <> 0 ->
  fst (submitAll slot (r :: rest)) = r
  /\ granted (snd (submitAll slot (r :: rest))) = 1%nat.
Proof.
  intros Hin Hcb. cbn [submitAll].
  destruct (submit_spec slot r) as (Hok & Hstore & _).
  destruct (submit slot r) as [slot1 ok] eqn:E. cbn in Hok, Hstore.
  assert (ok = true) by (apply Hok; exact Hin).
  assert (slot1 = r) by (apply Hstore; exact Hin). subst.
  assert (Hact : isActive r = true) by (apply isActive_true_iff; exact Hcb).
  destruct (submitAll_active rest r Hact) as [H1 H2].
  destruct (submitAll r rest) as [slot' oks]. cbn in *.
  split; [exact H1|]. unfold granted in *. cbn. rewrite H2. reflexivity.
Qed.

(** After every history the live requests are the one in the slot, if
    it is active, and none otherwise. *)
Lemma history_live (calls : list Call) :
  snd (history calls) = if isActive (fst (history calls)) then 1%nat else 0%nat.
Proof.
  unfold history.
  assert (Hgen : forall state,
             snd state = (if isActive (fst state) then 1%nat else 0%nat) ->
             snd (fold_left call calls state)
             = if isActive (fst (fold_left call calls state)) then 1%nat else 0%nat).
  { induction calls as [|c rest IH]; intros state Hinv; [exact Hinv|].
    cbn [fold_left]. apply IH. destruct state as [slot live]. cbn [fst snd] in Hinv.
    destruct c as [r|]; cbn [call].
    - destruct (submit_spec slot r) as (Hok & Hstore & Hrefuse).
      destruct (isActive slot) eqn:Ea.
      + rewrite (Hrefuse eq_refl). cbn. rewrite Ea. exact Hinv.
      + specialize (Hstore eq_refl). destruct (submit slot r) as [slot' ok].
        cbn [fst snd] in *. subst slot'.
        assert (ok = true) by (apply Hok; reflexivity). subst ok live.
        cbn. destruct (isActive r); reflexivity.
    - cbn. destruct (isActive slot); subst live; reflexivity. }
  apply Hgen. reflexivity.
Qed.

(** C3, as stated, fails when the call that acquires the mutex first
    passes a null callback: the slot stays inactive and the second
    call is granted as well. *)
Lemma two_submits_both_granted :
  snd (submitAll inactive [mkRequest 100 200 300 0 0; mkRequest 101 201 301 7 0])
  = [true; true]
  /\ granted (snd (submitAll inactive
                    [mkRequest 100 200 300 0 0; mkRequest 101 201 301 7 0]))
     <> 1%nat.
Proof. split; [reflexivity | cbn; discriminate]. Qed.

(** C3 (amended): after every history of calls at most one request is
    live; a call is granted exactly when the slot is inactive, in which
    case it stores its request, and is refused otherwise, leaving the
    slot as it was; and of two concurrent calls that pass a callback,
    made on an inactive slot before any [getRequest], exactly one is
    granted, whichever order they acquire the mutex in, and the slot
    then holds the request of the call that came first. *)
Theorem one_of_two_submits_granted (slot a b : Request) (calls : list Request) :
  isActive slot = false -> callback a <> 0 -> callback b <> 0 ->
  In calls (interleavings a b) ->
  (forall past, (snd (history past) <= 1)%nat)
  /\ (forall s r, (snd (submit s r) = true <-> isActive s = false)
                  /\ (isActive s = false -> fst (submit s r) = r)
                  /\ (isActive s = true -> submit s r = (s, false)))
  /\ granted (snd (submitAll slot calls)) = 1%nat
  /\ Some (fst (submitAll slot calls)) = hd_error calls
  /\ isActive (fst (submitAll slot calls)) = true.
Proof.
  intros Hin Ha Hb Hcalls.
  split; [intros past; rewrite history_live;
          destruct (isActive (fst (history past))); auto|].
  split; [intros; apply submit_spec|].
  destruct Hcalls as [<- | [<- | []]].
  - destruct (submitAll_inactive a [b] slot Hin Ha) as [H1 H2].
    rewrite H1, H2. repeat split. apply isActive_true_iff; exact Ha.
  - destruct (submitAll_inactive b [a] slot Hin Hb) as [H1 H2].
    rewrite H1, H2. repeat split. apply isActive_true_iff; exact Hb.
Qed.

Lemma one_of_two_submits_granted_witness :
  granted (snd (submitAll inactive
                  [mkRequest 100 200 300 7 0; mkRequest 101 201 301 8 0])) = 1%nat.
Proof.
  apply (one_of_two_submits_granted inactive
           (mkRequest 100 200 300 7 0) (mkRequest 101 201 301 8 0)
           [mkRequest 100 200 300 7 0; mkRequest 101 201 301 8 0]).
  - reflexivity.
  - cbn; discriminate.
  - cbn; discriminate.
  - left; reflexivity.
Defined.

End GridRequestFacts.

(** ** The raw depth frame dispatcher *)

Module DispatcherFacts.

Import Dispatcher.

Lemma dispatcher_keeps_pause (s : Sandbox) (f : FrameBuffer) :
  pauseUpdates (rawDepthFrameDispatcher s f) = pauseUpdates s.
Proof. reflexivity. Qed.

(** One frame while paused: nothing for the frame filter, the frame
    for the hand extractor. *)
Lemma paused_frame (s : Sandbox) (f : FrameBuffer) :
  pauseUpdates s = true ->
  frameFilter (rawDepthFrameDispatcher s f) = frameFilter s
  /\ handExtractor (rawDepthFrameDispatcher s f)
     = option_map (fun he => receiveRawFrame he f) (handExtractor s).
Proof.
  intros Hp. unfold rawDepthFrameDispatcher. rewrite Hp. cbn.
  split.
  - destruct (frameFilter s); reflexivity.
  - destruct (handExtractor s); reflexivity.
Qed.

(** One frame while not paused reaches the frame filter too. *)
Lemma running_frame (s : Sandbox) (f : FrameBuffer) :
  pauseUpdates s = false ->
  frameFilter (rawDepthFrameDispatcher s f)
  = option_map (fun ff => receiveRawFrame ff f) (frameFilter s).
Proof.
  intros Hp. unfold rawDepthFrameDispatcher. rewrite Hp. cbn.
  destruct (frameFilter s); reflexivity.
Qed.

(** C10: while updates are paused, no raw frame of the stream is
    handed to the frame filter, and every raw frame of the stream is
    handed to the hand extractor, in the order of arrival. *)
Theorem paused_frames_reach_hand_extractor_only
    (frames : list FrameBuffer) (s : Sandbox) :
  pauseUpdates s = true ->
  frameFilter (dispatchAll s frames) = frameFilter s
  /\ handExtractor (dispatchAll s frames)
     = option_map (fun he => he ++ frames) (handExtractor s)
  /\ pauseUpdates (dispatchAll s frames) = true.
Proof.
  unfold dispatchAll. revert s.
  induction frames as [|f rest IH]; intros s Hp; cbn [fold_left].
  - repeat split; try assumption.
    destruct (handExtractor s); cbn; [rewrite app_nil_r|]; reflexivity.
  - destruct (paused_frame s f Hp) as [Hff Hhe].
    destruct (IH (rawDepthFrameDispatcher s f)) as (IH1 & IH2 & IH3).
    { rewrite dispatcher_keeps_pause. exact Hp. }
    rewrite IH1, IH2, IH3, Hff, Hhe. repeat split.
    destruct (handExtractor s); cbn; [|reflexivity].
    unfold receiveRawFrame. rewrite <- app_assoc. reflexivity.
Qed.

Lemma paused_frames_reach_hand_extractor_only_witness :
  frameFilter (dispatchAll (mkSandbox (Some [1%nat]) true (Some [1%nat])) [2; 3]%nat)
  = Some [1%nat]
  /\ handExtractor (dispatchAll (mkSandbox (Some [1%nat]) true (Some [1%nat])) [2; 3]%nat)
     = Some [1; 2; 3]%nat.
Proof.
  destruct (paused_frames_reach_hand_extractor_only [2; 3]%nat
              (mkSandbox (Some [1%nat]) true (Some [1%nat])) eq_refl)
    as (H1 & H2 & _).
  split; [exact H1 | exact H2].
Defined.

End DispatcherFacts.

(** ** The tokenizer *)

Module TokenizerFacts.

Import Tokenizer.

Lemma skipWhitespace_length (b : string) :
  (String.length (skipWhitespace b) <= String.length b)%nat.
Proof.
  induction b as [|c r IH]; cbn; [lia|].
  destruct (negb (isNewline c) && isspace c); cbn; lia.
Qed.

(** What [skipWhitespace] stops at is the end, a newline, or a
    character that is not a space. *)
Lemma skipWhitespace_stop (b : string) :
  match skipWhitespace b with
  | EmptyString => True
  | String c _ => isNewline c = true \/ isspace c = false
  end.
Proof.
  induction b as [|c r IH]; cbn; [exact I|].
  destruct (isNewline c) eqn:En; cbn; [left; exact En|].
  destruct (isspace c) eqn:Es; cbn; [exact IH | right; exact Es].
Qed.

Lemma scanToken_length (b : string) :
  (String.length (snd (scanToken b)) <= String.length b)%nat.
Proof.
  induction b as [|c r IH]; cbn; [lia|].
  destruct (isspace c); cbn; [lia|].
  destruct (scanToken r) as [tok rest]; cbn in *; lia.
Qed.

(** A token that starts at a non-space character is not empty. *)
Lemma scanToken_progress (c : ascii) (r : string) :
  isspace c = false ->
  fst (scanToken (String c r)) <> EmptyString
  /\ (String.length (snd (scanToken (String c r))) <= String.length r)%nat.
Proof.
  intros Hc. cbn. rewrite Hc.
  pose proof (scanToken_length r) as Hr.
  destruct (scanToken r) as [tok rest]; cbn in *. split; [discriminate | lia].
Qed.

Lemma extractTokens_length (fuel : nat) (b : string) :
  (String.length (snd (extractTokens fuel b)) <= String.length b)%nat.
Proof.
  revert b. induction fuel as [|fuel IH]; intros b; cbn [extractTokens snd]; [lia|].
  destruct b as [|c r]; cbn [snd]; [lia|].
  destruct (isNewline c); cbn [snd]; [lia|].
  pose proof (scanToken_length (String c r)) as Hs.
  destruct (scanToken (String c r)) as [tok afterTok]; cbn [snd] in Hs.
  pose proof (skipWhitespace_length afterTok) as Hw.
  specialize (IH (skipWhitespace afterTok)).
  destruct (extractTokens fuel (skipWhitespace afterTok)) as [toks rest].
  cbn [snd] in *. lia.
Qed.

(** With the length of the text as fuel the extraction loop ends on its
    own condition: at the end of the text or at a newline.  The text is
    what [skipWhitespace] left, so it does not start with a space other
    than a newline. *)
Lemma extractTokens_exit (fuel : nat) (b : string) :
  (String.length b <= fuel)%nat ->
  match b with
  | EmptyString => True
  | String c _ => isNewline c = true \/ isspace c = false
  end ->
  match snd (extractTokens fuel b) with
  | EmptyString => True
  | String c _ => isNewline c = true
  end.
Proof.
  revert b. induction fuel as [|fuel IH]; intros b Hlen Hstart.
  - destruct b; cbn in *; [exact I | lia].
  - cbn [extractTokens]. destruct b as [|c r]; cbn [snd]; [exact I|].
    destruct (isNewline c) eqn:En; cbn [snd]; [exact En|].
    destruct Hstart as [Hn | Hs]; [congruence|].
    destruct (scanToken_progress c r Hs) as [_ Hp].
    destruct (scanToken (String c r)) as [tok afterTok]; cbn [snd] in Hp.
    pose proof (skipWhitespace_length afterTok) as Hw.
    pose proof (skipWhitespace_stop afterTok) as Hstop.
    specialize (IH (skipWhitespace afterTok)).
    destruct (extractTokens fuel (skipWhitespace afterTok)) as [toks rest].
    cbn [snd] in *. apply IH; [cbn [String.length] in Hlen; lia | exact Hstop].
Qed.

(** [tokenizeLine] always moves the read pointer forward. *)
Lemma tokenizeLine_progress (c : ascii) (r : string) :
  (String.length (snd (tokenizeLine (String c r))) <= String.length r)%nat.
Proof.
  unfold tokenizeLine.
  pose proof (skipWhitespace_length (String c r)) as Hw.
  destruct (skipWhitespace (String c r)) as [|d b] eqn:Eb.
  - cbn. lia.
  - assert (Hd : (String.length
                    (snd (extractTokens (String.length (String d b)) (String d b)))
                  <= String.length (String d b))%nat)
      by apply extractTokens_length.
    assert (Hcase : (String.length (String d b) <= String.length r)%nat
                    \/ String d b = String c r).
    { cbn in Eb. destruct (negb (isNewline c) && isspace c).
      - left. rewrite <- Eb. apply skipWhitespace_length.
      - right. congruence. }
    destruct Hcase as [Hshort | Hsame].
    + destruct (extractTokens (String.length (String d b)) (String d b))
        as [result b'].
      cbn [snd] in Hd. destruct b' as [|e b'']; cbn [snd]; [cbn in *; lia|].
      destruct (isNewline e); cbn in *; lia.
    + injection Hsame as -> ->. clear Hd.
      pose proof (skipWhitespace_stop (String c r)) as Hstop. rewrite Eb in Hstop.
      cbn [String.length extractTokens].
      destruct (isNewline c) eqn:En.
      * cbn. rewrite En. cbn. lia.
      * destruct Hstop as [Hn | Hs]; [congruence|].
        destruct (scanToken_progress c r Hs) as [_ Hp].
        destruct (scanToken (String c r)) as [tok afterTok]; cbn [snd] in Hp.
        pose proof (skipWhitespace_length afterTok) as Hw2.
        pose proof (extractTokens_length (String.length r) (skipWhitespace afterTok))
          as He.
        destruct (extractTokens (String.length r) (skipWhitespace afterTok))
          as [toks rest].
        cbn [snd] in He. destruct rest as [|e rest']; cbn [snd]; [cbn in *; lia|].
        destruct (isNewline e); cbn in *; lia.
Qed.

End TokenizerFacts.

(** ** The control pipe *)

Module ControlPipeFacts.

Import Tokenizer ControlPipe TokenizerFacts.


Lemma forEachSurfaceRenderer_constructed
    (checked : bool) (calls : list SurfaceRendererCall) (rss : list RenderSettings) :
  Forall (fun rs => surfaceRenderer rs <> None) rss ->
  exists rss',
    forEachSurfaceRenderer checked calls rss = Some rss'
    /\ Forall (fun rs => surfaceRenderer rs <> None) rss'.
Proof.
  induction 1 as [|rs rest Hrs Hrest (rss' & E & IH)]; cbn.
  - exists []. split; [reflexivity | constructor].
  - destruct (surfaceRenderer rs) as [received|] eqn:Er; [|congruence].
    rewrite E. cbn. eexists. split; [reflexivity|].
    constructor; [cbn; discriminate | exact IH].
Qed.

Lemma forEachElevationColorMap_constructed
    (call : ElevationColorMapCall) (rss : list RenderSettings) :
  Forall (fun rs => surfaceRenderer rs <> None) rss ->
  Forall (fun rs => surfaceRenderer rs <> None) (forEachElevationColorMap call rss).
Proof.
  unfold forEachElevationColorMap.
  induction 1 as [|rs rest Hrs Hrest IH]; cbn; constructor; [|exact IH].
  destruct (elevationColorMap rs); cbn; exact Hrs.
Qed.

Lemma onSurfaceRenderers_constructed
    (checked : bool) (calls : list SurfaceRendererCall) (s : Sandbox) :
  constructed s ->
  exists s', onSurfaceRenderers checked calls s = Normal s' /\ constructed s'.
Proof.
  intros [Hr Hw]. unfold onSurfaceRenderers.
  destruct (forEachSurfaceRenderer_constructed checked calls _ Hr) as (rss' & E & Hr').
  rewrite E. eexists. split; [reflexivity|]. split; [exact Hr' | exact Hw].
Qed.

(** Splits a hypothesis about [findCommand] along the chain of tests. *)
Ltac splitChain H :=
  repeat match type of H with
         | context [if isToken ?t ?n then _ else _] =>
             let E := fresh "E" in destruct (isToken t n) eqn:E
         end.

(** Replaces every decided [isToken] test of the goal by its value. *)
Ltac useTests :=
  repeat match goal with
         | E : isToken _ _ = _ |- _ => rewrite E; clear E
         end.

Lemma onSurfaceRenderers_dialog
    (checked : bool) (calls : list SurfaceRendererCall) (s : Sandbox) :
  constructed s -> waterTable s <> None ->
  exists s',
    onSurfaceRenderers checked calls s = Normal s'
    /\ constructed s' /\ waterTable s' <> None.
Proof.
  intros Hc Hw.
  destruct (onSurfaceRenderers_constructed checked calls s Hc) as (s' & E & Hc').
  exists s'. split; [exact E|]. split; [exact Hc'|].
  unfold onSurfaceRenderers in E.
  destruct (forEachSurfaceRenderer checked calls (renderSettings s)); [|discriminate].
  injection E as <-. exact Hw.
Qed.

Lemma tokenizeLine_empty : tokenizeLine EmptyString = ([], EmptyString).
Proof. reflexivity. Qed.

Section Commands.

Variable atof : string -> Q.
Variable atoi : string -> Z.
Variable showFloat : Q -> string.
Variable colorMapLoad : string -> option string.

Let execCommand := execCommand atof atoi showFloat colorMapLoad.
Let processCommands := processCommands atof atoi showFloat colorMapLoad.
Let commandLoop := commandLoop atof atoi showFloat colorMapLoad.
Let controlPipe := controlPipe atof atoi showFloat colorMapLoad.

(** A rejected line only adds one message to [cerr]. *)
Lemma rejected_command (tokens : list string) (s : Sandbox) :
  unrecognized tokens = true \/ wrongArgumentCount tokens = true ->
  exists msg, execCommand tokens s = Normal (report msg s).
Proof.
  unfold unrecognized, wrongArgumentCount.
  intros [H | H]; cbn [findCommand commandArity fst] in H; splitChain H;
    try discriminate H;
    cbn [snd] in H; unfold sizeIs, sizeAtLeast in H;
    try (apply negb_true_iff in H);
    try (apply orb_false_iff in H; destruct H as [H H']);
    cbv beta zeta delta [execCommand ControlPipe.execCommand execRendererCommand];
    useTests; cbv iota; try rewrite H; try rewrite H'; cbn [andb];
    unfold wrongNumber; eexists; reflexivity.
Qed.

(** On a sandbox with a water table, as the constructor leaves it, no
    command dereferences a null pointer or reads a pointer that was
    never written, and the sandbox stays that way. *)
Lemma execCommand_constructed (tokens : list string) (s : Sandbox) :
  constructed s -> waterTable s <> None ->
  exists s', execCommand tokens s = Normal s'
             /\ constructed s' /\ waterTable s' <> None.
Proof.
  intros Hc Hw. pose proof Hc as [Hr Hd].
  destruct (waterTable s) as [w|] eqn:Ew; [|congruence].
  destruct Hd as (V1 & V2 & V3 & V4 & V5 & V6 & V7 & V8).
  cbv beta zeta delta [execCommand ControlPipe.execCommand execRendererCommand].
  rewrite Ew.
  destruct (snowLineSlider s) eqn:P1; try contradiction.
  destruct (snowMeltSlider s) eqn:P2; try contradiction.
  destruct (waterSpeedSlider s) eqn:P3; try contradiction.
  destruct (waterMaxStepsSlider s) eqn:P4; try contradiction.
  destruct (waterModeRadioBox s) eqn:P5; try contradiction.
  destruct (waterAttenuationSlider s) eqn:P6; try contradiction.
  destruct (waterRoughnessSlider s) eqn:P7; try contradiction.
  destruct (waterAbsorptionSlider s) eqn:P8; try contradiction.
  cbn [withSlider option_map].
  repeat match goal with
         | |- context [if ?c then _ else _] => destruct c eqn:?
         | |- context [match colorMapLoad ?x with _ => _ end] =>
             destruct (colorMapLoad x) eqn:?
         | |- exists s', onSurfaceRenderers _ _ _ = _ /\ _ =>
             apply onSurfaceRenderers_dialog; [exact Hc | congruence]
         end.
  all: eexists; (split; [reflexivity|]); split; [|cbn; congruence].
  all: split; cbn;
    [ first [ exact Hr | apply forEachElevationColorMap_constructed; exact Hr ] |].
  all: rewrite ?Ew; unfold withDialog; cbn;
    rewrite ?P1, ?P2, ?P3, ?P4, ?P5, ?P6, ?P7, ?P8; cbn; repeat split.
Qed.

(** More fuel than the length of the buffer changes nothing. *)
Lemma processCommands_fuel (n : nat) :
  forall (fuel : nat) (cPtr : string) (s : Sandbox),
    (String.length cPtr <= n)%nat -> (n <= fuel)%nat ->
    processCommands fuel cPtr s = processCommands n cPtr s.
Proof.
  induction n as [|n IH]; intros fuel cPtr s Hlen Hfuel.
  - destruct cPtr; [|cbn in Hlen; lia]. destruct fuel; reflexivity.
  - destruct cPtr as [|c r]; [destruct fuel; reflexivity|].
    destruct fuel as [|fuel]; [lia|].
    unfold processCommands. cbn [ControlPipe.processCommands].
    pose proof (tokenizeLine_progress c r) as Hp.
    destruct (tokenizeLine (String c r)) as [tokens next]. cbn [snd] in Hp.
    cbn [String.length] in Hlen.
    destruct tokens as [|t ts].
    + apply IH; lia.
    + destruct (ControlPipe.execCommand atof atoi showFloat colorMapLoad (t :: ts) s);
        [apply IH; lia | reflexivity | reflexivity].
Qed.

(** One iteration of the command loop. *)
Lemma commandLoop_unfold (c : ascii) (r : string) (s : Sandbox) :
  commandLoop (String c r) s =
  match fst (tokenizeLine (String c r)) with
  | [] => commandLoop (snd (tokenizeLine (String c r))) s
  | tokens =>
      match execCommand tokens s with
      | Normal s' => commandLoop (snd (tokenizeLine (String c r))) s'
      | fatal => Some fatal
      end
  end.
Proof.
  unfold commandLoop, ControlPipe.commandLoop.
  cbn [String.length ControlPipe.processCommands].
  pose proof (tokenizeLine_progress c r) as Hp.
  destruct (tokenizeLine (String c r)) as [tokens next]. cbn [fst snd] in *.
  destruct tokens as [|t ts].
  - apply (processCommands_fuel (String.length next)); lia.
  - unfold execCommand.
    destruct (ControlPipe.execCommand atof atoi showFloat colorMapLoad (t :: ts) s);
      [|reflexivity|reflexivity].
    apply (processCommands_fuel (String.length next)); lia.
Qed.

(** The command loop reaches the end of every buffer. *)
Lemma commandLoop_returns (n : nat) :
  forall (cPtr : string) (s : Sandbox),
    (String.length cPtr <= n)%nat -> exists o, commandLoop cPtr s = Some o.
Proof.
  induction n as [|n IH]; intros cPtr s Hlen.
  - destruct cPtr; [|cbn in Hlen; lia]. eexists; reflexivity.
  - destruct cPtr as [|c r]; [eexists; reflexivity|].
    rewrite commandLoop_unfold.
    pose proof (tokenizeLine_progress c r) as Hp. cbn [String.length] in Hlen.
    destruct (fst (tokenizeLine (String c r))) as [|t ts].
    + apply IH; lia.
    + destruct (execCommand (t :: ts) s);
        [apply IH; lia | eexists; reflexivity | eexists; reflexivity].
Qed.

(** On a sandbox with a water table, as the constructor leaves it, the
    command loop ends normally on every buffer. *)
Lemma commandLoop_constructed (n : nat) :
  forall (cPtr : string) (s : Sandbox),
    (String.length cPtr <= n)%nat -> constructed s -> waterTable s <> None ->
    exists s', commandLoop cPtr s = Some (Normal s')
               /\ constructed s' /\ waterTable s' <> None.
Proof.
  induction n as [|n IH]; intros cPtr s Hlen Hc Hw.
  - destruct cPtr; [|cbn in Hlen; lia].
    exists s. split; [reflexivity|]. split; assumption.
  - destruct cPtr as [|c r]; [exists s; split; [reflexivity|]; split; assumption|].
    rewrite commandLoop_unfold.
    pose proof (tokenizeLine_progress c r) as Hp. cbn [String.length] in Hlen.
    destruct (fst (tokenizeLine (String c r))) as [|t ts].
    + apply IH; [lia | exact Hc | exact Hw].
    + destruct (execCommand_constructed (t :: ts) s Hc Hw) as (s' & E & Hc' & Hw').
      rewrite E. apply IH; [lia | exact Hc' | exact Hw'].
Qed.

(** The part of C6 about rejected lines holds in every state of the
    sandbox: when the command loop stands at a line with an
    unrecognized command name or with a wrong number of arguments, it
    writes one message to [cerr], changes nothing else, moves on to the
    next line and runs the rest of the buffer from there, and the loop
    reaches the end of the buffer.  On a sandbox with a water table, as
    the constructor leaves it, the rest of the buffer, whatever it
    holds, is processed without a null pointer dereference and without
    reading a pointer that was never written. *)
Theorem rejected_line_is_skipped (cPtr : string) (s : Sandbox) :
  fst (tokenizeLine cPtr) <> [] ->
  unrecognized (fst (tokenizeLine cPtr)) = true
  \/ wrongArgumentCount (fst (tokenizeLine cPtr)) = true ->
  exists msg,
    execCommand (fst (tokenizeLine cPtr)) s = Normal (report msg s)
    /\ commandLoop cPtr s = commandLoop (snd (tokenizeLine cPtr)) (report msg s)
    /\ (String.length (snd (tokenizeLine cPtr)) < String.length cPtr)%nat
    /\ (exists o, commandLoop cPtr s = Some o)
    /\ (constructed s -> waterTable s <> None ->
        exists s', commandLoop cPtr s = Some (Normal s')).
Proof.
  intros Hne Hrej.
  destruct cPtr as [|c r]; [rewrite tokenizeLine_empty in Hne; contradiction|].
  destruct (rejected_command _ s Hrej) as [msg Hmsg].
  exists msg. split; [exact Hmsg|].
  pose proof (tokenizeLine_progress c r) as Hp.
  repeat split.
  - rewrite commandLoop_unfold.
    destruct (fst (tokenizeLine (String c r))) as [|t ts]; [contradiction|].
    rewrite Hmsg. reflexivity.
  - cbn [String.length]. lia.
  - apply (commandLoop_returns (String.length (String c r))). lia.
  - intros Hc Hw.
    destruct (commandLoop_constructed (String.length (String c r)) (String c r) s)
      as (s' & E & _); [lia | exact Hc | exact Hw |].
    exists s'. exact E.
Qed.

(** The branch taken by a two-token line whose command name is [name]. *)
Ltac runCommand Hname :=
  unfold isToken in Hname; apply String.eqb_eq in Hname;
  cbv beta zeta delta [execCommand ControlPipe.execCommand];
  cbn [nth List.length]; unfold isToken; rewrite Hname; cbn.

(** C7: on a sandbox with a water table, a [waterAttenuation x] line
    with one argument sets the water table's attenuation factor to one
    minus the value of [x], for every [x], whatever the case of the
    command name and the spacing of the line; the loop then moves on to
    the next line.  The slider pointer is null or valid: the
    constructor's initializer list writes it. *)
Theorem waterAttenuation_stores_complement
    (cPtr name x : string) (s : Sandbox) (w : WaterTable2) :
  waterAttenuationSlider s <> Indeterminate ->
  waterTable s = Some w ->
  fst (tokenizeLine cPtr) = [name; x] ->
  isToken name "waterAttenuation" = true ->
  exists s',
    execCommand [name; x] s = Normal s'
    /\ waterTable s' = Some (setAttenuation (1 - atof x) w)
    /\ option_map attenuation (waterTable s') = Some (1 - atof x)%Q
    /\ commandLoop cPtr s = commandLoop (snd (tokenizeLine cPtr)) s'.
Proof.
  intros Hsl Hw Htok Hname.
  assert (Hexec : exists slider,
             execCommand [name; x] s =
             Normal (with_waterAttenuationSlider slider
                       (with_waterTable (Some (setAttenuation (1 - atof x) w)) s))).
  { runCommand Hname. rewrite Hw.
    destruct (waterAttenuationSlider s); [| |congruence]; eexists; reflexivity. }
  destruct Hexec as [slider Hexec].
  eexists. split; [exact Hexec|]. cbn.
  repeat split.
  destruct cPtr as [|c r]; [rewrite tokenizeLine_empty in Htok; discriminate|].
  rewrite commandLoop_unfold, Htok. fold execCommand. rewrite Hexec. reflexivity.
Qed.


End Commands.

Local Open Scope string_scope.

(** The example sandbox is as the constructor leaves it. *)
Lemma sandbox_constructed : constructed Examples.sandbox.
Proof.
  split; [repeat constructor; cbn; discriminate | cbn; repeat split].
Qed.

Lemma sandboxWithoutWater_constructed : constructed Examples.sandboxWithoutWater.
Proof.
  split; [repeat constructor; cbn; discriminate | cbn; repeat split].
Qed.

Lemma rejected_line_is_skipped_witness :
  exists msg,
    ControlPipe.commandLoop Libc.atof Libc.atoi Libc.showFloat Libc.colorMapLoad
      ("bogus 1 2" ++ Examples.newline ++ "waterSpeed 2" ++ Examples.newline)
      Examples.sandbox
    = ControlPipe.commandLoop Libc.atof Libc.atoi Libc.showFloat Libc.colorMapLoad
        ("waterSpeed 2" ++ Examples.newline) (report msg Examples.sandbox).
Proof.
  destruct (rejected_line_is_skipped Libc.atof Libc.atoi Libc.showFloat Libc.colorMapLoad
              ("bogus 1 2" ++ Examples.newline ++ "waterSpeed 2" ++ Examples.newline)
              Examples.sandbox) as (msg & _ & H & _).
  - vm_compute. discriminate.
  - left. vm_compute. reflexivity.
  - exists msg. exact H.
Defined.

Lemma waterAttenuation_stores_complement_witness :
  exists s',
    Examples.execCommand ["WaterAttenuation"; "0.25"] Examples.sandbox = Normal s'
    /\ option_map attenuation (waterTable s') = Some (1 - Libc.atof "0.25")%Q.
Proof.
  destruct (waterAttenuation_stores_complement
              Libc.atof Libc.atoi Libc.showFloat Libc.colorMapLoad
              ("  WaterAttenuation   0.25 " ++ Examples.newline)
              "WaterAttenuation" "0.25" Examples.sandbox
              (mkWaterTable2 20 (1 # 16) (127 # 128) 0 Traditional))
    as (s' & H1 & _ & H2 & _).
  - cbn. discriminate.
  - reflexivity.
  - vm_compute. reflexivity.
  - vm_compute. reflexivity.
  - exists s'. split; [exact H1 | exact H2].
Defined.



(** C6: the code breaks the claim on a sandbox started with the water
    simulation off.  The constructor then never writes
    [snowMeltSlider], and the well-formed line [snowMelt 1] tests that
    pointer: the command block reads a pointer that was never written,
    where the claim has no control pipe input be fatal.  The lines
    [waterRoughness 1] and [waterAbsorption 1] do the same with their
    sliders. *)
Theorem snowMelt_reads_unwritten_pointer :
  constructed Examples.sandboxWithoutWater
  /\ wrongArgumentCount ["snowMelt"; "1"] = false
  /\ unrecognized ["snowMelt"; "1"] = false
  /\ Examples.controlPipe ("snowMelt 1" ++ Examples.newline) Examples.sandboxWithoutWater
     = Some IndeterminateRead
  /\ Examples.controlPipe ("waterRoughness 1" ++ Examples.newline)
       Examples.sandboxWithoutWater
     = Some IndeterminateRead
  /\ Examples.controlPipe ("waterAbsorption 1" ++ Examples.newline)
       Examples.sandboxWithoutWater
     = Some IndeterminateRead.
Proof.
  split; [exact sandboxWithoutWater_constructed|].
  repeat split; vm_compute; reflexivity.
Qed.

End ControlPipeFacts.

(** ** The simulation update block *)

Module DisplayFacts.

Import GridRequest Display.
Local Open Scope Q_scope.

Section Engine.
Context {WaterTable : Type} {I : WaterTableInterface WaterTable}.

Lemma Qltb_false_le (x y : Q) : Qltb x y = false <-> y <= x.
Proof. unfold Qltb. rewrite negb_false_iff. apply Qle_bool_iff. Qed.

Lemma steppingLoop_length (n : nat) :
  forall (T : Q) (w : WaterTable),
    (List.length (snd (steppingLoop n T w)) <= n)%nat.
Proof.
  induction n as [|n IH]; intros T w; cbn [steppingLoop]; [cbn; lia|].
  destruct (Qltb epsilon T); [|cbn; lia].
  destruct (runSimulationStep false T w) as [w' dt].
  specialize (IH (T - dt) w').
  destruct (steppingLoop n (T - dt) w') as [w'' steps]. cbn in *. lia.
Qed.

Lemma steppingLoop_idle (n : nat) (T : Q) (w : WaterTable) :
  T <= epsilon -> steppingLoop n T w = (w, []).
Proof.
  intros H. destruct n; cbn [steppingLoop]; [reflexivity|].
  apply Qltb_false_le in H. rewrite H. reflexivity.
Qed.

Lemma steppingLoop_budgets (n : nat) :
  forall (T : Q) (w : WaterTable),
    map fst (snd (steppingLoop n T w))
    = remainingBudgets T (map snd (snd (steppingLoop n T w))).
Proof.
  induction n as [|n IH]; intros T w; cbn [steppingLoop]; [reflexivity|].
  destruct (Qltb epsilon T); [|reflexivity].
  destruct (runSimulationStep false T w) as [w' dt].
  specialize (IH (T - dt) w').
  destruct (steppingLoop n (T - dt) w') as [w'' steps]. cbn in *.
  rewrite IH. reflexivity.
Qed.

Lemma steppingLoop_sum (n : nat) :
  (forall force m w, snd (runSimulationStep force m w) <= m) ->
  forall (T : Q) (w : WaterTable),
    0 <= T -> Qsum (map snd (snd (steppingLoop n T w))) <= T.
Proof.
  intros Hstep.
  induction n as [|n IH]; intros T w HT; cbn [steppingLoop]; [exact HT|].
  destruct (Qltb epsilon T); [|exact HT].
  pose proof (Hstep false T w) as Hdt.
  destruct (runSimulationStep false T w) as [w' dt]. cbn [snd] in Hdt.
  assert (H0 : 0 <= T - dt) by lra.
  specialize (IH (T - dt) w' H0).
  destruct (steppingLoop n (T - dt) w') as [w'' steps]. cbn in *. lra.
Qed.

Lemma count_app (p : Event -> bool) (a b : list Event) :
  count p (a ++ b) = (count p a + count p b)%nat.
Proof. unfold count. rewrite filter_app, length_app. reflexivity. Qed.

Lemma timeSteps_app (a b : list Event) :
  timeSteps (a ++ b) = (timeSteps a ++ timeSteps b)%list.
Proof.
  induction a as [|e a IH]; [reflexivity|].
  destruct e; cbn; rewrite ?IH; reflexivity.
Qed.

Lemma maxStepSizes_app (a b : list Event) :
  maxStepSizes (a ++ b) = (maxStepSizes a ++ maxStepSizes b)%list.
Proof.
  induction a as [|e a IH]; [reflexivity|].
  destruct e; cbn; rewrite ?IH; reflexivity.
Qed.

Lemma timeSteps_stepEvents (steps : list (Q * Q)) :
  timeSteps (stepEvents steps) = map snd steps.
Proof.
  unfold stepEvents. induction steps as [|p r IH]; cbn; [|rewrite IH]; reflexivity.
Qed.

Lemma maxStepSizes_stepEvents (steps : list (Q * Q)) :
  maxStepSizes (stepEvents steps) = map fst steps.
Proof.
  unfold stepEvents. induction steps as [|p r IH]; cbn; [|rewrite IH]; reflexivity.
Qed.

Lemma count_stepEvents (p : Event -> bool) (steps : list (Q * Q)) :
  (forall m dt, p (RunSimulationStep m dt) = false) -> count p (stepEvents steps) = 0%nat.
Proof.
  intros Hp. unfold count, stepEvents.
  induction steps as [|q r IH]; cbn; [reflexivity|].
  rewrite Hp. exact IH.
Qed.

Lemma count_isStep_stepEvents (steps : list (Q * Q)) :
  count isStep (stepEvents steps) = List.length steps.
Proof.
  unfold count, stepEvents.
  induction steps as [|q r IH]; cbn; [|rewrite IH]; reflexivity.
Qed.

(** The update block, unfolded. *)
Lemma display_update (fr : Frame) (s : Sandbox) (d : DataItem WaterTable) :
  hasWaterTable s = true ->
  Qeq_bool (waterTableTime d) (applicationTime fr) = false ->
  let request := gridRequest s in
  let w1 := updateBathymetry (waterTable d) in
  let loop := steppingLoop (Z.to_nat (waterMaxSteps s)) (frameTime fr * waterSpeed s)
                (updatePropertyGrid w1) in
  display fr s d =
  (mkSandbox (hasWaterTable s) (fst (getRequest request)) (waterSpeed s) (waterMaxSteps s),
   mkDataItem (applicationTime fr) (fst loop),
   ([GetRequest request; UpdateBathymetry]
      ++ readBack request (bathymetryBuffer request)
           (ReadBathymetryTexture (bathymetryBuffer request) (readBathymetryTexture w1))
      ++ [UpdatePropertyGrid] ++ stepEvents (snd loop)
      ++ readBack request (waterLevelBuffer request)
           (ReadQuantityTexture (waterLevelBuffer request) (readQuantityTexture (fst loop)))
      ++ readBack request (snowHeightBuffer request)
           (ReadSnowTexture (snowHeightBuffer request) (readSnowTexture (fst loop)))
      ++ (if isActive request then [Complete request] else [])
      ++ [MarkUpToDate (applicationTime fr)])%list).
Proof.
  intros Hw Ht. cbv zeta. unfold display. rewrite Hw, Ht. cbn [andb negb getRequest].
  destruct (steppingLoop _ _ _) as [w3 steps]. reflexivity.
Qed.

Lemma display_idle (fr : Frame) (s : Sandbox) (d : DataItem WaterTable) :
  hasWaterTable s && negb (Qeq_bool (waterTableTime d) (applicationTime fr)) = false ->
  display fr s d = (s, d, []).
Proof. intros H. unfold display. rewrite H. reflexivity. Qed.

Lemma count_readBack (p : Event -> bool) (r : Request) (b : Z) (e : Event) :
  count p (readBack r b e)
  = if isActive r && negb (b =? 0)%Z && p e then 1%nat else 0%nat.
Proof.
  unfold readBack, count. destruct (isActive r && negb (b =? 0)%Z); cbn; [|reflexivity].
  destruct (p e); reflexivity.
Qed.

Lemma In_readBack (r : Request) (b : Z) (e : Event) :
  isActive r = true -> b <> 0%Z -> In e (readBack r b e).
Proof.
  intros Ha Hb. unfold readBack. rewrite Ha. apply Z.eqb_neq in Hb. rewrite Hb.
  left. reflexivity.
Qed.

Lemma after_skip (p : Event -> bool) (a b : list Event) :
  count p a = 0%nat -> after p (a ++ b) = after p b.
Proof.
  unfold count. induction a as [|e a IH]; cbn; [reflexivity|].
  destruct (p e); cbn; [discriminate | exact IH].
Qed.

Lemma count_cons (p : Event -> bool) (e : Event) (l : list Event) :
  count p (e :: l) = ((if p e then 1 else 0) + count p l)%nat.
Proof. unfold count. cbn. destruct (p e); reflexivity. Qed.

Lemma count_nil (p : Event -> bool) : count p [] = 0%nat.
Proof. reflexivity. Qed.

Ltac countTrace :=
  repeat first
    [ rewrite count_app
    | rewrite count_cons
    | rewrite count_nil
    | rewrite count_readBack
    | rewrite count_isStep_stepEvents
    | rewrite count_stepEvents by reflexivity ];
  cbn [isGetRequest isStep isComplete isReadBack isMark andb];
  rewrite ?andb_false_r, ?andb_true_r.

(** C1 (amended): a display call that updates the water simulation
    takes the pending grid request exactly once, as its first action,
    before the bathymetry update and the stepping loop, and leaves the
    slot inactive.  If the request taken is active, the bathymetry
    buffer (if not null) is filled before the loop from the updated
    bathymetry, the water level and snow height buffers (if not null)
    are filled after the loop from the water table the loop left, and
    the callback is invoked exactly once, after the loop and all
    read-backs and immediately before the time stamp is set.  If it is
    not active, nothing is read back and no callback is invoked. *)
Theorem request_taken_before_the_loop
    (fr : Frame) (s : Sandbox) (d : DataItem WaterTable) :
  hasWaterTable s = true ->
  Qeq_bool (waterTableTime d) (applicationTime fr) = false ->
  let request := gridRequest s in
  let s' := fst (fst (display fr s d)) in
  let d' := snd (fst (display fr s d)) in
  let events := snd (display fr s d) in
  exists pre steps post,
    events = (GetRequest request :: pre ++ stepEvents steps ++ post)%list
    /\ count isGetRequest (pre ++ stepEvents steps ++ post) = 0%nat
    /\ isActive (gridRequest s') = false
    /\ count isStep pre = 0%nat /\ count isStep post = 0%nat
    /\ count isComplete (pre ++ stepEvents steps) = 0%nat
    /\ count isComplete post = (if isActive request then 1%nat else 0%nat)
    /\ (isActive request = true ->
        after isComplete post = [MarkUpToDate (applicationTime fr)]
        /\ In (Complete request) post
        /\ (bathymetryBuffer request <> 0%Z ->
            In (ReadBathymetryTexture (bathymetryBuffer request)
                  (readBathymetryTexture (updateBathymetry (waterTable d)))) pre)
        /\ (waterLevelBuffer request <> 0%Z ->
            In (ReadQuantityTexture (waterLevelBuffer request)
                  (readQuantityTexture (waterTable d'))) post)
        /\ (snowHeightBuffer request <> 0%Z ->
            In (ReadSnowTexture (snowHeightBuffer request)
                  (readSnowTexture (waterTable d'))) post))
    /\ (isActive request = false -> count isReadBack events = 0%nat).
Proof.
  intros Hw Ht. cbv zeta. rewrite (display_update fr s d Hw Ht). cbv zeta. cbn [fst snd].
  set (request := gridRequest s).
  set (w1 := updateBathymetry (waterTable d)).
  set (loop := steppingLoop _ _ _).
  exists (UpdateBathymetry
            :: readBack request (bathymetryBuffer request)
                 (ReadBathymetryTexture (bathymetryBuffer request) (readBathymetryTexture w1))
            ++ [UpdatePropertyGrid])%list.
  exists (snd loop).
  exists (readBack request (waterLevelBuffer request)
            (ReadQuantityTexture (waterLevelBuffer request) (readQuantityTexture (fst loop)))
          ++ readBack request (snowHeightBuffer request)
               (ReadSnowTexture (snowHeightBuffer request) (readSnowTexture (fst loop)))
          ++ (if isActive request then [Complete request] else [])
          ++ [MarkUpToDate (applicationTime fr)])%list.
  split; [cbn [app]; rewrite <- !app_assoc; reflexivity|].
  split; [countTrace; destruct (isActive request); reflexivity|].
  split; [reflexivity|].
  split; [countTrace; reflexivity|].
  split; [countTrace; destruct (isActive request); reflexivity|].
  split; [countTrace; reflexivity|].
  split; [countTrace; destruct (isActive request); reflexivity|].
  split.
  - intros Ha. rewrite Ha. repeat split.
    + rewrite !after_skip by (rewrite count_readBack, andb_false_r; reflexivity).
      reflexivity.
    + apply in_or_app. right. apply in_or_app. right. left. reflexivity.
    + intros Hb. right. apply in_or_app. left. apply In_readBack; assumption.
    + intros Hb. apply in_or_app. left. apply In_readBack; assumption.
    + intros Hb. apply in_or_app. right. apply in_or_app. left.
      apply In_readBack; assumption.
  - intros Ha. countTrace. rewrite Ha. reflexivity.
Qed.

(** The simulation steps of a [display] call are those of its stepping
    loop. *)
Lemma display_steps (fr : Frame) (s : Sandbox) (d : DataItem WaterTable) :
  let events := snd (display fr s d) in
  let loop := steppingLoop (Z.to_nat (waterMaxSteps s)) (frameTime fr * waterSpeed s)
                (updatePropertyGrid (updateBathymetry (waterTable d))) in
  events = [] /\ snd (fst (display fr s d)) = d
  \/ (timeSteps events = map snd (snd loop)
      /\ maxStepSizes events = map fst (snd loop)
      /\ count isStep events = List.length (snd loop)
      /\ waterTable (snd (fst (display fr s d))) = fst loop).
Proof.
  cbv zeta.
  destruct (hasWaterTable s && negb (Qeq_bool (waterTableTime d) (applicationTime fr)))
    eqn:G.
  - right. apply andb_true_iff in G. destruct G as [Hw Ht].
    apply negb_true_iff in Ht.
    rewrite (display_update fr s d Hw Ht). cbv zeta. cbn [fst snd waterTable].
    repeat split.
    + rewrite !timeSteps_app, timeSteps_stepEvents. unfold readBack.
      repeat match goal with |- context [if ?c then _ else _] => destruct c end;
        cbn; rewrite app_nil_r; reflexivity.
    + rewrite !maxStepSizes_app, maxStepSizes_stepEvents. unfold readBack.
      repeat match goal with |- context [if ?c then _ else _] => destruct c end;
        cbn; rewrite app_nil_r; reflexivity.
    + countTrace. destruct (isActive (gridRequest s)); cbn; lia.
  - left. rewrite (display_idle fr s d G). split; reflexivity.
Qed.

(** C2 (amended): in every display call the stepping loop starts from
    the budget [frameTime * waterSpeed], hands each step what is left of
    it as maximum step size, and runs at most [waterMaxSteps] steps.
    If the budget is not negative and no simulation step returns more
    than the maximum step size it was given, the time steps sum to at
    most the budget.  A budget of at most epsilon, a negative one
    included, runs no step. *)
Theorem stepping_loop_within_budget
    (fr : Frame) (s : Sandbox) (d : DataItem WaterTable) :
  let events := snd (display fr s d) in
  let budget := frameTime fr * waterSpeed s in
  (count isStep events <= Z.to_nat (waterMaxSteps s))%nat
  /\ maxStepSizes events = remainingBudgets budget (timeSteps events)
  /\ (0 <= budget ->
      (forall force m w, snd (runSimulationStep force m w) <= m) ->
      Qsum (timeSteps events) <= budget)
  /\ (budget <= epsilon -> timeSteps events = []).
Proof.
  cbv zeta.
  destruct (display_steps fr s d) as [[E _] | (Ht & Hm & Hc & _)]; cbv zeta in *.
  - rewrite E. cbn. repeat split; try lia. intros H _. exact H.
  - rewrite Ht, Hm, Hc. repeat split.
    + apply steppingLoop_length.
    + apply steppingLoop_budgets.
    + intros H0 Hstep. apply steppingLoop_sum; assumption.
    + intros Hidle. rewrite steppingLoop_idle by exact Hidle. reflexivity.
Qed.

(** C4 (amended): in a display call whose budget is at most epsilon
    the stepping loop runs no simulation step and returns the water
    table it was given, so no registered contribution is invoked; the
    water table of the context is either untouched (no update block) or
    is what the bathymetry update and the property grid update, which
    precede the loop, made of it. *)
Theorem no_step_within_epsilon
    (fr : Frame) (s : Sandbox) (d : DataItem WaterTable) (numRegistered : nat) :
  frameTime fr * waterSpeed s <= epsilon ->
  let d' := snd (fst (display fr s d)) in
  let events := snd (display fr s d) in
  count isStep events = 0%nat
  /\ contributionCalls numRegistered events = 0%nat
  /\ (forall n w, steppingLoop n (frameTime fr * waterSpeed s) w = (w, []))
  /\ (waterTable d' = waterTable d
      \/ waterTable d' = updatePropertyGrid (updateBathymetry (waterTable d))).
Proof.
  intros Hidle. cbv zeta. unfold contributionCalls.
  destruct (display_steps fr s d) as [[E Hd] | (_ & _ & Hc & Hw)]; cbv zeta in *.
  - rewrite E, Hd. cbn. repeat split; try lia.
    + intros n w. apply steppingLoop_idle; exact Hidle.
    + left; reflexivity.
  - rewrite Hc, Hw, steppingLoop_idle by exact Hidle. cbn. repeat split; try lia.
    + intros n w. apply steppingLoop_idle; exact Hidle.
    + right; reflexivity.
Qed.

Lemma Qeq_bool_refl (x : Q) : Qeq_bool x x = true.
Proof. apply Qeq_bool_iff. reflexivity. Qed.

(** A [display] call that runs the update block ends with the mark; one
    that does not has no event at all. *)
Lemma display_marks (fr : Frame) (s : Sandbox) (d : DataItem WaterTable) :
  let guard := hasWaterTable s
               && negb (Qeq_bool (waterTableTime d) (applicationTime fr)) in
  hasWaterTable (fst (fst (display fr s d))) = hasWaterTable s
  /\ (guard = false -> display fr s d = (s, d, []))
  /\ (guard = true ->
      count isMark (snd (display fr s d)) = 1%nat
      /\ waterTableTime (snd (fst (display fr s d))) = applicationTime fr).
Proof.
  cbv zeta. repeat split.
  - unfold display. destruct (_ && _); [|reflexivity].
    destruct (steppingLoop _ _ _). reflexivity.
  - apply display_idle.
  - apply andb_true_iff in H. destruct H as [Hw Ht]. apply negb_true_iff in Ht.
    rewrite (display_update fr s d Hw Ht). cbv zeta. cbn [snd].
    countTrace. destruct (isActive (gridRequest s)); reflexivity.
  - apply andb_true_iff in H. destruct H as [Hw Ht]. apply negb_true_iff in Ht.
    rewrite (display_update fr s d Hw Ht). reflexivity.
Qed.

(** After a call in context [c], context [c] is settled. *)
Lemma displayIn_settles (fr : Frame) (c : nat) (w : World WaterTable) :
  settled fr c (fst (displayIn fr c w)).
Proof.
  unfold settled, displayIn.
  destruct (display_marks fr (sandbox w) (contextData w c)) as (Hh & Hidle & Hrun).
  cbv zeta in *.
  destruct (hasWaterTable (sandbox w)
            && negb (Qeq_bool (waterTableTime (contextData w c)) (applicationTime fr)))
    eqn:G.
  - destruct (Hrun eq_refl) as [_ Ht].
    destruct (display fr (sandbox w) (contextData w c)) as [[s' d'] events].
    cbn in *. right. unfold setContext. rewrite Nat.eqb_refl, Ht. apply Qeq_bool_refl.
  - rewrite (Hidle eq_refl). cbn. unfold setContext. rewrite Nat.eqb_refl.
    apply andb_false_iff in G. destruct G as [G | G]; [left; exact G|].
    right. apply negb_false_iff in G. exact G.
Qed.

(** A settled context stays settled through the calls of the frame, and
    a call in a settled context does nothing. *)
Lemma settled_displayIn (fr : Frame) (c c' : nat) (w : World WaterTable) :
  settled fr c w ->
  settled fr c (fst (displayIn fr c' w))
  /\ (c' = c ->
      snd (displayIn fr c' w) = []
      /\ sandbox (fst (displayIn fr c' w)) = sandbox w
      /\ forall k, contextData (fst (displayIn fr c' w)) k = contextData w k).
Proof.
  intros Hs. split.
  - destruct (Nat.eq_dec c' c) as [-> | Hne]; [apply displayIn_settles|].
    unfold settled, displayIn in *.
    destruct (display_marks fr (sandbox w) (contextData w c')) as (Hh & _ & _).
    destruct (display fr (sandbox w) (contextData w c')) as [[s' d'] events].
    cbn in *. rewrite Hh. unfold setContext.
    destruct (c =? c')%nat eqn:E; [apply Nat.eqb_eq in E; congruence|]. exact Hs.
  - intros ->. unfold displayIn.
    destruct (display_marks fr (sandbox w) (contextData w c)) as (_ & Hidle & _).
    rewrite Hidle.
    + cbn. repeat split. intros k. unfold setContext.
      destruct (k =? c)%nat eqn:E; [apply Nat.eqb_eq in E; subst|]; reflexivity.
    + destruct Hs as [Hs | Hs]; rewrite Hs; [reflexivity|].
      cbn. apply andb_false_r.
Qed.

(** Once context [c] is settled, the rest of the frame has no update in
    it and every call in it is empty. *)
Lemma settled_displayAll (fr : Frame) (c : nat) (contexts : list nat) :
  forall w : World WaterTable,
    settled fr c w ->
    updatesOf c (snd (displayAll fr contexts w)) = 0%nat
    /\ forall ev, In (c, ev) (snd (displayAll fr contexts w)) -> ev = [].
Proof.
  induction contexts as [|c' rest IH]; intros w Hs; cbn [displayAll].
  - split; [reflexivity | intros ev []].
  - destruct (settled_displayIn fr c c' w Hs) as [Hs' Hnoop].
    destruct (displayIn fr c' w) as [w' events]. cbn [fst snd] in *.
    destruct (IH w' Hs') as [IH1 IH2].
    destruct (displayAll fr rest w') as [w'' trace]. cbn [snd] in *.
    split.
    + unfold updatesOf in *. cbn [filter fst snd].
      destruct (c' =? c)%nat eqn:E; cbn [andb]; [|exact IH1].
      apply Nat.eqb_eq in E. destruct (Hnoop E) as [-> _]. cbn. exact IH1.
    + intros ev [Hin | Hin]; [|apply IH2; exact Hin].
      injection Hin as -> <-. destruct (Hnoop eq_refl) as [He _]. exact He.
Qed.

(** The trace of a frame has one entry per call, in call order. *)
Lemma displayAll_contexts (fr : Frame) (contexts : list nat) :
  forall w : World WaterTable, map fst (snd (displayAll fr contexts w)) = contexts.
Proof.
  induction contexts as [|c rest IH]; intros w; cbn [displayAll]; [reflexivity|].
  destruct (displayIn fr c w) as [w' events]. specialize (IH w').
  destruct (displayAll fr rest w') as [w'' trace]. cbn in *. rewrite IH. reflexivity.
Qed.

(** In a trace whose calls all ran in context [c], the updates are those
    of [c]. *)
Lemma updates_single_context (c : nat) (trace : list (nat * list Event)) :
  Forall (eq c) (map fst trace) -> updates trace = updatesOf c trace.
Proof.
  unfold updates, updatesOf.
  induction trace as [|p trace IH]; cbn [map filter]; intros H; [reflexivity|].
  apply Forall_cons_iff in H. destruct H as [Hp Hrest].
  rewrite <- Hp, Nat.eqb_refl. cbn [andb].
  destruct (0 <? count isMark (snd p))%nat; cbn [List.length]; rewrite (IH Hrest);
    reflexivity.
Qed.

(** C9 (amended): in one application frame, whatever the sequence of display
    calls and the contexts they run in, every OpenGL context runs the
    update block (bathymetry update, stepping loop, request servicing)
    at most once; every call in a context after the first call in that
    context has no event; a second call in the same context leaves the
    sandbox and every data item as they were; and when all calls of the
    frame run in one context, as for windows that share it, the frame
    has at most one update in all. *)
Theorem simulation_advanced_once_per_context
    (fr : Frame) (contexts : list nat) (w : World WaterTable) (c : nat) :
  let trace := snd (displayAll fr contexts w) in
  (updatesOf c trace <= 1)%nat
  /\ (Forall (eq c) contexts -> (updates trace <= 1)%nat)
  /\ (forall pre ev post,
        trace = (pre ++ (c, ev) :: post)%list ->
        forall ev', In (c, ev') post -> ev' = [])
  /\ (let w1 := fst (displayIn fr c w) in
      snd (displayIn fr c w1) = []
      /\ sandbox (fst (displayIn fr c w1)) = sandbox w1
      /\ forall k, contextData (fst (displayIn fr c w1)) k = contextData w1 k).
Proof.
  cbv zeta.
  assert (Hone : (updatesOf c (snd (displayAll fr contexts w)) <= 1)%nat).
  { revert w. induction contexts as [|c' rest IH]; intros w; cbn [displayAll].
    - cbn. lia.
    - pose proof (displayIn_settles fr c' w) as Hs.
      destruct (displayIn fr c' w) as [w' events]. cbn [fst] in Hs.
      specialize (IH w').
      pose proof (settled_displayAll fr c' rest w' Hs) as [H0 _].
      destruct (displayAll fr rest w') as [w'' trace]. cbn [snd] in *.
      unfold updatesOf in *. cbn [filter fst snd].
      destruct (c' =? c)%nat eqn:E; cbn [andb]; [|exact IH].
      apply Nat.eqb_eq in E. subst c'.
      destruct (0 <? count isMark events)%nat; cbn [List.length]; lia. }
  split; [exact Hone|]. split; [|split].
  - intros Hall. rewrite (updates_single_context c); [exact Hone|].
    rewrite displayAll_contexts. exact Hall.
  - clear Hone. revert w.
    induction contexts as [|c' rest IH]; intros w pre ev post; cbn [displayAll].
    + intros H. destruct pre; discriminate H.
    + pose proof (displayIn_settles fr c' w) as Hs.
      destruct (displayIn fr c' w) as [w' events]. cbn [fst] in Hs.
      specialize (IH w').
      pose proof (settled_displayAll fr c' rest w' Hs) as [_ H0].
      destruct (displayAll fr rest w') as [w'' trace]. cbn [snd] in *.
      intros H ev' Hin. destruct pre as [|p pre].
      * cbn in H. injection H as -> -> ->. apply H0. exact Hin.
      * cbn in H. injection H as _ ->. apply (IH pre ev post eq_refl ev' Hin).
  - destruct (settled_displayIn fr c c (fst (displayIn fr c w))
                (displayIn_settles fr c w)) as [_ H].
    exact (H eq_refl).
Qed.

End Engine.

(** The modelled water table never steps further than the maximum step
    size it was given. *)
Lemma waterTableModel_within_max
    (force : bool) (m : Q) (w : WaterTableModel.WaterTable) :
  snd (runSimulationStep force m w) <= m.
Proof.
  cbn. unfold WaterTableModel.stepSize. destruct force; [apply Qle_refl|].
  apply Q.le_min_l.
Qed.

Lemma request_taken_before_the_loop_witness :
  exists pre steps post,
    snd (display Examples.frame (Examples.displaySandbox 1) Examples.dataItem)
    = (GetRequest Examples.request :: pre ++ stepEvents steps ++ post)%list
    /\ count isComplete post = 1%nat.
Proof.
  destruct (request_taken_before_the_loop
              Examples.frame (Examples.displaySandbox 1) Examples.dataItem)
    as (pre & steps & post & H1 & _ & _ & _ & _ & _ & H2 & _).
  - reflexivity.
  - reflexivity.
  - exists pre, steps, post. split; [exact H1 | exact H2].
Defined.

(** C1, as stated, fails on when the request is taken: the request is
    the first event of the update block and all four simulation steps of
    this cycle come after it. *)
Lemma request_taken_before_first_step :
  let events :=
    snd (display Examples.frame (Examples.displaySandbox 1) Examples.dataItem) in
  hd_error events = Some (GetRequest Examples.request)
  /\ count isStep (before isGetRequest events) = 0%nat
  /\ count isStep (after isGetRequest events) = 4%nat
  /\ count isStep (after isGetRequest events) <> 0%nat.
Proof. vm_compute. repeat split. discriminate. Qed.

Lemma stepping_loop_within_budget_witness :
  Qsum (timeSteps
          (snd (display Examples.frame (Examples.displaySandbox 1) Examples.dataItem)))
  <= 1 # 30.
Proof.
  destruct (stepping_loop_within_budget
              Examples.frame (Examples.displaySandbox 1) Examples.dataItem)
    as (_ & _ & H & _).
  apply H.
  - vm_compute. discriminate.
  - exact waterTableModel_within_max.
Defined.

(** C2, as stated, fails for a negative speed: the line [waterSpeed -1]
    stores -1, the budget of the next cycle is -1/30, no step runs, and
    the sum of the time steps, zero, is above the budget. *)
Lemma negative_budget_below_sum :
  let speed :=
    Examples.waterSpeedAfter ("waterSpeed -1" ++ Examples.newline) Examples.sandbox in
  let events :=
    snd (display Examples.frame (Examples.displaySandbox speed) Examples.dataItem) in
  speed = (-1)%Q
  /\ timeSteps events = []
  /\ ~ (Qsum (timeSteps events) <= frameTime Examples.frame * speed).
Proof.
  vm_compute. repeat split. intros H. apply H. reflexivity.
Qed.

Lemma no_step_within_epsilon_witness :
  count isStep
    (snd (display Examples.frame (Examples.displaySandbox 0) Examples.dataItem))
  = 0%nat.
Proof.
  destruct (no_step_within_epsilon
              Examples.frame (Examples.displaySandbox 0) Examples.dataItem 1)
    as (H & _).
  - vm_compute. discriminate.
  - exact H.
Defined.

(** C4, as stated, fails for the bathymetry grid: in a cycle with a
    budget of zero no step runs, yet the update block copies the newer
    stabilized frame into the bathymetry grid before the loop. *)
Lemma idle_cycle_updates_bathymetry :
  let d' :=
    snd (fst (display Examples.frame (Examples.displaySandbox 0) Examples.dataItem)) in
  frameTime Examples.frame * waterSpeed (Examples.displaySandbox 0) <= epsilon
  /\ readBathymetryTexture (waterTable Examples.dataItem) = [0; 0]
  /\ readBathymetryTexture (waterTable d') = [3; 4]
  /\ readBathymetryTexture (waterTable d')
     <> readBathymetryTexture (waterTable Examples.dataItem).
Proof.
  cbv zeta. split; [vm_compute; discriminate|].
  split; [reflexivity|]. split; [reflexivity|]. vm_compute. discriminate.
Qed.

Lemma simulation_advanced_once_per_context_witness :
  (updates (snd (displayAll Examples.frame [0; 0; 0]%nat Examples.world)) <= 1)%nat
  /\ (updatesOf 1 (snd (displayAll Examples.frame [0; 1; 0; 1]%nat Examples.world))
      <= 1)%nat.
Proof.
  split.
  - destruct (simulation_advanced_once_per_context
                Examples.frame [0; 0; 0]%nat Examples.world 0%nat) as (_ & H & _).
    apply H. repeat constructor.
  - destruct (simulation_advanced_once_per_context
                Examples.frame [0; 1; 0; 1]%nat Examples.world 1%nat) as (H & _).
    exact H.
Defined.

(** C9, as stated, fails for windows with separate OpenGL contexts: in
    one application frame a display call in context 0 followed by one
    in context 1 runs the update block twice.  The second call is not
    without effect on the simulation: it takes the request slot and
    runs four simulation steps on the water table state of its own
    context. *)
Lemma second_context_updates_again :
  let trace := snd (displayAll Examples.frame [0; 1]%nat Examples.world) in
  updates trace = 2%nat
  /\ map (fun p => (fst p, count isGetRequest (snd p), count isStep (snd p))) trace
     = [(0, 1, 4); (1, 1, 4)]%nat.
Proof. cbv zeta. split; vm_compute; reflexivity. Qed.

(** Two contexts in one frame: each runs the update block once, and the
    second call in each does nothing. *)
Lemma two_contexts_one_update_each :
  map (fun p => (fst p, count isMark (snd p)))
      (snd (displayAll Examples.frame [0; 1; 0; 1]%nat Examples.world))
  = [(0, 1); (1, 1); (0, 0); (1, 0)]%nat.
Proof. vm_compute. reflexivity. Qed.

End DisplayFacts.

(** ** The hysteresis filter *)

Module FrameFilterFacts.

Import FrameFilter.
Local Open Scope Q_scope.

Lemma publish_inside (hysteresis previous candidate : Q) :
  Qabs (candidate - previous) <= halfWidth hysteresis ->
  publish hysteresis previous candidate = previous.
Proof.
  intros H. unfold publish, Qltb.
  apply Qle_bool_iff in H. rewrite H. reflexivity.
Qed.

Lemma publish_outside (hysteresis previous candidate : Q) :
  halfWidth hysteresis < Qabs (candidate - previous) ->
  publish hysteresis previous candidate = candidate.
Proof.
  intros H. unfold publish, Qltb.
  destruct (Qle_bool (Qabs (candidate - previous)) (halfWidth hysteresis)) eqn:E;
    [|reflexivity].
  apply Qle_bool_iff in E. exfalso. apply (Qlt_not_le _ _ H E).
Qed.

(** C8: if every candidate value of a run of sensor frames stays within
    half the width of the hysteresis envelope of the value the cell had
    published before the run, the cell's published value is that value
    after every frame of the run. *)
Theorem hysteresis_keeps_published_value
    (hysteresis published : Q) (candidates : list (option Q)) :
  Forall (fun c => match c with
                   | Some v => Qabs (v - published) <= halfWidth hysteresis
                   | None => True
                   end) candidates ->
  Forall (fun p => p = published) (publishedValues hysteresis published candidates).
Proof.
  induction 1 as [|c rest Hc Hrest IH]; cbn [publishedValues]; [constructor|].
  assert (E : stabilize hysteresis published c = published).
  { destruct c as [v|]; [apply publish_inside; exact Hc | reflexivity]. }
  rewrite E. constructor; [reflexivity | exact IH].
Qed.

Lemma hysteresis_keeps_published_value_witness :
  Forall (fun p => p = 50)
    (publishedValues (1 # 10) 50 [Some (5005 # 100); Some (4995 # 100); None; Some 50]).
Proof.
  apply (hysteresis_keeps_published_value (1 # 10) 50
           [Some (5005 # 100); Some (4995 # 100); None; Some 50]).
  repeat constructor; vm_compute; discriminate.
Defined.

End FrameFilterFacts.

(** ** Lines and tokens *)

Module LinesFacts.

Import Tokenizer Lines TokenizerFacts.
Local Open Scope string_scope.

Lemma append_assoc (a b c : string) : (a ++ b) ++ c = a ++ b ++ c.
Proof. induction a as [|x a IH]; cbn; [reflexivity | rewrite IH; reflexivity]. Qed.

Lemma append_empty_r (a : string) : a ++ EmptyString = a.
Proof. induction a as [|x a IH]; cbn; [reflexivity | rewrite IH; reflexivity]. Qed.

Lemma length_append (a b : string) :
  String.length (a ++ b) = (String.length a + String.length b)%nat.
Proof. induction a as [|x a IH]; cbn; [reflexivity | rewrite IH; reflexivity]. Qed.

Lemma isNewline_isspace (c : ascii) : isNewline c = true -> isspace c = true.
Proof.
  unfold isNewline, isspace. intros H. apply Nat.eqb_eq in H. rewrite H. reflexivity.
Qed.

(** The whitespace skip never crosses the newline that ends the line. *)
Lemma skipWhitespace_line (line rest : string) :
  noNewline line = true ->
  skipWhitespace (line ++ newline ++ rest) = skipWhitespace line ++ newline ++ rest.
Proof.
  induction line as [|c r IH]; intros Hn; [reflexivity|].
  cbn in Hn. apply andb_true_iff in Hn. destruct Hn as [Hc Hr].
  cbn. rewrite Hc. cbn. destruct (isspace c); [apply IH; exact Hr | reflexivity].
Qed.

Lemma skipWhitespace_noNewline (line : string) :
  noNewline line = true -> noNewline (skipWhitespace line) = true.
Proof.
  induction line as [|c r IH]; intros Hn; [reflexivity|].
  pose proof Hn as Hn'. cbn in Hn. apply andb_true_iff in Hn. destruct Hn as [Hc Hr].
  cbn. rewrite Hc. cbn. destruct (isspace c); [apply IH; exact Hr | exact Hn'].
Qed.

(** The token scan stops at that newline at the latest. *)
Lemma scanToken_line (line rest : string) :
  scanToken (line ++ newline ++ rest)
  = (fst (scanToken line), snd (scanToken line) ++ newline ++ rest).
Proof.
  induction line as [|c r IH]; [reflexivity|].
  cbn. destruct (isspace c); [reflexivity|].
  cbn in IH. rewrite IH. destruct (scanToken r) as [tok afterTok]. reflexivity.
Qed.

Lemma scanToken_noNewline (line : string) :
  noNewline line = true -> noNewline (snd (scanToken line)) = true.
Proof.
  induction line as [|c r IH]; intros Hn; [reflexivity|].
  pose proof Hn as Hn'. cbn in Hn. apply andb_true_iff in Hn. destruct Hn as [Hc Hr].
  cbn. destruct (isspace c); [exact Hn'|].
  specialize (IH Hr). destruct (scanToken r) as [tok afterTok]. exact IH.
Qed.

(** One round of the extraction loop shortens the text, whatever it
    starts with. *)
Lemma extract_round (c : ascii) (r : string) :
  isNewline c = false ->
  (String.length (skipWhitespace (snd (scanToken (String c r)))) <= String.length r)%nat.
Proof.
  intros Hc. destruct (isspace c) eqn:Es.
  - cbn. rewrite Es. cbn. rewrite Hc, Es. cbn. apply skipWhitespace_length.
  - destruct (scanToken_progress c r Es) as [_ Hp].
    pose proof (skipWhitespace_length (snd (scanToken (String c r)))). lia.
Qed.

(** More fuel than the length of the text changes nothing. *)
Lemma extractTokens_fuel (n : nat) :
  forall (fuel : nat) (b : string),
    (String.length b <= n)%nat -> (n <= fuel)%nat ->
    extractTokens fuel b = extractTokens n b.
Proof.
  induction n as [|n IH]; intros fuel b Hlen Hfuel.
  - destruct b; [|cbn in Hlen; lia]. destruct fuel; reflexivity.
  - destruct b as [|c r]; [destruct fuel; reflexivity|].
    destruct fuel as [|fuel]; [lia|].
    cbn [extractTokens]. destruct (isNewline c) eqn:En; [reflexivity|].
    pose proof (extract_round c r En) as Hp.
    destruct (scanToken (String c r)) as [tok afterTok]. cbn [snd] in Hp.
    cbn [String.length] in Hlen.
    rewrite (IH fuel); [reflexivity | lia | lia].
Qed.

(** The extraction loop on a line that is followed by a newline and
    more text: the tokens are those of the line, and the loop stops at
    the newline. *)
Lemma extractTokens_line (rest : string) (n : nat) :
  forall (line : string),
    (String.length line <= n)%nat -> noNewline line = true ->
    extractTokens n (line ++ newline ++ rest)
    = (fst (extractTokens n line), newline ++ rest)
    /\ snd (extractTokens n line) = EmptyString.
Proof.
  induction n as [|n IH]; intros line Hlen Hn.
  - destruct line; [|cbn in Hlen; lia]. split; reflexivity.
  - destruct line as [|c r]; [split; reflexivity|].
    pose proof Hn as Hn'. cbn in Hn. apply andb_true_iff in Hn. destruct Hn as [Hc Hr].
    apply negb_true_iff in Hc.
    change (String c r ++ newline ++ rest) with (String c (r ++ newline ++ rest)).
    cbn [extractTokens]. rewrite Hc.
    change (String c (r ++ newline ++ rest)) with (String c r ++ newline ++ rest).
    rewrite scanToken_line.
    pose proof (extract_round c r Hc) as Hp.
    pose proof (scanToken_noNewline (String c r) Hn') as Hs.
    destruct (scanToken (String c r)) as [tok afterTok]. cbn [fst snd] in *.
    rewrite skipWhitespace_line by exact Hs.
    cbn [String.length] in Hlen.
    destruct (IH (skipWhitespace afterTok)) as [E1 E2];
      [lia | apply skipWhitespace_noNewline; exact Hs |].
    rewrite E1.
    destruct (extractTokens n (skipWhitespace afterTok)) as [toks b'].
    cbn [fst snd] in *. split; [reflexivity | exact E2].
Qed.

(** X1: [tokenizeLine] is line oriented.  On a line followed by a
    newline and more text it returns the tokens of the line alone and
    leaves the read pointer right behind that newline, whatever the
    text after it; on a last line without newline it reads to the end
    of the text. *)
Theorem tokenizeLine_reads_one_line (line rest : string) :
  noNewline line = true ->
  tokenizeLine (line ++ newline ++ rest) = (fst (tokenizeLine line), rest)
  /\ snd (tokenizeLine line) = EmptyString.
Proof.
  intros Hn. unfold tokenizeLine.
  rewrite skipWhitespace_line by exact Hn.
  pose proof (skipWhitespace_noNewline line Hn) as Hs.
  set (b := skipWhitespace line) in *.
  assert (Hlen : (String.length b <= String.length (b ++ newline ++ rest))%nat)
    by (rewrite length_append; apply Nat.le_add_r).
  destruct (extractTokens_line rest (String.length (b ++ newline ++ rest)) b)
    as [E1 E2]; [exact Hlen | exact Hs |].
  rewrite E1.
  rewrite (extractTokens_fuel (String.length b)) in E2 |- *;
    [| apply Nat.le_refl | exact Hlen | apply Nat.le_refl | exact Hlen].
  destruct (extractTokens (String.length b) b) as [result b']. cbn [fst snd] in *.
  subst b'. split; reflexivity.
Qed.

Lemma scanToken_noSpace (b : string) : noSpace (fst (scanToken b)) = true.
Proof.
  induction b as [|c r IH]; [reflexivity|].
  cbn. destruct (isspace c) eqn:Es; [reflexivity|].
  destruct (scanToken r) as [tok afterTok]. cbn in *. rewrite Es, IH. reflexivity.
Qed.

Lemma scanToken_isWord (c : ascii) (r : string) :
  isspace c = false -> isWord (fst (scanToken (String c r))) = true.
Proof.
  intros Es. pose proof (scanToken_noSpace (String c r)) as Hn.
  cbn in *. rewrite Es in *. destruct (scanToken r) as [tok afterTok]. exact Hn.
Qed.

(** From a text that does not start with a blank, the extraction loop
    extracts words only. *)
Lemma extractTokens_words (fuel : nat) :
  forall (b : string),
    match b with
    | EmptyString => True
    | String c _ => isNewline c = true \/ isspace c = false
    end ->
    Forall (fun t => isWord t = true) (fst (extractTokens fuel b)).
Proof.
  induction fuel as [|fuel IH]; intros b Hstart; [constructor|].
  cbn [extractTokens]. destruct b as [|c r]; [constructor|].
  destruct (isNewline c) eqn:En; [constructor|].
  destruct Hstart as [Hn | Hs]; [congruence|].
  pose proof (scanToken_isWord c r Hs) as Hw.
  destruct (scanToken (String c r)) as [tok afterTok]. cbn [fst] in Hw.
  specialize (IH (skipWhitespace afterTok) (skipWhitespace_stop afterTok)).
  destruct (extractTokens fuel (skipWhitespace afterTok)) as [toks rest].
  cbn [fst] in *. constructor; assumption.
Qed.

(** X2: every token that [tokenizeLine] returns is a word: it is not
    empty and holds no white space, for every text. *)
Theorem tokens_are_words (buffer : string) :
  Forall (fun t => isWord t = true) (fst (tokenizeLine buffer)).
Proof.
  unfold tokenizeLine.
  pose proof (extractTokens_words (String.length (skipWhitespace buffer))
                (skipWhitespace buffer) (skipWhitespace_stop buffer)) as H.
  destruct (extractTokens (String.length (skipWhitespace buffer))
              (skipWhitespace buffer)) as [result b'].
  cbn [fst] in H. destruct b' as [|c r]; [exact H|].
  destruct (isNewline c); exact H.
Qed.

Lemma isWord_start (w : string) :
  isWord w = true -> exists c r, w = String c r /\ isspace c = false /\ noSpace r = true.
Proof.
  destruct w as [|c r]; [discriminate|]. cbn. intros H.
  apply andb_true_iff in H. destruct H as [Hc Hr]. apply negb_true_iff in Hc.
  exists c, r. repeat split; assumption.
Qed.

Lemma scanToken_word (w rest : string) :
  noSpace w = true ->
  match rest with
  | EmptyString => True
  | String c _ => isspace c = true
  end ->
  scanToken (w ++ rest) = (w, rest).
Proof.
  intros Hw Hrest. induction w as [|c r IH].
  - destruct rest as [|d rest']; [reflexivity|]. cbn. rewrite Hrest. reflexivity.
  - cbn in Hw. apply andb_true_iff in Hw. destruct Hw as [Hc Hr].
    apply negb_true_iff in Hc. cbn. rewrite Hc.
    change ((fix append (s1 s2 : string) {struct s1} : string :=
               match s1 with
               | EmptyString => s2
               | String c0 s1' => String c0 (append s1' s2)
               end) r rest) with (r ++ rest).
    rewrite (IH Hr). reflexivity.
Qed.

Lemma joinWords_start (w : string) (ws : list string) :
  isWord w = true ->
  exists c r, joinWords (w :: ws) = String c r /\ isspace c = false.
Proof.
  intros Hw. destruct (isWord_start w Hw) as (c & r & -> & Hc & _).
  destruct ws; cbn; eexists; eexists; split; try reflexivity; exact Hc.
Qed.

Lemma joinWords_cons (w w' : string) (ws : list string) :
  joinWords (w :: w' :: ws) = w ++ space ++ joinWords (w' :: ws).
Proof. reflexivity. Qed.

Lemma extractTokens_joinWords (words : list string) :
  Forall (fun t => isWord t = true) words ->
  forall fuel,
    (String.length (joinWords words) <= fuel)%nat ->
    extractTokens fuel (joinWords words) = (words, EmptyString).
Proof.
  induction 1 as [|w ws Hw Hws IH]; intros fuel Hlen.
  - destruct fuel; reflexivity.
  - destruct (isWord_start w Hw) as (c & r & Ew & Hc & Hr).
    assert (Hnosp : noSpace w = true)
      by (subst w; cbn; rewrite Hc, Hr; reflexivity).
    assert (Hnl : isNewline c = false).
    { destruct (isNewline c) eqn:En; [|reflexivity].
      apply isNewline_isspace in En. congruence. }
    destruct ws as [|w' ws'].
    + change (joinWords [w]) with w in *. subst w.
      destruct fuel as [|fuel]; [cbn in Hlen; lia|].
      cbn [extractTokens]. rewrite Hnl.
      pose proof (scanToken_word (String c r) EmptyString Hnosp I) as Es.
      rewrite append_empty_r in Es. rewrite Es. cbn [skipWhitespace].
      destruct fuel; reflexivity.
    + rewrite joinWords_cons in *.
      destruct fuel as [|fuel]; [subst w; cbn in Hlen; lia|].
      assert (Estart : exists d q, w ++ space ++ joinWords (w' :: ws') = String d q
                                   /\ d = c)
        by (subst w; cbn; eexists; eexists; split; reflexivity).
      destruct Estart as (d & q & Eq & ->).
      rewrite Eq. cbn [extractTokens]. rewrite Hnl. rewrite <- Eq.
      rewrite (scanToken_word w (space ++ joinWords (w' :: ws')) Hnosp)
        by reflexivity.
      inversion Hws as [|? ? Hw' Hws']; subst.
      destruct (joinWords_start w' ws' Hw') as (e & t & Et & He).
      assert (Eskip : skipWhitespace (space ++ joinWords (w' :: ws'))
                      = joinWords (w' :: ws')).
      { rewrite Et. cbn. rewrite He.
        destruct (isNewline e); reflexivity. }
      rewrite Eskip. rewrite IH; [reflexivity|].
      rewrite !length_append in Hlen.
      cbn [String.length] in Hlen. lia.
Qed.

Lemma noSpace_noNewline (w : string) : noSpace w = true -> noNewline w = true.
Proof.
  induction w as [|c r IH]; [reflexivity|]. cbn. intros H.
  apply andb_true_iff in H. destruct H as [Hc Hr]. apply negb_true_iff in Hc.
  rewrite (IH Hr), andb_true_r. apply negb_true_iff.
  destruct (isNewline c) eqn:En; [|reflexivity].
  apply isNewline_isspace in En. congruence.
Qed.

Lemma noNewline_append (a b : string) :
  noNewline a = true -> noNewline b = true -> noNewline (a ++ b) = true.
Proof.
  induction a as [|c r IH]; cbn; intros Ha Hb; [exact Hb|].
  apply andb_true_iff in Ha. destruct Ha as [Hc Hr].
  rewrite Hc, (IH Hr Hb). reflexivity.
Qed.

Lemma joinWords_noNewline (words : list string) :
  Forall (fun t => isWord t = true) words -> noNewline (joinWords words) = true.
Proof.
  induction 1 as [|w ws Hw Hws IH]; [reflexivity|].
  destruct (isWord_start w Hw) as (c & r & Ew & Hc & Hr).
  assert (Hnosp : noSpace w = true)
    by (subst w; cbn; rewrite Hc, Hr; reflexivity).
  destruct ws as [|w' ws']; [|rewrite joinWords_cons].
  - apply noSpace_noNewline. exact Hnosp.
  - apply noNewline_append; [apply noSpace_noNewline; exact Hnosp|].
    apply noNewline_append; [reflexivity | exact IH].
Qed.

(** X3: round trip.  A line written from words, one space between
    neighbours, is read back by [tokenizeLine] as those words, and
    reading stops right behind the newline. *)
Theorem tokenizeLine_joinWords (words : list string) (rest : string) :
  Forall (fun t => isWord t = true) words ->
  tokenizeLine (joinWords words ++ newline ++ rest) = (words, rest).
Proof.
  intros Hw.
  destruct (tokenizeLine_reads_one_line (joinWords words) rest
              (joinWords_noNewline words Hw)) as [E _].
  rewrite E. f_equal.
  unfold tokenizeLine.
  assert (Eskip : skipWhitespace (joinWords words) = joinWords words).
  { destruct Hw as [|w ws Hw Hws]; [reflexivity|].
    destruct (joinWords_start w ws Hw) as (c & r & Ec & Hc).
    rewrite Ec. cbn. rewrite Hc. rewrite andb_false_r. reflexivity. }
  rewrite Eskip.
  rewrite (extractTokens_joinWords words Hw) by apply Nat.le_refl.
  reflexivity.
Qed.

Lemma tokenizeLine_reads_one_line_witness :
  tokenizeLine ("  waterSpeed   2 " ++ newline ++ "rainStrength 1")
  = (["waterSpeed"; "2"], "rainStrength 1").
Proof.
  destruct (tokenizeLine_reads_one_line "  waterSpeed   2 " "rainStrength 1" eq_refl)
    as [H _].
  rewrite H. reflexivity.
Defined.

Lemma tokenizeLine_joinWords_witness :
  tokenizeLine ("waterSpeed 2" ++ newline ++ "rainStrength 1")
  = (["waterSpeed"; "2"], "rainStrength 1").
Proof.
  apply (tokenizeLine_joinWords ["waterSpeed"; "2"] "rainStrength 1").
  repeat constructor.
Defined.

End LinesFacts.

(** ** Runs of the control pipe *)

Module PipeRunsFacts.

Import Tokenizer ControlPipe TokenizerFacts ControlPipeFacts Lines LinesFacts PipeRuns.
Local Open Scope string_scope.

Lemma isNewline_eq (c : ascii) : isNewline c = true -> c = "010"%char.
Proof.
  unfold isNewline. intros H. apply Nat.eqb_eq in H.
  rewrite <- (ascii_nat_embedding c), H. reflexivity.
Qed.

(** A text of complete lines starts with a line. *)
Lemma completeLines_first (a : string) :
  completeLines a = true -> a <> EmptyString ->
  exists line a',
    a = line ++ newline ++ a' /\ noNewline line = true /\ completeLines a' = true.
Proof.
  induction a as [|c r IH]; intros Hc Hne; [contradiction|].
  destruct (isNewline c) eqn:En.
  - exists EmptyString, r. apply isNewline_eq in En. subst c.
    split; [reflexivity|]. split; [reflexivity|].
    destruct r; [reflexivity | exact Hc].
  - destruct r as [|d r']; [cbn in Hc; congruence|].
    destruct IH as (line & a' & E & Hn & Ha); [exact Hc | discriminate |].
    exists (String c line), a'. rewrite E. split; [reflexivity|].
    split; [cbn; rewrite En; exact Hn | exact Ha].
Qed.

Lemma c_str_append (a b : string) : c_str a = a -> c_str (a ++ b) = a ++ c_str b.
Proof.
  induction a as [|c r IH]; cbn; intros H; [reflexivity|].
  destruct (nat_of_ascii c =? 0)%nat; [discriminate|].
  injection H as H. rewrite (IH H). reflexivity.
Qed.

Lemma c_str_prefix (a b : string) :
  c_str (a ++ b) = c_str a \/ (c_str a = a /\ c_str (a ++ b) = a ++ c_str b).
Proof.
  induction a as [|c r IH]; cbn; [right; split; reflexivity|].
  destruct (nat_of_ascii c =? 0)%nat; [left; reflexivity|].
  destruct IH as [E | [E1 E2]]; [left; rewrite E; reflexivity|].
  right. rewrite E1, E2. split; reflexivity.
Qed.

Lemma c_str_noNewline (a : string) : noNewline a = true -> noNewline (c_str a) = true.
Proof.
  induction a as [|c r IH]; cbn; intros H; [reflexivity|].
  apply andb_true_iff in H. destruct H as [Hc Hr].
  destruct (nat_of_ascii c =? 0)%nat; [reflexivity|].
  cbn. rewrite Hc, (IH Hr). reflexivity.
Qed.

Section Commands.

Variable atof : string -> Q.
Variable atoi : string -> Z.
Variable showFloat : Q -> string.
Variable colorMapLoad : string -> option string.

Let execCommand := execCommand atof atoi showFloat colorMapLoad.
Let commandLoop := commandLoop atof atoi showFloat colorMapLoad.
Let controlPipe := controlPipe atof atoi showFloat colorMapLoad.

(** One iteration of the command loop, from any text that is not
    finished. *)
Lemma commandLoop_step (cPtr : string) (s : Sandbox) :
  cPtr <> EmptyString ->
  commandLoop cPtr s =
  match fst (tokenizeLine cPtr) with
  | [] => commandLoop (snd (tokenizeLine cPtr)) s
  | tokens => andThen (Some (execCommand tokens s))
                      (commandLoop (snd (tokenizeLine cPtr)))
  end.
Proof.
  intros Hne. destruct cPtr as [|c r]; [contradiction|].
  unfold commandLoop. rewrite commandLoop_unfold.
  destruct (fst (tokenizeLine (String c r))); [reflexivity|].
  unfold andThen, execCommand.
  destruct (ControlPipe.execCommand atof atoi showFloat colorMapLoad (s0 :: l) s);
    reflexivity.
Qed.

(** The command loop over complete lines followed by more text. *)
Lemma commandLoop_append (n : nat) :
  forall (a b : string) (s : Sandbox),
    (String.length a <= n)%nat -> completeLines a = true ->
    commandLoop (a ++ b) s = andThen (commandLoop a s) (commandLoop b).
Proof.
  induction n as [|n IH]; intros a b s Hlen Hc.
  - destruct a; [|cbn in Hlen; lia]. reflexivity.
  - destruct a as [|c r] eqn:Ea; [reflexivity|]. rewrite <- Ea in *.
    destruct (completeLines_first a Hc) as (line & a' & E & Hn & Ha);
      [rewrite Ea; discriminate|].
    assert (Hlen' : (String.length a' <= n)%nat).
    { rewrite E in Hlen. rewrite !length_append in Hlen. cbn in Hlen. lia. }
    destruct (tokenizeLine_reads_one_line line a' Hn) as [T1 _].
    destruct (tokenizeLine_reads_one_line line (a' ++ b) Hn) as [T2 _].
    assert (Eab : a ++ b = line ++ newline ++ a' ++ b)
      by (rewrite E, !append_assoc; reflexivity).
    rewrite (commandLoop_step (a ++ b)) by (rewrite Ea; discriminate).
    rewrite (commandLoop_step a) by (rewrite Ea; discriminate).
    rewrite Eab, T2. rewrite E, T1. cbn [fst snd].
    destruct (fst (tokenizeLine line)) as [|t ts].
    + apply IH; assumption.
    + destruct (execCommand (t :: ts) s); cbn [andThen]; [|reflexivity|reflexivity].
      apply IH; assumption.
Qed.

(** X4: reads that end at a line boundary can be merged or split
    freely.  Running the control pipe block on complete lines followed
    by more text is running it on the complete lines and then, if that
    ended normally, on the rest. *)
Theorem complete_lines_compose (a b : string) (s : Sandbox) :
  c_str a = a -> completeLines a = true ->
  controlPipe (a ++ b) s = andThen (controlPipe a s) (controlPipe b).
Proof.
  intros Hnul Hc. unfold controlPipe, ControlPipe.controlPipe.
  rewrite (c_str_append a b Hnul), Hnul.
  apply (commandLoop_append (String.length a)); [apply Nat.le_refl | exact Hc].
Qed.

(** X5: the newline behind the last line of a read is optional: the
    line is run as a command either way, with the same outcome. *)
Theorem final_newline_is_optional (line : string) (s : Sandbox) :
  noNewline line = true ->
  controlPipe (line ++ newline) s = controlPipe line s.
Proof.
  intros Hn. unfold controlPipe, ControlPipe.controlPipe.
  destruct (c_str_prefix line newline) as [E | [E1 E2]]; [rewrite E; reflexivity|].
  rewrite E2, E1. change (c_str newline) with newline.
  destruct line as [|c r] eqn:El; [reflexivity|]. rewrite <- El in *.
  assert (Hne : line <> EmptyString) by (rewrite El; discriminate).
  fold commandLoop.
  rewrite (commandLoop_step (line ++ newline)) by (rewrite El; discriminate).
  rewrite (commandLoop_step line s Hne).
  destruct (tokenizeLine_reads_one_line line EmptyString Hn) as [T1 T2].
  change (line ++ newline) with (line ++ newline ++ EmptyString) at 1 2 3.
  rewrite T1, T2. reflexivity.
Qed.

Lemma isToken_same (t t' pattern : string) :
  isToken t t' = true -> isToken t pattern = isToken t' pattern.
Proof.
  unfold isToken. intros H. apply String.eqb_eq in H. rewrite H. reflexivity.
Qed.

(** X6: command names are matched without regard to case: a known
    command does the same under every spelling of its name that
    differs in case only. *)
Theorem command_names_ignore_case (t t' : string) (args : list string) (s : Sandbox) :
  isToken t t' = true ->
  unrecognized (t :: args) = false ->
  execCommand (t :: args) s = execCommand (t' :: args) s.
Proof.
  intros Hsame Hknown.
  unfold unrecognized in Hknown. cbn [findCommand commandArity fst nth] in Hknown.
  cbv beta zeta delta [execCommand ControlPipe.execCommand execRendererCommand].
  cbn [nth List.length].
  repeat rewrite <- (isToken_same t t' _ Hsame).
  splitChain Hknown; try discriminate Hknown; useTests; reflexivity.
Qed.

(** X7: on a sandbox with a water table, as the constructor leaves
    it, the control pipe block ends normally on every input, bytes of
    any kind: no command dereferences a null pointer or reads a pointer
    that was never written, and the sandbox stays as the constructor
    leaves it. *)
Theorem control_pipe_total_with_water_table (bytes : string) (s : Sandbox) :
  constructed s -> waterTable s <> None ->
  exists s',
    controlPipe bytes s = Some (Normal s')
    /\ constructed s' /\ waterTable s' <> None.
Proof.
  intros Hc Hw.
  apply (commandLoop_constructed atof atoi showFloat colorMapLoad
           (String.length (c_str bytes))); [apply Nat.le_refl | exact Hc | exact Hw].
Qed.

(** The value of a test of the command name once the name is known. *)
Ltac knownName H :=
  unfold isToken in H; apply String.eqb_eq in H; cbn in H;
  unfold isToken; rewrite H; cbn.

(** X8: without a water table the constructor leaves four widget
    pointers unwritten.  The lines that read one of them are exactly
    the [snowMelt], [waterRoughness] and [waterAbsorption] lines with
    one argument; every other line is processed and leaves the sandbox
    as the constructor leaves it. *)
Theorem lines_reading_unwritten_pointers (tokens : list string) (s : Sandbox) :
  constructed s -> waterTable s = None ->
  (readsDialogSlider tokens = true -> execCommand tokens s = IndeterminateRead)
  /\ (readsDialogSlider tokens = false ->
      exists s', execCommand tokens s = Normal s'
                 /\ constructed s' /\ waterTable s' = None).
Proof.
  intros Hc Hw. pose proof Hc as [Hr Hd]. rewrite Hw in Hd.
  destruct Hd as (P1 & P3 & P4 & P6 & P2 & P5 & P7 & P8).
  unfold readsDialogSlider. split.
  - intros H. apply andb_true_iff in H. destruct H as [Hsize H].
    apply orb_true_iff in H. destruct H as [H | H];
      [apply orb_true_iff in H; destruct H as [H | H]|];
      cbv beta zeta delta [execCommand ControlPipe.execCommand];
      rewrite Hsize; knownName H; rewrite ?P2, ?P7, ?P8; reflexivity.
  - intros H.
    cbv beta zeta delta [execCommand ControlPipe.execCommand execRendererCommand].
    rewrite Hw, P1, P2, P3, P4, P6, P7, P8. cbn [withSlider option_map].
    destruct (List.length tokens =? 2)%nat eqn:Hsize; cbn [andb] in H.
    + apply orb_false_iff in H. destruct H as [H H3].
      apply orb_false_iff in H. destruct H as [H1 H2].
      rewrite H1, H2, H3.
      repeat match goal with
             | |- context [if ?c then _ else _] => destruct c eqn:?
             | |- context [match colorMapLoad ?x with _ => _ end] =>
                 destruct (colorMapLoad x) eqn:?
             | |- exists s', onSurfaceRenderers ?c ?l ?s = _ /\ _ =>
                 let s1 := fresh "s1" in
                 let E := fresh "E" in
                 let H1 := fresh "H1" in
                 destruct (onSurfaceRenderers_constructed c l s Hc) as (s1 & E & H1);
                 exists s1; split; [exact E|]; split; [exact H1|];
                 unfold onSurfaceRenderers in E;
                 destruct (forEachSurfaceRenderer c l (renderSettings s));
                 [injection E as <-; exact Hw | discriminate E]
             end.
      all: eexists; (split; [reflexivity|]); split; [|cbn; congruence].
      all: split; cbn;
        [ first [ exact Hr | apply forEachElevationColorMap_constructed; exact Hr ] |].
      all: rewrite ?Hw; unfold withoutDialog; cbn;
        rewrite ?P1, ?P2, ?P3, ?P4, ?P5, ?P6, ?P7, ?P8; repeat split.
    + repeat match goal with
             | |- context [if ?c then _ else _] => destruct c eqn:?
             | |- context [match colorMapLoad ?x with _ => _ end] =>
                 destruct (colorMapLoad x) eqn:?
             | |- exists s', onSurfaceRenderers ?c ?l ?s = _ /\ _ =>
                 let s1 := fresh "s1" in
                 let E := fresh "E" in
                 let H1 := fresh "H1" in
                 destruct (onSurfaceRenderers_constructed c l s Hc) as (s1 & E & H1);
                 exists s1; split; [exact E|]; split; [exact H1|];
                 unfold onSurfaceRenderers in E;
                 destruct (forEachSurfaceRenderer c l (renderSettings s));
                 [injection E as <-; exact Hw | discriminate E]
             end.
      all: eexists; (split; [reflexivity|]); split; [|cbn; congruence].
      all: split; cbn;
        [ first [ exact Hr | apply forEachElevationColorMap_constructed; exact Hr ] |].
      all: rewrite ?Hw; unfold withoutDialog; cbn;
        rewrite ?P1, ?P2, ?P3, ?P4, ?P5, ?P6, ?P7, ?P8; repeat split.
Qed.

(** What every command keeps, the command loop keeps. *)
Lemma commandLoop_invariant (P : Sandbox -> Prop) :
  (forall tokens s s', P s -> execCommand tokens s = Normal s' -> P s') ->
  forall (n : nat) (cPtr : string) (s s' : Sandbox),
    (String.length cPtr <= n)%nat ->
    P s -> commandLoop cPtr s = Some (Normal s') -> P s'.
Proof.
  intros Hstep. induction n as [|n IH]; intros cPtr s s' Hlen HP Hrun.
  - destruct cPtr; [|cbn in Hlen; lia]. injection Hrun as <-. exact HP.
  - destruct cPtr as [|c r]; [injection Hrun as <-; exact HP|].
    rewrite commandLoop_step in Hrun by discriminate.
    pose proof (tokenizeLine_progress c r) as Hp. cbn [String.length] in Hlen.
    destruct (fst (tokenizeLine (String c r))) as [|t ts].
    + apply (IH (snd (tokenizeLine (String c r))) s s'); [lia | exact HP | exact Hrun].
    + cbn [andThen] in Hrun.
      destruct (execCommand (t :: ts) s) as [s1| |] eqn:E; try discriminate Hrun.
      apply (IH (snd (tokenizeLine (String c r))) s1 s');
        [lia | apply (Hstep _ _ _ HP E) | exact Hrun].
Qed.

Lemma forEachSurfaceRenderer_positive
    (checked : bool) (calls : list SurfaceRendererCall) :
  forallb positiveDistance calls = true ->
  forall rss rss',
    Forall (fun rs =>
              match surfaceRenderer rs with
              | Some received => forallb positiveDistance received = true
              | None => True
              end) rss ->
    forEachSurfaceRenderer checked calls rss = Some rss' ->
    Forall (fun rs =>
              match surfaceRenderer rs with
              | Some received => forallb positiveDistance received = true
              | None => True
              end) rss'.
Proof.
  intros Hcalls rss. induction rss as [|rs rest IH]; intros rss' Hall E.
  - injection E as <-. constructor.
  - inversion Hall as [|? ? Hrs Hrest]; subst. cbn in E.
    destruct (surfaceRenderer rs) as [received|] eqn:Er.
    + destruct (forEachSurfaceRenderer checked calls rest) as [rest'|];
        [|discriminate E].
      injection E as <-. constructor; [|apply IH; [exact Hrest | reflexivity]].
      cbn. rewrite forallb_app, Hrs, Hcalls. reflexivity.
    + destruct checked; [|discriminate E].
      destruct (forEachSurfaceRenderer true calls rest) as [rest'|];
        [|discriminate E].
      injection E as <-. constructor; [|apply IH; [exact Hrest | reflexivity]].
      rewrite Er. exact I.
Qed.

Lemma onSurfaceRenderers_positive
    (checked : bool) (calls : list SurfaceRendererCall) (s s' : Sandbox) :
  forallb positiveDistance calls = true ->
  contourLineDistancesPositive s ->
  onSurfaceRenderers checked calls s = Normal s' ->
  contourLineDistancesPositive s'.
Proof.
  intros Hcalls Hs E. unfold onSurfaceRenderers in E.
  destruct (forEachSurfaceRenderer checked calls (renderSettings s)) as [rss|] eqn:Er;
    [|discriminate E].
  injection E as <-. unfold contourLineDistancesPositive. cbn.
  apply (forEachSurfaceRenderer_positive checked calls Hcalls _ _ Hs Er).
Qed.

Lemma forEachElevationColorMap_positive
    (call : ElevationColorMapCall) (rss : list RenderSettings) :
  Forall (fun rs =>
            match surfaceRenderer rs with
            | Some received => forallb positiveDistance received = true
            | None => True
            end) rss ->
  Forall (fun rs =>
            match surfaceRenderer rs with
            | Some received => forallb positiveDistance received = true
            | None => True
            end) (forEachElevationColorMap call rss).
Proof.
  unfold forEachElevationColorMap.
  induction 1 as [|rs rest Hrs Hrest IH]; cbn; constructor; [|exact IH].
  destruct (elevationColorMap rs); cbn; exact Hrs.
Qed.

Lemma execCommand_positive (tokens : list string) (s s' : Sandbox) :
  contourLineDistancesPositive s ->
  execCommand tokens s = Normal s' ->
  contourLineDistancesPositive s'.
Proof.
  intros Hs.
  cbv beta zeta delta [execCommand ControlPipe.execCommand execRendererCommand].
  unfold withSlider.
  repeat match goal with
         | |- context [if ?c then _ else _] => destruct c eqn:?
         | |- context [match colorMapLoad ?x with _ => _ end] =>
             destruct (colorMapLoad x) eqn:?
         | |- context [match ?p with Null => _ | Valid _ => _ | Indeterminate => _ end] =>
             destruct p eqn:?
         | |- context [match waterTable s with Some _ => _ | None => _ end] =>
             destruct (waterTable s) eqn:?
         | |- onSurfaceRenderers _ _ _ = _ -> _ =>
             apply onSurfaceRenderers_positive; [cbn; rewrite ?andb_true_r; auto | exact Hs]
         end.
  all: intros E; try discriminate E; injection E as <-.
  all: unfold contourLineDistancesPositive; cbn;
    first [ exact Hs | apply forEachElevationColorMap_positive; exact Hs ].
Qed.

(** X9: the control pipe never hands a surface renderer a contour
    line distance that is not positive: if all distances handed over
    so far are positive, they still are after any input. *)
Theorem contour_line_distances_stay_positive (bytes : string) (s s' : Sandbox) :
  contourLineDistancesPositive s ->
  controlPipe bytes s = Some (Normal s') ->
  contourLineDistancesPositive s'.
Proof.
  intros Hs Hrun.
  apply (commandLoop_invariant contourLineDistancesPositive execCommand_positive
           (String.length (c_str bytes)) (c_str bytes) s s');
    [apply Nat.le_refl | exact Hs | exact Hrun].
Qed.

Lemma toUnsigned_range (z : Z) : (0 <= toUnsigned z < 2 ^ 32)%Z.
Proof. unfold toUnsigned. apply Z.mod_pos_bound. reflexivity. Qed.

Lemma toUnsigned_negative (z : Z) :
  (- 2 ^ 31 <= z < 0)%Z -> toUnsigned z = (2 ^ 32 + z)%Z.
Proof.
  intros H. unfold toUnsigned. symmetry.
  apply (Z.mod_unique z (2 ^ 32) (-1) (2 ^ 32 + z))%Z; lia.
Qed.

(** X10: [waterMaxSteps] is an [unsigned int].  The pipe stores the
    converted argument modulo 2^32, so a negative count becomes a
    limit of 2^31 steps or more, while the slider shows the value
    clamped to its range. *)
Theorem waterMaxSteps_wraps (name x : string) (s : Sandbox) :
  isToken name "waterMaxSteps" = true ->
  waterMaxStepsSlider s <> Indeterminate ->
  exists s',
    execCommand [name; x] s = Normal s'
    /\ waterMaxSteps s' = toUnsigned (atoi x)
    /\ (0 <= waterMaxSteps s' < 2 ^ 32)%Z
    /\ ((- 2 ^ 31 <= atoi x < 0)%Z -> waterMaxSteps s' = (2 ^ 32 + atoi x)%Z)
    /\ (forall sl, waterMaxStepsSlider s = Valid sl ->
        exists sl',
          waterMaxStepsSlider s' = Valid sl'
          /\ value sl'
             = Qclamp (valueMin sl) (valueMax sl) (inject_Z (toUnsigned (atoi x)))).
Proof.
  intros Hname Hsl.
  assert (Hexec : exists slider,
             execCommand [name; x] s =
             Normal (with_waterMaxStepsSlider slider
                       (with_waterMaxSteps (toUnsigned (atoi x)) s))
             /\ forall sl, waterMaxStepsSlider s = Valid sl ->
                  slider = Valid (setValue sl (inject_Z (toUnsigned (atoi x))))).
  { cbv beta zeta delta [execCommand ControlPipe.execCommand].
    cbn [nth List.length]. unfold isToken in *. apply String.eqb_eq in Hname.
    rewrite Hname.
    repeat match goal with
           | |- context [String.eqb ?a ?b] =>
               let v := eval vm_compute in (String.eqb a b) in
               change (String.eqb a b) with v
           end.
    change (2 =? 2)%nat with true. cbv iota.
    destruct (waterMaxStepsSlider s) as [|sl|] eqn:Es; [| |congruence];
      cbn [withSlider]; eexists; (split; [reflexivity|]);
      intros sl' E; [discriminate E | injection E as <-; reflexivity]. }
  destruct Hexec as (slider & Hexec & Hslider).
  eexists. split; [exact Hexec|].
  change (waterMaxSteps (with_waterMaxStepsSlider slider
                           (with_waterMaxSteps (toUnsigned (atoi x)) s)))
    with (toUnsigned (atoi x)).
  split; [reflexivity|]. split; [apply toUnsigned_range|].
  split; [apply toUnsigned_negative|].
  intros sl Esl. eexists. split; [exact (Hslider sl Esl) | reflexivity].
Qed.

End Commands.

Local Open Scope string_scope.

Lemma complete_lines_compose_witness :
  Examples.controlPipe
    (("waterSpeed 2" ++ newline) ++ "rainStrength 1" ++ newline) Examples.sandbox
  = andThen (Examples.controlPipe ("waterSpeed 2" ++ newline) Examples.sandbox)
            (Examples.controlPipe ("rainStrength 1" ++ newline)).
Proof.
  apply (complete_lines_compose Libc.atof Libc.atoi Libc.showFloat Libc.colorMapLoad
           ("waterSpeed 2" ++ newline) ("rainStrength 1" ++ newline) Examples.sandbox);
    reflexivity.
Defined.

Lemma final_newline_is_optional_witness :
  Examples.controlPipe ("waterSpeed 2" ++ newline) Examples.sandbox
  = Examples.controlPipe "waterSpeed 2" Examples.sandbox.
Proof.
  apply (final_newline_is_optional Libc.atof Libc.atoi Libc.showFloat Libc.colorMapLoad
           "waterSpeed 2" Examples.sandbox).
  reflexivity.
Defined.

Lemma command_names_ignore_case_witness :
  Examples.execCommand ["WATERSPEED"; "2"] Examples.sandbox
  = Examples.execCommand ["waterSpeed"; "2"] Examples.sandbox.
Proof.
  apply (command_names_ignore_case Libc.atof Libc.atoi Libc.showFloat Libc.colorMapLoad
           "WATERSPEED" "waterSpeed" ["2"] Examples.sandbox);
    reflexivity.
Defined.

Lemma control_pipe_total_with_water_table_witness :
  exists s',
    Examples.controlPipe ("snowMelt 1" ++ newline ++ "bogus" ++ newline) Examples.sandbox
    = Some (Normal s').
Proof.
  destruct (control_pipe_total_with_water_table
              Libc.atof Libc.atoi Libc.showFloat Libc.colorMapLoad
              ("snowMelt 1" ++ newline ++ "bogus" ++ newline) Examples.sandbox)
    as (s' & H & _).
  - exact sandbox_constructed.
  - cbn. discriminate.
  - exists s'. exact H.
Defined.

Lemma lines_reading_unwritten_pointers_witness :
  Examples.execCommand ["waterAbsorption"; "1"] Examples.sandboxWithoutWater
  = IndeterminateRead
  /\ exists s',
       Examples.execCommand ["waterMode"; "engineering"] Examples.sandboxWithoutWater
       = Normal s'.
Proof.
  split.
  - apply (lines_reading_unwritten_pointers
             Libc.atof Libc.atoi Libc.showFloat Libc.colorMapLoad
             ["waterAbsorption"; "1"] Examples.sandboxWithoutWater
             sandboxWithoutWater_constructed eq_refl).
    reflexivity.
  - destruct (lines_reading_unwritten_pointers
                Libc.atof Libc.atoi Libc.showFloat Libc.colorMapLoad
                ["waterMode"; "engineering"] Examples.sandboxWithoutWater
                sandboxWithoutWater_constructed eq_refl) as [_ H].
    destruct (H eq_refl) as (s' & E & _). exists s'. exact E.
Defined.

Lemma contour_line_distances_stay_positive_witness :
  contourLineDistancesPositive Samples.afterContourLines.
Proof.
  apply (contour_line_distances_stay_positive
           Libc.atof Libc.atoi Libc.showFloat Libc.colorMapLoad
           Samples.contourLines Examples.sandbox).
  - repeat constructor.
  - vm_compute. reflexivity.
Defined.

Lemma waterMaxSteps_wraps_witness :
  exists s',
    Examples.execCommand ["waterMaxSteps"; "-1"] Examples.sandbox = Normal s'
    /\ waterMaxSteps s' = (2 ^ 32 + Libc.atoi "-1")%Z.
Proof.
  destruct (waterMaxSteps_wraps Libc.atof Libc.atoi Libc.showFloat Libc.colorMapLoad
              "waterMaxSteps" "-1" Examples.sandbox)
    as (s' & H1 & _ & _ & H2 & _).
  - reflexivity.
  - cbn. discriminate.
  - exists s'. split; [exact H1|]. apply H2. vm_compute.
    split; [discriminate | reflexivity].
Defined.

End PipeRunsFacts.

(** ** The elevation colour map *)

Module ElevationColorMapFacts.

Import ElevationColorMap.

(** X11: the texture plane sends an elevation at the low end of the scalar
    range to the centre of the first of the [numEntries] texels and an
    elevation at the high end to the centre of the last one, and it is
    linear in the elevation in between. *)
Theorem texture_plane_maps_range_to_texel_centres
    (m : ColorMap) (basePlane : Plane) (p : Vector) :
  0 < numEntries m ->
  ~ (scalarRangeMax m == scalarRangeMin m)%Q ->
  (textureCoordinate (calcTexturePlane m basePlane) p
   == (1 # 2) / inject_Z (numEntries m)
      + (elevation basePlane p - scalarRangeMin m)
        / (scalarRangeMax m - scalarRangeMin m)
        * (1 - 1 / inject_Z (numEntries m)))%Q
  /\ ((elevation basePlane p == scalarRangeMin m)%Q ->
      (textureCoordinate (calcTexturePlane m basePlane) p
       == (1 # 2) / inject_Z (numEntries m))%Q)
  /\ ((elevation basePlane p == scalarRangeMax m)%Q ->
      (textureCoordinate (calcTexturePlane m basePlane) p
       == 1 - (1 # 2) / inject_Z (numEntries m))%Q).
Proof.
  intros Hn Hrange.
  assert (Hn' : ~ (inject_Z (numEntries m) == 0)%Q).
  { intros H. unfold Qeq in H. cbn in H. lia. }
  assert (Hr' : ~ (scalarRangeMax m - scalarRangeMin m == 0)%Q).
  { intros H. apply Hrange. lra. }
  assert (Hlin :
    (textureCoordinate (calcTexturePlane m basePlane) p
     == (1 # 2) / inject_Z (numEntries m)
        + (elevation basePlane p - scalarRangeMin m)
          / (scalarRangeMax m - scalarRangeMin m)
          * (1 - 1 / inject_Z (numEntries m)))%Q).
  { unfold textureCoordinate, calcTexturePlane, elevation. cbn.
    unfold Z.sub. rewrite inject_Z_plus. cbn [inject_Z Z.opp].
    change (inject_Z (-1)) with (-1 # 1)%Q.
    field. split; assumption. }
  split; [exact Hlin|]. split; intros He; rewrite Hlin, He.
  - field. split; assumption.
  - field. split; assumption.
Qed.

Lemma texture_plane_maps_range_to_texel_centres_witness :
  (textureCoordinate
     (calcTexturePlane (mkColorMap 256 (-10) 30)
                       (mkPlane (mkVector 0 0 1) (-100)))
     (mkVector 5 7 (-110))
   == 1 # 512)%Q.
Proof.
  destruct (texture_plane_maps_range_to_texel_centres
              (mkColorMap 256 (-10) 30) (mkPlane (mkVector 0 0 1) (-100))
              (mkVector 5 7 (-110))) as (_ & H & _).
  - reflexivity.
  - vm_compute. discriminate.
  - apply H. vm_compute. reflexivity.
Defined.

(** A loop that still has fuel and whose condition holds runs its body. *)
Lemma forLoop_first (fuel : nat) (x bound step : Z) (body : Z -> list Access)
    (a : Access) :
  x < bound -> In a (body x) -> In a (forLoop (S fuel) x bound step body).
Proof.
  intros Hx Ha. cbn [forLoop].
  destruct (Z.ltb_spec x bound); [|lia]. apply in_or_app. left. exact Ha.
Qed.

Lemma forLoop_later (fuel : nat) (x bound step : Z) (body : Z -> list Access)
    (a : Access) :
  x < bound -> In a (forLoop fuel (x + step) bound step body) ->
  In a (forLoop (S fuel) x bound step body).
Proof.
  intros Hx Ha. cbn [forLoop].
  destruct (Z.ltb_spec x bound); [|lia]. apply in_or_app. right. exact Ha.
Qed.

(** With enough fuel a loop with a positive step ends on its own
    condition: more fuel changes nothing. *)
Lemma forLoop_fuel (body : Z -> list Access) (bound step : Z) (n : nat) :
  0 < step ->
  forall (fuel : nat) (x : Z),
    bound - x <= Z.of_nat n -> (n <= fuel)%nat ->
    forLoop fuel x bound step body = forLoop n x bound step body.
Proof.
  intros Hstep. induction n as [|n IH]; intros fuel x Hx Hfuel.
  - destruct fuel; cbn [forLoop]; [reflexivity|].
    destruct (Z.ltb_spec x bound); [lia | reflexivity].
  - destruct fuel as [|fuel]; [lia|]. cbn [forLoop].
    destruct (Z.ltb_spec x bound); [|reflexivity].
    rewrite (IH fuel); [reflexivity | lia | lia].
Qed.

(** The accesses of the diamond step at [x=halfSide] and the first
    [y]. *)
Lemma diamondStep_second_column (fuel : nat) (size sideLength halfSide : Z)
    (a : Access) :
  0 < size - 1 -> halfSide < size - 1 ->
  Z.rem (halfSide + halfSide) sideLength < size - 1 ->
  In a [ Read ((Z.rem (halfSide + halfSide) sideLength - halfSide) * size + halfSide);
         Read ((Z.rem (halfSide + halfSide) sideLength + halfSide) * size + halfSide) ] ->
  In a (diamondStep (S (S fuel)) size sideLength halfSide).
Proof.
  intros H0 Hh Hy Ha. unfold diamondStep.
  apply forLoop_later; [exact H0|]. cbn [Z.add].
  apply forLoop_first; [exact Hh|].
  apply forLoop_first; [exact Hy|].
  apply in_or_app. left.
  destruct Ha as [<- | [<- | []]]; cbn; auto.
Qed.

(** X12: for every size from 3 on, the size 512 of the fractal
    texture among them, the pattern generator reads [data] outside its
    [size*size] elements. *)
Theorem generateFractalPattern_out_of_bounds (size : Z) :
  3 <= size <= 32767 ->
  exists a, In a (generateFractalPattern size) /\ inBounds size a = false.
Proof.
  intros Hsize.
  destruct (Z.eq_dec size 4) as [-> | H4].
  { exists (Read (-2)). split; [vm_compute; tauto | reflexivity]. }
  assert (Hfuel : exists n, Z.to_nat size = S (S n)).
  { destruct (Z.to_nat size) as [|[|n]] eqn:E; try lia. exists n. reflexivity. }
  destruct Hfuel as [n Hfuel].
  set (sideLength := size - 1).
  set (halfSide := Z.quot sideLength 2).
  assert (Hquot : halfSide = sideLength / 2)
    by (apply Z.quot_div_nonneg; unfold sideLength; lia).
  assert (Hhalf : 1 <= halfSide /\ halfSide < size - 1
                  /\ (sideLength = 2 * halfSide \/ sideLength = 2 * halfSide + 1)).
  { rewrite Hquot. unfold sideLength.
    pose proof (Z.div_mod (size - 1) 2 ltac:(lia)).
    pose proof (Z.mod_pos_bound (size - 1) 2 ltac:(lia)). lia. }
  destruct Hhalf as (Hh1 & Hh2 & Hparity).
  assert (Hin : forall a,
    In a (diamondStep (S (S n)) size sideLength halfSide) ->
    In a (generateFractalPattern size)).
  { intros a Ha. unfold generateFractalPattern. apply in_or_app. right.
    rewrite Hfuel. cbn [levels]. fold sideLength.
    destruct (Z.leb_spec 2 sideLength); [|unfold sideLength in *; lia].
    cbv zeta. fold halfSide. apply in_or_app. right. apply in_or_app. left. exact Ha. }
  destruct Hparity as [Heven | Hodd].
  - assert (Hy : Z.rem (halfSide + halfSide) sideLength = 0).
    { replace (halfSide + halfSide) with sideLength by lia.
      apply Z.rem_same. unfold sideLength. lia. }
    exists (Read ((Z.rem (halfSide + halfSide) sideLength - halfSide) * size + halfSide)).
    split.
    + apply Hin. apply diamondStep_second_column; [lia | lia | lia | left; reflexivity].
    + unfold inBounds. cbn [index]. rewrite Hy.
      destruct (Z.leb_spec 0 ((0 - halfSide) * size + halfSide)); [nia | reflexivity].
  - assert (Hy : Z.rem (halfSide + halfSide) sideLength = size - 2).
    { rewrite Z.rem_small; unfold sideLength in *; lia. }
    exists (Read ((Z.rem (halfSide + halfSide) sideLength + halfSide) * size + halfSide)).
    split.
    + apply Hin. apply diamondStep_second_column;
        [lia | lia | lia | right; left; reflexivity].
    + unfold inBounds. cbn [index]. rewrite Hy.
      assert (2 <= halfSide) by (unfold sideLength in *; lia).
      destruct (Z.ltb_spec ((size - 2 + halfSide) * size + halfSide) (size * size));
        [nia | apply andb_false_r].
Qed.

Lemma generateFractalPattern_out_of_bounds_witness :
  exists a, In a (generateFractalPattern fractalTextureSize)
            /\ inBounds fractalTextureSize a = false.
Proof.
  apply generateFractalPattern_out_of_bounds. unfold fractalTextureSize. lia.
Defined.

(** The write of the square step at the third [x] and the third [y]. *)
Lemma squareStep_third (fuel : nat) (size sideLength halfSide : Z) :
  0 < sideLength -> sideLength + sideLength < size - 1 ->
  In (Write ((sideLength + sideLength + halfSide) * size
             + (sideLength + sideLength) + halfSide))
     (squareStep (S (S (S fuel))) size sideLength halfSide).
Proof.
  intros H0 H2. unfold squareStep.
  apply forLoop_later; [lia|]. apply forLoop_later; [lia|].
  apply forLoop_first; [lia|].
  apply forLoop_later; [lia|]. apply forLoop_later; [lia|].
  apply forLoop_first; [lia|].
  cbn [Z.add In]. auto 6.
Qed.

(** X13: for every even size from 10 on, the size 512 of the fractal
    texture among them, the pattern generator also writes outside the
    [size*size] elements of [data]. *)
Theorem generateFractalPattern_writes_out_of_bounds (size : Z) :
  10 <= size <= 32767 -> Z.even size = true ->
  exists i, In (Write i) (generateFractalPattern size)
            /\ inBounds size (Write i) = false.
Proof.
  intros Hsize Heven.
  assert (Hfuel : exists n, Z.to_nat size = S (S (S n))).
  { destruct (Z.to_nat size) as [|[|[|n]]] eqn:E; try lia. exists n. reflexivity. }
  destruct Hfuel as [n Hfuel].
  apply Z.even_spec in Heven. destruct Heven as [k Hk].
  set (sideLength := Z.quot (size - 1) 2).
  set (halfSide := Z.quot sideLength 2).
  assert (Hside : sideLength = k - 1).
  { unfold sideLength. rewrite Z.quot_div_nonneg by lia.
    symmetry. apply (Z.div_unique (size - 1) 2 (k - 1) 1); lia. }
  assert (Hhalf : 2 <= halfSide).
  { unfold halfSide. rewrite Z.quot_div_nonneg by lia.
    apply Z.div_le_lower_bound; lia. }
  exists ((sideLength + sideLength + halfSide) * size
          + (sideLength + sideLength) + halfSide).
  split.
  - unfold generateFractalPattern. apply in_or_app. right.
    rewrite Hfuel. cbn [levels].
    destruct (Z.leb_spec 2 (size - 1)); [|lia]. cbv zeta.
    apply in_or_app. right. apply in_or_app. right.
    fold sideLength.
    destruct (Z.leb_spec 2 sideLength); [|lia].
    fold halfSide. apply in_or_app. left.
    apply squareStep_third; lia.
  - unfold inBounds. cbn [index].
    destruct (Z.ltb_spec ((sideLength + sideLength + halfSide) * size
                          + (sideLength + sideLength) + halfSide) (size * size));
      [nia | apply andb_false_r].
Qed.

Lemma generateFractalPattern_writes_out_of_bounds_witness :
  exists i, In (Write i) (generateFractalPattern fractalTextureSize)
            /\ inBounds fractalTextureSize (Write i) = false.
Proof.
  apply generateFractalPattern_writes_out_of_bounds;
    [unfold fractalTextureSize; lia | reflexivity].
Defined.


End ElevationColorMapFacts.

(** ** The command line *)

Module CommandLineFacts.

Import Tokenizer CommandLine LinesFacts.
Local Open Scope string_scope.

Lemma back_app (front : list RenderSettings) (b : RenderSettings) :
  back (front ++ [b]) = Some b.
Proof.
  induction front as [|rs front IH]; [reflexivity|].
  cbn [app back]. destruct (front ++ [b])%list eqn:E; [|exact IH].
  destruct front; discriminate E.
Qed.

Lemma modifyBack_app (f : RenderSettings -> RenderSettings)
    (front : list RenderSettings) (b : RenderSettings) :
  modifyBack f (front ++ [b]) = Some (front ++ [f b])%list.
Proof.
  induction front as [|rs front IH]; [reflexivity|].
  cbn [app modifyBack]. destruct (front ++ [b])%list eqn:E.
  - destruct front; discriminate E.
  - rewrite IH. reflexivity.
Qed.

Lemma nonempty_split (rss : list RenderSettings) :
  rss <> [] -> exists front b, rss = (front ++ [b])%list.
Proof.
  intros H. destruct (exists_last H) as (front & b & E). exists front, b. exact E.
Qed.

Lemma extend_app (windowIndex : Z) (front : list RenderSettings) (b : RenderSettings) :
  extend windowIndex (front ++ [b])
  = Some (front ++ [b]
          ++ repeat b (Z.to_nat (windowIndex + 1
                                 - Z.of_nat (List.length (front ++ [b])))))%list.
Proof.
  unfold extend. rewrite back_app.
  destruct (Z.to_nat (windowIndex + 1 - Z.of_nat (List.length (front ++ [b])))).
  - cbn [repeat]. rewrite !app_nil_r. reflexivity.
  - rewrite <- app_assoc. reflexivity.
Qed.

Lemma repeat_snoc (b : RenderSettings) (n : nat) :
  (repeat b n ++ [b] = b :: repeat b n)%list.
Proof.
  induction n as [|n IH]; [reflexivity|]. cbn. rewrite IH. reflexivity.
Qed.

Section Parser.

Variable atof : string -> Q.
Variable atoi : string -> Z.
Variable colorMapLoad : string -> option string.
Variable projectorTransformFile : string -> option string.
Variable CONFIG_CONFIGDIR : string.
Variable CONFIG_DEFAULTPROJECTIONMATRIXFILENAME : string.
Variable CONFIG_DEFAULTHEIGHTCOLORMAPFILENAME : string.

Let parseArgument :=
  parseArgument atof atoi colorMapLoad projectorTransformFile CONFIG_CONFIGDIR
                CONFIG_DEFAULTHEIGHTCOLORMAPFILENAME.
Let parseArguments :=
  parseArguments atof atoi colorMapLoad projectorTransformFile CONFIG_CONFIGDIR
                 CONFIG_DEFAULTHEIGHTCOLORMAPFILENAME.
Let commandLine :=
  commandLine atof atoi colorMapLoad projectorTransformFile CONFIG_CONFIGDIR
              CONFIG_DEFAULTPROJECTIONMATRIXFILENAME CONFIG_DEFAULTHEIGHTCOLORMAPFILENAME.

Lemma onBack_front (f : RenderSettings -> RenderSettings) (rest : list string)
    (o : Options) (front : list RenderSettings) (b : RenderSettings) :
  renderSettings o = (front ++ [b])%list ->
  onBack f rest o = Ok (rest, with_renderSettings (front ++ [f b])%list o).
Proof.
  intros E. unfold onBack. rewrite E, modifyBack_app. reflexivity.
Qed.

Lemma loadOnBack_front
    (load : RenderSettings -> Result (RenderSettings * list string))
    (rest : list string) (o : Options) (front : list RenderSettings)
    (b : RenderSettings) (loaded : RenderSettings * list string) :
  renderSettings o = (front ++ [b])%list ->
  load b = Ok loaded ->
  loadOnBack load rest o
  = Ok (rest, with_renderSettings (front ++ [fst loaded])%list
                (with_cerr (cerr o ++ snd loaded)%list o)).
Proof.
  intros E L. unfold loadOnBack. rewrite E, back_app, L.
  destruct loaded as [rs' messages].
  rewrite (onBack_front _ _ _ front b); [reflexivity | exact E].
Qed.

Lemma loadOnBack_outOfBounds
    (load : RenderSettings -> Result (RenderSettings * list string))
    (rest : list string) (o : Options) (front : list RenderSettings)
    (b : RenderSettings) :
  renderSettings o = (front ++ [b])%list ->
  load b = OutOfBounds ->
  loadOnBack load rest o = OutOfBounds.
Proof.
  intros E L. unfold loadOnBack. rewrite E, back_app, L. reflexivity.
Qed.

(** Splits the chain of tests of the switch name. *)
Ltac chain :=
  repeat match goal with
         | |- context [if isToken ?s ?n then _ else _] =>
             let E := fresh "E" in destruct (isToken s n) eqn:E
         end.

Lemma extend_shape (front : list RenderSettings) (b : RenderSettings) (k : nat) :
  (front ++ [b] ++ repeat b k = (front ++ repeat b k) ++ [b])%list.
Proof.
  rewrite <- app_assoc. f_equal. cbn [app]. symmetry. apply repeat_snoc.
Qed.

Lemma keepsFront_last (front : list RenderSettings) (b : RenderSettings) (o' : Options) :
  renderSettings o' = (front ++ [b])%list -> keepsFront front o'.
Proof. intros E. exists [b]. split; [exact E | discriminate]. Qed.

Lemma keepsFront_more (front middle : list RenderSettings) (b : RenderSettings)
    (o' : Options) :
  renderSettings o' = ((front ++ middle) ++ [b])%list -> keepsFront front o'.
Proof.
  intros E. exists (middle ++ [b])%list. split.
  - rewrite E, app_assoc. reflexivity.
  - destruct middle; discriminate.
Qed.

(** One round of the loop on a non-empty [renderSettings]: it does not
    call [back()] on an empty vector, and when it gets to the end of
    the round it has consumed the argument and left every element but
    the last as it is. *)
Lemma parseArgument_round (arg : string) (rest : list string) (o : Options)
    (front : list RenderSettings) (b : RenderSettings) :
  renderSettings o = (front ++ [b])%list ->
  parseArgument arg rest o = NullArgument
  \/ parseArgument arg rest o = OutOfBounds
  \/ exists rest' o',
       parseArgument arg rest o = Ok (rest', o')
       /\ (List.length rest' <= List.length rest)%nat
       /\ keepsFront front o'.
Proof.
  intros E.
  unfold parseArgument, CommandLine.parseArgument.
  destruct (isDash (firstChar arg));
    [|right; right; exists rest, o; split; [reflexivity|]; split;
      [lia | apply (keepsFront_last front b); exact E]].
  cbv zeta. chain.
  all: unfold operand.
  all: repeat match goal with
              | |- context [match ?l with [] => _ | _ :: _ => _ end] =>
                  is_var l; destruct l
              end.
  all: try (left; reflexivity).
  all: try match goal with
           | |- context [tl ?l] => is_var l; destruct l; cbn [tl hd_error]
           end.
  all: rewrite ?E, ?extend_app, ?extend_shape.
  all: unfold loadHeightMap.
  all: repeat match goal with
              | |- context [ElevationColorMap.newElevationColorMap ?load ?name] =>
                  destruct (ElevationColorMap.newElevationColorMap load name)
              end.
  all: repeat first
         [ erewrite onBack_front by (cbn; first [exact E | reflexivity])
         | erewrite loadOnBack_front by (cbn; first [exact E | reflexivity])
         | erewrite loadOnBack_outOfBounds by (cbn; first [exact E | reflexivity]) ].
  all: repeat match goal with
              | |- context [if ?c then _ else _] => destruct c
              end.
  all: repeat first
         [ erewrite onBack_front by (cbn; first [exact E | reflexivity])
         | erewrite loadOnBack_front by (cbn; first [exact E | reflexivity])
         | erewrite loadOnBack_outOfBounds by (cbn; first [exact E | reflexivity]) ].
  all: try (right; left; reflexivity).
  all: right; right; eexists; eexists; (split; [reflexivity|]); split; [cbn; lia|].
  all: first [ apply (keepsFront_last front b); cbn; exact E
             | eapply keepsFront_last; cbn; reflexivity
             | eapply keepsFront_more; cbn; reflexivity ].
Qed.

Lemma keepsFront_split (front : list RenderSettings) (o' : Options) :
  keepsFront front o' ->
  exists middle b, renderSettings o' = ((front ++ middle) ++ [b])%list.
Proof.
  intros (tail & E & Hne).
  destruct (nonempty_split tail Hne) as (middle & b & ->).
  exists middle, b. rewrite E, app_assoc. reflexivity.
Qed.

(** The loop over the arguments, from any round on. *)
Lemma parseArguments_run (n : nat) :
  forall (fuel : nat) (args : list string) (o : Options)
         (front : list RenderSettings) (b : RenderSettings),
    (List.length args <= n)%nat -> (n <= fuel)%nat ->
    renderSettings o = (front ++ [b])%list ->
    parseArguments fuel args o = Some NullArgument
    \/ parseArguments fuel args o = Some OutOfBounds
    \/ exists o', parseArguments fuel args o = Some (Ok o') /\ keepsFront front o'.
Proof.
  induction n as [|n IH]; intros fuel args o front b Hlen Hfuel E.
  - destruct args; [|cbn in Hlen; lia]. right. right. exists o.
    split; [destruct fuel; reflexivity | apply (keepsFront_last front b); exact E].
  - destruct args as [|arg rest].
    + right. right. exists o.
      split; [destruct fuel; reflexivity | apply (keepsFront_last front b); exact E].
    + destruct fuel as [|fuel]; [lia|].
      unfold parseArguments. cbn [CommandLine.parseArguments].
      destruct (parseArgument_round arg rest o front b E)
        as [Hnull | [Hout | (rest' & o1 & Hok & Hrest & Hkeep)]].
      * unfold parseArgument in Hnull. rewrite Hnull. left. reflexivity.
      * unfold parseArgument in Hout. rewrite Hout. right. left. reflexivity.
      * unfold parseArgument in Hok. rewrite Hok.
        destruct (keepsFront_split front o1 Hkeep) as (middle & b1 & E1).
        cbn [List.length] in Hlen.
        destruct (IH fuel rest' o1 (front ++ middle)%list b1)
          as [Hnull | [Hout | (o' & Hrun & Hkeep')]]; [lia | lia | exact E1 | | |].
        -- left. exact Hnull.
        -- right. left. exact Hout.
        -- right. right. exists o'. split; [exact Hrun|].
           destruct Hkeep' as (tail & Et & Hne).
           exists (middle ++ tail)%list. split.
           ++ rewrite Et, app_assoc. reflexivity.
           ++ destruct middle; [exact Hne | discriminate].
Qed.

Lemma windowSettings_defined (windowIndex : nat) (rss : list RenderSettings) :
  rss <> [] ->
  exists rs, windowSettings windowIndex rss = Some rs /\ In rs rss.
Proof.
  intros Hne. unfold windowSettings.
  destruct (Nat.ltb_spec windowIndex (List.length rss)) as [Hlt | Hge].
  - destruct (nth_error rss windowIndex) as [rs|] eqn:En.
    + exists rs. split; [reflexivity | apply (nth_error_In _ _ En)].
    + apply nth_error_None in En. lia.
  - destruct (nonempty_split rss Hne) as (front & b & ->).
    exists b. rewrite back_app. split; [reflexivity|].
    apply in_or_app. right. left. reflexivity.
Qed.

(** X14: on no command line does the loop call [back()] on an empty
    [renderSettings]: the vector holds an element in every round.
    Whenever the loop gets to the end of the arguments, it leaves a
    [renderSettings] that is not empty, so that [display] finds render
    settings for every window index. *)
Theorem command_line_keeps_render_settings (argv : list string) (cfg : Options) :
  (exists r, commandLine argv cfg = Some r /\ r <> EmptyBack)
  /\ forall o,
       commandLine argv cfg = Some (Ok o) ->
       renderSettings o <> []
       /\ forall windowIndex, exists rs,
            windowSettings windowIndex (renderSettings o) = Some rs
            /\ In rs (renderSettings o).
Proof.
  unfold commandLine, CommandLine.commandLine.
  match goal with
  | |- (exists r, CommandLine.parseArguments _ _ _ _ _ _ ?fuel ?args ?o = _ /\ _)
       /\ _ =>
      destruct (parseArguments_run fuel fuel args o [] (fst (defaultRenderSettings
                  projectorTransformFile CONFIG_CONFIGDIR
                  CONFIG_DEFAULTPROJECTIONMATRIXFILENAME)))
        as [Hrun | [Hrun | (o' & Hrun & tail & Et & Hne)]]
  end.
  - destruct argv; cbn; lia.
  - apply Nat.le_refl.
  - reflexivity.
  - split; [exists NullArgument; split; [exact Hrun | discriminate]|].
    intros o Hok. unfold parseArguments in Hrun. rewrite Hrun in Hok.
    discriminate Hok.
  - split; [exists OutOfBounds; split; [exact Hrun | discriminate]|].
    intros o Hok. unfold parseArguments in Hrun. rewrite Hrun in Hok.
    discriminate Hok.
  - split; [exists (Ok o'); split; [exact Hrun | discriminate]|].
    intros o Hok. unfold parseArguments in Hrun. rewrite Hrun in Hok.
    injection Hok as <-.
    cbn [app] in Et. rewrite Et.
    split; [exact Hne | intros w; apply windowSettings_defined; exact Hne].
Qed.

(** X15: from any round of the loop on, the switches that follow change
    the last element of [renderSettings] or append to it: the elements
    before the last one stay as they are, also after a [-wi] with a
    smaller index. *)
Theorem switches_reach_the_last_window_only
    (args : list string) (o o' : Options)
    (front : list RenderSettings) (b : RenderSettings) :
  renderSettings o = (front ++ [b])%list ->
  parseArguments (List.length args) args o = Some (Ok o') ->
  exists tail, renderSettings o' = (front ++ tail)%list /\ tail <> [].
Proof.
  intros E Hrun.
  destruct (parseArguments_run (List.length args) (List.length args) args o front b)
    as [Hnull | [Hout | (o1 & Hrun1 & Hkeep)]];
    [apply Nat.le_refl | apply Nat.le_refl | exact E | congruence | congruence |].
  rewrite Hrun in Hrun1. injection Hrun1 as <-. exact Hkeep.
Qed.

(** X16: a switch that converts or copies its operands reads as many
    arguments as its count says, whatever they are.  When fewer
    arguments are left, it hands the null pointer behind the last
    argument to the conversion. *)
Theorem value_switches_read_their_operands
    (switch : string) (n : nat) (rest : list string) (o : Options) :
  operandCount switch operands = Some n ->
  renderSettings o <> [] ->
  ((List.length rest < n)%nat ->
   parseArgument (String "-" switch) rest o = NullArgument)
  /\ ((n <= List.length rest)%nat ->
      exists o', parseArgument (String "-" switch) rest o = Ok (skipn n rest, o')).
Proof.
  intros Hcount Hne.
  destruct (nonempty_split _ Hne) as (front & b & E).
  cbn [operandCount operands fst snd] in Hcount.
  unfold parseArgument, CommandLine.parseArgument.
  change (isDash (firstChar (String "-" switch))) with true.
  cbv iota zeta. cbn [afterFirstChar].
  repeat match type of Hcount with
         | context [if isToken ?t ?p then _ else _] =>
             let T := fresh "T" in destruct (isToken t p) eqn:T
         end;
    try discriminate Hcount; injection Hcount as <-.
  all: repeat match goal with
              | T : isToken _ _ = true |- _ =>
                  unfold isToken in T; apply String.eqb_eq in T; cbn in T
              | T : isToken _ _ = false |- _ => clear T
              end.
  all: unfold isToken;
    match goal with T : lowercase _ = _ |- _ => rewrite T end;
    repeat match goal with
           | |- context [String.eqb ?a ?b] =>
               let v := eval vm_compute in (String.eqb a b) in
               change (String.eqb a b) with v
           end;
    cbv iota; unfold operand.
  all: split; intros Hlen.
  all: repeat match goal with
              | |- context [match ?l with [] => _ | _ :: _ => _ end] =>
                  is_var l; destruct l; cbn [List.length] in Hlen
              | H : (S _ <= 0)%nat |- _ => exfalso; lia
              | H : (S _ < 1)%nat |- _ => exfalso; lia
              end.
  all: try reflexivity; try (exfalso; lia).
  all: rewrite ?E, ?extend_app, ?extend_shape.
  all: repeat erewrite onBack_front by (cbn; first [exact E | reflexivity]).
  all: eexists; reflexivity.
Qed.



End Parser.

Lemma lastColon_none (port : string) (colonPtr : option string) :
  forallb (fun c => negb (nat_of_ascii c =? 58)%nat) (list_ascii_of_string port) = true ->
  lastColon port colonPtr = colonPtr.
Proof.
  revert colonPtr. induction port as [|c r IH]; intros colonPtr H; [reflexivity|].
  cbn in H. apply andb_true_iff in H. destruct H as [Hc Hr].
  apply negb_true_iff in Hc. cbn. rewrite Hc. apply IH. exact Hr.
Qed.

Lemma lastColon_append (host port : string) (colonPtr : option string) :
  forallb (fun c => negb (nat_of_ascii c =? 58)%nat) (list_ascii_of_string port) = true ->
  lastColon (host ++ ":" ++ port) colonPtr = Some (":" ++ port).
Proof.
  intros Hport. revert colonPtr.
  induction host as [|c r IH]; intros colonPtr.
  - cbn. apply lastColon_none. exact Hport.
  - cbn [append lastColon]. apply IH.
Qed.

Lemma substring_prefix (a b : string) : substring 0 (String.length a) (a ++ b) = a.
Proof.
  induction a as [|c r IH]; cbn; [destruct b; reflexivity|].
  rewrite IH. reflexivity.
Qed.

(** X18: the server name is split at its last colon: a name written as
    host, colon, port is read back as that host and the converted
    port, also when the host holds colons itself; a name without a
    colon is a host on port 26000. *)
Theorem server_name_splits_at_last_colon
    (atoi : string -> Z) (host port : string) :
  forallb (fun c => negb (nat_of_ascii c =? 58)%nat) (list_ascii_of_string port) = true ->
  splitServerName atoi (host ++ ":" ++ port) = (host, atoi port)
  /\ splitServerName atoi port = (port, 26000).
Proof.
  intros Hport. unfold splitServerName. split.
  - rewrite (lastColon_append host port None Hport). cbn [append].
    unfold before. f_equal.
    rewrite length_append. cbn [String.length append].
    replace (String.length host + S (String.length port) - S (String.length port))%nat
      with (String.length host) by lia.
    apply (substring_prefix host (String ":" port)).
  - rewrite (lastColon_none port None Hport). reflexivity.
Qed.

Lemma command_line_keeps_render_settings_witness :
  Samples.commandLine ["SARndbox"; "-wi"; "1"; "-uhs"] Samples.options
  = Some (Ok Samples.afterCommandLine)
  /\ List.length (renderSettings Samples.afterCommandLine) = 2%nat
  /\ renderSettings Samples.afterCommandLine <> [].
Proof.
  assert (Hrun : Samples.commandLine ["SARndbox"; "-wi"; "1"; "-uhs"] Samples.options
                 = Some (Ok Samples.afterCommandLine)) by (vm_compute; reflexivity).
  split; [exact Hrun|]. split; [reflexivity|].
  apply (command_line_keeps_render_settings
           Libc.atof Libc.atoi (fun _ => None) (fun _ => None)
           "etc" "ProjectorMatrix.dat" "HeightColorMap.cpt"
           ["SARndbox"; "-wi"; "1"; "-uhs"] Samples.options).
  exact Hrun.
Defined.

Lemma switches_reach_the_last_window_only_witness :
  exists tail,
    renderSettings Samples.afterSwitches = ([Samples.shadedWindow] ++ tail)%list.
Proof.
  destruct (switches_reach_the_last_window_only
              Libc.atof Libc.atoi (fun _ => None) (fun _ => None)
              "etc" "HeightColorMap.cpt"
              ["-wi"; "0"; "-ncl"] Samples.twoWindows Samples.afterSwitches
              [Samples.shadedWindow] Samples.window)
    as (tail & H & _).
  - reflexivity.
  - vm_compute. reflexivity.
  - exists tail. exact H.
Defined.

Lemma value_switches_read_their_operands_witness :
  Samples.parseArgument "-ws" ["2"] Samples.twoWindows = NullArgument
  /\ exists o', Samples.parseArgument "-s" ["-h"; "-wi"] Samples.twoWindows
                = Ok (["-wi"], o').
Proof.
  split.
  - apply (value_switches_read_their_operands
             Libc.atof Libc.atoi (fun _ => None) (fun _ => None)
             "etc" "HeightColorMap.cpt" "ws" 2 ["2"] Samples.twoWindows eq_refl).
    + discriminate.
    + cbn. lia.
  - apply (value_switches_read_their_operands
             Libc.atof Libc.atoi (fun _ => None) (fun _ => None)
             "etc" "HeightColorMap.cpt" "s" 1 ["-h"; "-wi"] Samples.twoWindows eq_refl).
    + discriminate.
    + cbn. lia.
Defined.



Lemma server_name_splits_at_last_colon_witness :
  splitServerName Libc.atoi "kinect.local:26001" = ("kinect.local", Libc.atoi "26001")
  /\ splitServerName Libc.atoi "localhost" = ("localhost", 26000).
Proof.
  split.
  - apply (server_name_splits_at_last_colon Libc.atoi "kinect.local" "26001" eq_refl).
  - apply (server_name_splits_at_last_colon Libc.atoi EmptyString "localhost" eq_refl).
Defined.

End CommandLineFacts.

(** ** The DEM *)

Module DEMFacts.

Import DEM.

Lemma Qsum_bounds (lo hi : Q) (dem : list Q) :
  Forall (fun e => lo <= e <= hi)%Q dem ->
  (inject_Z (Z.of_nat (List.length dem)) * lo <= Qsum dem
   <= inject_Z (Z.of_nat (List.length dem)) * hi)%Q.
Proof.
  induction 1 as [|e rest [Hlo Hhi] Hrest [IHlo IHhi]].
  - cbn [List.length Qsum Z.of_nat]. change (inject_Z 0) with 0%Q. lra.
  - cbn [List.length Qsum]. rewrite Nat2Z.inj_succ. unfold Z.succ.
    rewrite inject_Z_plus. change (inject_Z 1) with 1%Q. split; lra.
Qed.

(** X19: the average elevation of a DEM that is not empty lies between its
    lowest and its highest measurement. *)
Theorem average_elevation_within_range (lo hi : Q) (dem : list Q) :
  dem <> [] ->
  Forall (fun e => lo <= e <= hi)%Q dem ->
  (lo <= calcAverageElevation dem <= hi)%Q.
Proof.
  intros Hne Hall. destruct (Qsum_bounds lo hi dem Hall) as [Hlo Hhi].
  unfold calcAverageElevation.
  assert (Hpos : (0 < inject_Z (Z.of_nat (List.length dem)))%Q).
  { destruct dem; [contradiction|]. unfold Qlt. cbn. lia. }
  split.
  - apply Qle_shift_div_l; [exact Hpos|]. lra.
  - apply Qle_shift_div_r; [exact Hpos|]. lra.
Qed.

Lemma average_elevation_within_range_witness :
  (1 <= calcAverageElevation [1; 2; 3] <= 3)%Q.
Proof.
  apply average_elevation_within_range; [discriminate|].
  repeat constructor; cbn; discriminate.
Defined.

(** X20: for a DEM of at least one pixel column and row, the pixel
    transformation sends the left and bottom edges of the DEM box to
    the centre of the first pixel column and row, the right and top
    edges to the centre of the last ones, and leaves the vertical scale
    base where it is. *)
Theorem dem_box_maps_to_pixel_centres (d : DEM) (x0 y0 x1 y1 : Q) :
  1 <= fst (demSize d) < 2 ^ 32 -> 1 <= snd (demSize d) < 2 ^ 32 ->
  demBox d = (x0, y0, x1, y1) ->
  ~ (x1 == x0)%Q -> ~ (y1 == y0)%Q -> ~ (verticalScale d == 0)%Q ->
  (fst (fst (demToPixel d x0 y0 (verticalScaleBase d))) == 1 # 2)%Q
  /\ (snd (fst (demToPixel d x0 y0 (verticalScaleBase d))) == 1 # 2)%Q
  /\ (fst (fst (demToPixel d x1 y1 (verticalScaleBase d)))
      == inject_Z (fst (demSize d)) - (1 # 2))%Q
  /\ (snd (fst (demToPixel d x1 y1 (verticalScaleBase d)))
      == inject_Z (snd (demSize d)) - (1 # 2))%Q
  /\ (snd (demToPixel d x1 y1 (verticalScaleBase d)) == verticalScaleBase d)%Q.
Proof.
  intros Hw Hh Ebox Hx Hy Hz. unfold demToPixel, ControlPipe.toUnsigned.
  rewrite Ebox, !Z.mod_small by lia. cbn [fst snd].
  assert (Hx' : ~ (x1 - x0 == 0)%Q) by (intros H; apply Hx; lra).
  assert (Hy' : ~ (y1 - y0 == 0)%Q) by (intros H; apply Hy; lra).
  unfold Z.sub. rewrite !inject_Z_plus. change (inject_Z (- (1))) with (-1 # 1)%Q.
  split; [field; assumption|]. split; [field; assumption|].
  split; [field; assumption|]. split; [field; assumption|].
  field; assumption.
Qed.

Lemma dem_box_maps_to_pixel_centres_witness :
  (fst (fst (demToPixel (mkDEM (640, 480)%Z (0, 0, 10, 5)%Q 2 1) 10 5 1))
   == 640 - (1 # 2))%Q
  /\ (snd (demToPixel (mkDEM (640, 480)%Z (0, 0, 10, 5)%Q 2 1) 10 5 1) == 1)%Q.
Proof.
  destruct (dem_box_maps_to_pixel_centres
              (mkDEM (640, 480)%Z (0, 0, 10, 5)%Q 2 1) 0 0 10 5)
    as (_ & _ & H1 & _ & H2);
    [cbn; lia | cbn; lia | reflexivity | vm_compute; discriminate ..|].
  split; [exact H1 | exact H2].
Defined.

End DEMFacts.

(** ** The active DEM *)

Module ActiveDemFacts.

Import ActiveDem.

Lemma last_snoc (received : list Pointer) (dem : Pointer) :
  currentDem (received ++ [dem]) = dem.
Proof. unfold currentDem. apply last_last. Qed.

Lemma setDemAll_inStep (dem : Pointer) (rss rss' : list RenderSettings) :
  setDemAll dem rss = Some rss' ->
  Forall (fun rs =>
            fixProjectorView rs = true ->
            option_map currentDem (surfaceRenderer rs) = Some dem) rss'
  /\ map fixProjectorView rss' = map fixProjectorView rss.
Proof.
  revert rss'. induction rss as [|rs rest IH]; intros rss' E.
  - injection E as <-. split; [constructor | reflexivity].
  - cbn in E. destruct (fixProjectorView rs) eqn:Ef.
    + destruct (surfaceRenderer rs) as [received|]; [|discriminate E].
      destruct (setDemAll dem rest) as [rest'|]; [|discriminate E].
      injection E as <-. destruct (IH rest' eq_refl) as [IH1 IH2].
      split; [|cbn; rewrite Ef, IH2; reflexivity].
      constructor; [|exact IH1]. intros _. cbn. rewrite last_snoc. reflexivity.
    + destruct (setDemAll dem rest) as [rest'|]; [|discriminate E].
      injection E as <-. destruct (IH rest' eq_refl) as [IH1 IH2].
      split; [|cbn; rewrite IH2; reflexivity].
      constructor; [|exact IH1]. intros H. congruence.
Qed.

Lemma setDemAll_defined (dem : Pointer) (rss : list RenderSettings) :
  Forall (fun rs => surfaceRenderer rs <> None) rss ->
  exists rss', setDemAll dem rss = Some rss'
               /\ Forall (fun rs => surfaceRenderer rs <> None) rss'.
Proof.
  induction 1 as [|rs rest Hrs Hrest (rest' & E & IH)]; cbn.
  - exists []. split; [reflexivity | constructor].
  - rewrite E. destruct (fixProjectorView rs).
    + destruct (surfaceRenderer rs) as [received|]; [|congruence].
      eexists. split; [reflexivity|]. constructor; [cbn; discriminate | exact IH].
    + eexists. split; [reflexivity|]. constructor; assumption.
Qed.

(** X21: with a surface renderer for every window, as the constructor
    leaves it, [toggleDEM] returns; the active DEM is then null or the
    DEM given, and the surface renderer of every window with a fixed
    projector view holds the active DEM.  Toggling a DEM twice
    restores the active DEM when it was null or that DEM before. *)
Theorem toggleDEM_keeps_renderers_in_step (dem : Pointer) (s : Sandbox) :
  Forall (fun rs => surfaceRenderer rs <> None) (renderSettings s) ->
  exists s1 s2,
    toggleDEM dem s = Some s1
    /\ (activeDem s = dem -> activeDem s1 = 0)
    /\ (activeDem s <> dem -> activeDem s1 = dem)
    /\ inStep s1
    /\ toggleDEM dem s1 = Some s2
    /\ inStep s2
    /\ (activeDem s = 0 \/ activeDem s = dem -> activeDem s2 = activeDem s).
Proof.
  intros Hr.
  set (a1 := if activeDem s =? dem then 0 else dem).
  destruct (setDemAll_defined a1 _ Hr) as (rss1 & E1 & Hr1).
  assert (T1 : toggleDEM dem s = Some (mkSandbox a1 rss1))
    by (unfold toggleDEM; cbv zeta; fold a1; rewrite E1; reflexivity).
  set (a2 := if a1 =? dem then 0 else dem).
  destruct (setDemAll_defined a2 _ Hr1) as (rss2 & E2 & Hr2).
  assert (T2 : toggleDEM dem (mkSandbox a1 rss1) = Some (mkSandbox a2 rss2))
    by (unfold toggleDEM; cbv zeta; cbn [activeDem renderSettings]; fold a2;
        rewrite E2; reflexivity).
  exists (mkSandbox a1 rss1), (mkSandbox a2 rss2).
  split; [exact T1|]. cbn [activeDem renderSettings].
  split; [unfold a1; destruct (Z.eqb_spec (activeDem s) dem); intros H;
          [reflexivity | contradiction]|].
  split; [unfold a1; destruct (Z.eqb_spec (activeDem s) dem); intros H;
          [contradiction | reflexivity]|].
  split; [apply (proj1 (setDemAll_inStep _ _ _ E1))|].
  split; [exact T2|].
  split; [apply (proj1 (setDemAll_inStep _ _ _ E2))|].
  unfold a2, a1. intros [H0 | Hd].
  - rewrite H0. destruct (Z.eqb_spec 0 dem) as [<- | Hne]; cbn.
    + reflexivity.
    + rewrite Z.eqb_refl. reflexivity.
  - rewrite Hd, Z.eqb_refl. destruct (Z.eqb_spec 0 dem) as [<- | Hne]; reflexivity.
Qed.

Lemma toggleDEM_keeps_renderers_in_step_witness :
  exists s1 s2,
    toggleDEM 7 Samples.demSandbox = Some s1
    /\ activeDem s1 = 7
    /\ toggleDEM 7 s1 = Some s2
    /\ activeDem s2 = 0.
Proof.
  destruct (toggleDEM_keeps_renderers_in_step 7 Samples.demSandbox)
    as (s1 & s2 & H1 & _ & H2 & _ & H3 & _ & H4).
  - repeat constructor; cbn; discriminate.
  - exists s1, s2. split; [exact H1|]. split; [apply H2; cbn; lia|].
    split; [exact H3|]. apply H4. left. reflexivity.
Defined.

(** X22: [toolDestructionCallback] resets [activeDem] when the active
    DEM is destroyed, and calls no surface renderer: the surface
    renderers of the windows with a fixed projector view keep the
    destroyed DEM that [toggleDEM] gave them. *)
Theorem destroyed_dem_stays_in_the_renderers (dem : Pointer) (s : Sandbox) :
  dem <> 0 -> activeDem s <> dem ->
  Forall (fun rs => surfaceRenderer rs <> None) (renderSettings s) ->
  exists s1,
    toggleDEM dem s = Some s1
    /\ activeDem s1 = dem
    /\ activeDem (toolDestructionCallback dem s1) = 0
    /\ renderSettings (toolDestructionCallback dem s1) = renderSettings s1
    /\ Forall (fun rs =>
                 fixProjectorView rs = true ->
                 option_map currentDem (surfaceRenderer rs) = Some dem)
              (renderSettings (toolDestructionCallback dem s1)).
Proof.
  intros Hdem Hactive Hr.
  destruct (setDemAll_defined dem _ Hr) as (rss1 & E1 & Hr1).
  assert (T1 : toggleDEM dem s = Some (mkSandbox dem rss1)).
  { unfold toggleDEM. cbv zeta.
    destruct (Z.eqb_spec (activeDem s) dem) as [Heq | _]; [contradiction|].
    rewrite E1. reflexivity. }
  exists (mkSandbox dem rss1). split; [exact T1|]. split; [reflexivity|].
  unfold toolDestructionCallback. cbn [activeDem]. rewrite Z.eqb_refl.
  cbn [activeDem renderSettings]. split; [reflexivity|]. split; [reflexivity|].
  apply (proj1 (setDemAll_inStep _ _ _ E1)).
Qed.

Lemma destroyed_dem_stays_in_the_renderers_witness :
  exists s1,
    toggleDEM 7 Samples.demSandbox = Some s1
    /\ activeDem (toolDestructionCallback 7 s1) = 0
    /\ map (fun rs => option_map currentDem (surfaceRenderer rs))
           (renderSettings (toolDestructionCallback 7 s1))
       = [Some 7; Some 0].
Proof.
  destruct (destroyed_dem_stays_in_the_renderers 7 Samples.demSandbox)
    as (s1 & H1 & _ & H2 & _).
  - discriminate.
  - cbn. discriminate.
  - repeat constructor; cbn; discriminate.
  - exists s1. split; [exact H1|]. split; [exact H2|].
    vm_compute in H1. injection H1 as <-. reflexivity.
Defined.

End ActiveDemFacts.

(** ** The slider callbacks *)

Module SliderCallbacksFacts.

Import SliderCallbacks.

(** X23: on the range of the slider, 0 to 200, the callback stores the
    integer nearest to the slider value, halves rounded up; it lies in
    the range too. *)
Theorem waterMaxSteps_slider_rounds_to_nearest (value : Q) :
  (0 <= value <= 200)%Q ->
  0 <= waterMaxStepsSliderCallback value <= 200
  /\ (value - (1 # 2) < inject_Z (waterMaxStepsSliderCallback value)
      <= value + (1 # 2))%Q.
Proof.
  intros [Hlo Hhi]. unfold waterMaxStepsSliderCallback.
  pose proof (Qfloor_le (value + (1 # 2))) as Hle.
  pose proof (Qlt_floor (value + (1 # 2))) as Hlt.
  assert (H0 : 0 <= Qfloor (value + (1 # 2))).
  { change 0 with (Qfloor 0). apply Qfloor_resp_le. lra. }
  assert (H200 : Qfloor (value + (1 # 2)) <= 200).
  { apply Z.lt_succ_r. rewrite Zlt_Qlt.
    eapply Qle_lt_trans; [exact Hle|]. change (inject_Z (Z.succ 200)) with 201%Q. lra. }
  unfold ControlPipe.toUnsigned. rewrite Z.mod_small by lia.
  split; [lia|]. split; [|exact Hle].
  rewrite inject_Z_plus in Hlt. change (inject_Z 1) with 1%Q in Hlt. lra.
Qed.

Lemma waterMaxSteps_slider_rounds_to_nearest_witness :
  0 <= waterMaxStepsSliderCallback (61 # 2) <= 200.
Proof.
  apply waterMaxSteps_slider_rounds_to_nearest. split; vm_compute; discriminate.
Defined.

End SliderCallbacksFacts.

(** ** Runs of frames *)

Module DisplayRunsFacts.

Import GridRequest Display DisplayRuns.

Section Engine.
Context {WaterTable : Type} {I : WaterTableInterface WaterTable}.

Lemma displayAll_without_water_table (fr : Frame) (contexts : list nat) :
  forall w : World WaterTable,
    hasWaterTable (sandbox w) = false ->
    sandbox (fst (displayAll fr contexts w)) = sandbox w
    /\ Forall (fun p => snd p = []) (snd (displayAll fr contexts w)).
Proof.
  induction contexts as [|c rest IH]; intros w Hw; cbn [displayAll].
  - split; [reflexivity | constructor].
  - unfold displayIn. unfold display. rewrite Hw. cbn [andb].
    specialize (IH (mkWorld (sandbox w) (setContext c (contextData w c) (contextData w)))
                   Hw).
    destruct (displayAll fr rest _) as [w'' trace]. cbn [fst snd] in *.
    destruct IH as [IH1 IH2]. split; [exact IH1|].
    constructor; [reflexivity | exact IH2].
Qed.

(** X24: without a water table [display] never looks at the request slot:
    over any run of frames and contexts a request held in the slot
    stays there, no grid is read back, no callback is made, and every
    later [requestGrids] is refused. *)
Theorem request_without_water_table_blocks_the_slot
    (frames : list (Frame * list nat)) (w : World WaterTable) (r : Request) :
  hasWaterTable (sandbox w) = false ->
  isActive (gridRequest (sandbox w)) = true ->
  sandbox (fst (displayFrames frames w)) = sandbox w
  /\ Forall (fun p => snd p = []) (snd (displayFrames frames w))
  /\ submit (gridRequest (sandbox (fst (displayFrames frames w)))) r
     = (gridRequest (sandbox w), false).
Proof.
  intros Hw Ha.
  assert (Hrun : sandbox (fst (displayFrames frames w)) = sandbox w
                 /\ Forall (fun p => snd p = []) (snd (displayFrames frames w))).
  { clear Ha. revert w Hw.
    induction frames as [|[fr contexts] rest IH]; intros w Hw; cbn [displayFrames].
    - split; [reflexivity | constructor].
    - destruct (displayAll_without_water_table fr contexts w Hw) as [H1 H2].
      destruct (displayAll fr contexts w) as [w' trace]. cbn [fst snd] in *.
      destruct (IH w') as [IH1 IH2]; [rewrite H1; exact Hw|].
      destruct (displayFrames rest w') as [w'' trace']. cbn [fst snd] in *.
      split; [rewrite IH1; exact H1|]. apply Forall_app. split; assumption. }
  destruct Hrun as [H1 H2]. split; [exact H1|]. split; [exact H2|].
  rewrite H1. unfold submit, requestGrids.
  unfold isActive in Ha. apply negb_true_iff in Ha. rewrite Ha. reflexivity.
Qed.

End Engine.

Lemma request_without_water_table_blocks_the_slot_witness :
  submit (gridRequest
            (sandbox (fst (displayFrames
                             [(Examples.frame, [0; 1]%nat); (mkFrame 2 (1 # 30), [0%nat])]
                             (mkWorld (mkSandbox false Examples.request 1 30)
                                      (fun _ => Examples.dataItem))))))
         (mkRequest 1 2 3 4 5)
  = (Examples.request, false).
Proof.
  apply (request_without_water_table_blocks_the_slot
           [(Examples.frame, [0; 1]%nat); (mkFrame 2 (1 # 30), [0%nat])]
           (mkWorld (mkSandbox false Examples.request 1 30) (fun _ => Examples.dataItem))
           (mkRequest 1 2 3 4 5)); reflexivity.
Defined.

End DisplayRunsFacts.

(** ** The event tools *)

Module EventsFacts.

Import ControlPipe Events.

Lemma eventCallback_constructed (eventId : Z) (newButtonState : bool) (s : Sandbox) :
  constructed s ->
  exists s',
    eventCallback eventId newButtonState s = Normal s'
    /\ constructed s'
    /\ pauseUpdates s'
       = (if (eventId =? 0) && newButtonState then negb (pauseUpdates s)
          else pauseUpdates s)
    /\ (pauseUpdatesToggle s = Some (pauseUpdates s) ->
        pauseUpdatesToggle s' = Some (pauseUpdates s')).
Proof.
  intros [Ht Hp]. unfold eventCallback.
  assert (Hsame : exists s',
             Normal s = Normal s' /\ constructed s'
             /\ pauseUpdates s' = pauseUpdates s
             /\ (pauseUpdatesToggle s = Some (pauseUpdates s) ->
                 pauseUpdatesToggle s' = Some (pauseUpdates s'))).
  { exists s. split; [reflexivity|]. split; [split; assumption|].
    split; [reflexivity | auto]. }
  destruct newButtonState; [|rewrite andb_false_r; exact Hsame].
  rewrite andb_true_r.
  destruct (eventId =? 0) eqn:E0.
  - destruct (pauseUpdatesToggle s) eqn:Et; [|congruence].
    eexists. split; [reflexivity|]. cbn.
    split; [split; [discriminate | exact Hp]|]. split; reflexivity.
  - destruct (eventId =? 1) eqn:E1; [|destruct (eventId =? 2) eqn:E2].
    + destruct (propertyGridCreator s) as [received|] eqn:Ep; [|exact Hsame].
      destruct Hp as [Hr Ha]; [discriminate|].
      destruct (waterRoughnessSlider s) eqn:Es; try contradiction.
      cbn [readSlider]. eexists. split; [reflexivity|]. cbn.
      split; [split; [exact Ht | intros _; split; [exact I | exact Ha]]|].
      split; [reflexivity | auto].
    + destruct (propertyGridCreator s) as [received|] eqn:Ep; [|exact Hsame].
      destruct Hp as [Hr Ha]; [discriminate|].
      destruct (waterAbsorptionSlider s) eqn:Es; try contradiction.
      cbn [readSlider]. eexists. split; [reflexivity|]. cbn.
      split; [split; [exact Ht | intros _; split; [exact Hr | exact I]]|].
      split; [reflexivity | auto].
    + exact Hsame.
Qed.

(** X25: on a sandbox as the constructor leaves it, whether it has a water
    table or not, no run of button events dereferences a null pointer
    or reads a pointer that was never written.  Updates end up paused
    or not by the parity of the presses of the pause button, releases
    not counted, and the toggle of the main menu shows that state. *)
Theorem event_tools_are_safe (events : list (Z * bool)) (s : Sandbox) :
  constructed s ->
  pauseUpdatesToggle s = Some (pauseUpdates s) ->
  exists s',
    eventCallbacks events s = Normal s'
    /\ constructed s'
    /\ pauseUpdates s'
       = (if Nat.even (pausePresses events) then pauseUpdates s
          else negb (pauseUpdates s))
    /\ pauseUpdatesToggle s' = Some (pauseUpdates s').
Proof.
  revert s. induction events as [|[eventId newButtonState] rest IH]; intros s Hc Ht.
  - exists s. split; [reflexivity|]. split; [exact Hc|].
    split; [reflexivity | exact Ht].
  - cbn [eventCallbacks].
    destruct (eventCallback_constructed eventId newButtonState s Hc)
      as (s1 & E & Hc1 & Hp1 & Ht1).
    rewrite E. destruct (IH s1 Hc1 (Ht1 Ht)) as (s' & Erun & Hc' & Hp' & Ht').
    exists s'. split; [exact Erun|]. split; [exact Hc'|]. split; [|exact Ht'].
    rewrite Hp', Hp1. unfold pausePresses. cbn [filter fst snd].
    destruct ((eventId =? 0) && newButtonState); [|reflexivity].
    cbn [List.length]. rewrite Nat.even_succ, <- Nat.negb_even.
    destruct (Nat.even _); [reflexivity | apply negb_involutive].
Qed.

Lemma event_tools_are_safe_witness :
  exists s',
    eventCallbacks [(0, true); (0, false); (1, true); (0, true); (0, true)]
                   (mkSandbox false (Some false) None Indeterminate Indeterminate)
    = Normal s'
    /\ pauseUpdates s' = true.
Proof.
  destruct (event_tools_are_safe
              [(0, true); (0, false); (1, true); (0, true); (0, true)]
              (mkSandbox false (Some false) None Indeterminate Indeterminate))
    as (s' & H1 & _ & H2 & _).
  - split; [discriminate | intros H; contradiction].
  - reflexivity.
  - exists s'. split; [exact H1 | exact H2].
Defined.

End EventsFacts.
